(** * StockAnalysis: the scoring core, the fetcher and the routes of [app.py]

    A shallow embedding of the four scoring functions and of the aggregator
    [calculate_overall_score_and_reasons], of the fetcher with its retry
    helper and its cache, and of the watchlist, default stocks and stock
    data routes, with the properties the specification states about them and
    further properties read off the code.

    Python values are modelled as they reach the code: [None], [bool],
    unbounded [int], binary64 [float] (Rocq's primitive floats, so every
    comparison and product below is the IEEE-754 one Python performs),
    [str], and the three containers a snapshot dict holds.  Code that can
    raise returns in the error monad [exc], or in [outcome] where the
    exception is not an arithmetic one.  The two JSON files, the cache and
    the dict objects it refers to are explicit state; the provider, the
    clock, the library functions on text and dates, and what pandas'
    rolling mean and sort leave to the implementation are parameters. *)

From Stdlib Require Import ZArith Floats Ascii String DecimalString.
From stdpp Require Import base option gmap strings list.

Set Warnings "-inexact-float".
#[local] Open Scope Z_scope.

(** ** Exceptions *)

Inductive exn : Set :=
| TypeError
| ValueError
| KeyError
| OverflowError
| ZeroDivisionError.

Inductive exc (A : Type) : Type :=
| Ok (a : A)
| Raise (e : exn).
Arguments Ok {A} a.
Arguments Raise {A} e.

#[global] Instance exc_ret : MRet exc := fun _ a => Ok a.
#[global] Instance exc_bind : MBind exc := fun _ _ f m =>
  match m with
  | Ok a => f a
  | Raise e => Raise e
  end.

Definition returns {A} (m : exc A) : bool :=
  match m with Ok _ => true | Raise _ => false end.

(** ** Numbers *)

Module PyNum.

(** What [isinstance(x, (int, float))] accepts, after [bool] is read as the
    [int] it subclasses. *)
Inductive num : Set :=
| NInt (z : Z)
| NFloat (f : float).

(** The first integer magnitude that rounds to 2^1024: [float(n)] raises
    [OverflowError] from there on. *)
Definition float_limit : Z := 2 ^ 1024 - 2 ^ 970.

Definition SF_of_int (z : Z) : spec_float :=
  match z with
  | Z0 => S754_zero false
  | Zpos p => S754_finite false p 0
  | Zneg p => S754_finite true p 0
  end.

(** [float(n)] for an [int]: round to nearest, ties to even. *)
Definition float_of_int (z : Z) : exc float :=
  if Z.abs z <? float_limit
  then Ok (SF2Prim (binary_normalize prec emax z 0 false))
  else Raise OverflowError.
#[global] Arguments float_of_int : simpl never.

Definition to_float (x : num) : exc float :=
  match x with
  | NInt z => float_of_int z
  | NFloat f => Ok f
  end.

(** Python compares an [int] with a [float] by value, without rounding
    the [int]. *)
Definition int_compare_float (z : Z) (f : float) : option comparison :=
  match Prim2SF f with
  | S754_nan => None
  | S754_infinity s => Some (if s then Gt else Lt)
  | S754_zero _ => Some (z ?= 0)
  | S754_finite s m e =>
      let v := if s then Zneg m else Zpos m in
      Some (if 0 <=? e then z ?= v * 2 ^ e else z * 2 ^ (- e) ?= v)
  end.

Definition compare (x y : num) : option comparison :=
  match x, y with
  | NInt a, NInt b => Some (a ?= b)
  | NFloat a, NFloat b =>
      match PrimFloat.compare a b with
      | FEq => Some Eq
      | FLt => Some Lt
      | FGt => Some Gt
      | FNotComparable => None
      end
  | NInt a, NFloat b => int_compare_float a b
  | NFloat a, NInt b => CompOpp <$> int_compare_float b a
  end.

(** [x < y], [x <= y], [x > y], [x >= y], [x == y], [x != y]: every
    ordering test with a NaN operand is false, and [!=] is then true. *)
Definition lt (x y : num) : bool :=
  match compare x y with Some Lt => true | _ => false end.
Definition le (x y : num) : bool :=
  match compare x y with Some Lt | Some Eq => true | _ => false end.
Definition gt (x y : num) : bool := lt y x.
Definition ge (x y : num) : bool := le y x.
Definition eq (x y : num) : bool :=
  match compare x y with Some Eq => true | _ => false end.
Definition ne (x y : num) : bool := negb (eq x y).

(** Truth value of a number: zero (of either sign) is false, NaN true. *)
Definition truthy (x : num) : bool := ne x (NInt 0).

(** [x - y] and [x * y]: exact on two [int]s, otherwise both operands are
    taken to [float] first. *)
Definition sub (x y : num) : exc num :=
  match x, y with
  | NInt a, NInt b => Ok (NInt (a - b))
  | _, _ => a ← to_float x; b ← to_float y; Ok (NFloat (a - b)%float)
  end.

Definition mul (x y : num) : exc num :=
  match x, y with
  | NInt a, NInt b => Ok (NInt (a * b))
  | _, _ => a ← to_float x; b ← to_float y; Ok (NFloat (a * b)%float)
  end.

(** [x / y] (true division).  Two [int]s give the correctly rounded
    quotient, [OverflowError] when it rounds beyond the floats.  Otherwise
    both operands are taken to [float] and a zero divisor raises (an [int]
    converts to zero only when it is zero). *)
Definition truediv (x y : num) : exc num :=
  match x, y with
  | NInt a, NInt b =>
      if b =? 0 then Raise ZeroDivisionError
      else if float_limit * Z.abs b <=? Z.abs a then Raise OverflowError
      else Ok (NFloat (SF2Prim (SFdiv prec emax (SF_of_int a) (SF_of_int b))))
  | _, _ =>
      a ← to_float x; b ← to_float y;
      if eq y (NInt 0) then Raise ZeroDivisionError else Ok (NFloat (a / b)%float)
  end.

(** [abs(x)]. *)
Definition abs (x : num) : num :=
  match x with
  | NInt z => NInt (Z.abs z)
  | NFloat f => NFloat (PrimFloat.abs f)
  end.

End PyNum.
Export PyNum (num, NInt, NFloat).

(** ** Formatting *)

Module PyFormat.

(** [n / d] rounded to the nearest integer, ties to the even one
    ([0 <= n], [0 < d]). *)
Definition round_half_even (n d : Z) : Z :=
  let q := n / d in
  let r := n mod d in
  match 2 * r ?= d with
  | Lt => q
  | Gt => q + 1
  | Eq => if Z.even q then q else q + 1
  end.

(** The magnitude [m * 2^e] times [scale], rounded half-even. *)
Definition scaled_round (scale : Z) (m : positive) (e : Z) : Z :=
  if 0 <=? e then Zpos m * scale * 2 ^ e
  else round_half_even (Zpos m * scale) (2 ^ (- e)).

Definition str_of_nat_Z (n : Z) : string :=
  NilZero.string_of_uint (N.to_uint (Z.to_N n)).

(** [str(n)] for an [int]. *)
Definition str_of_int (z : Z) : string :=
  if z <? 0 then "-" +:+ str_of_nat_Z (- z) else str_of_nat_Z z.

Definition two_digits (n : Z) : string :=
  if n <? 10 then "0" +:+ str_of_nat_Z n else str_of_nat_Z n.

(** [hundredths] printed with two decimals: 2499 is "24.99". *)
Definition fixed2 (hundredths : Z) : string :=
  str_of_nat_Z (hundredths / 100) +:+ "." +:+ two_digits (hundredths mod 100).

(** [format(x, '.2f')] for a [float]: the exact binary value, correctly
    rounded (half-even) to two decimals; the sign is kept even when the
    digits round to zero. *)
Definition float_2f (x : float) : string :=
  match Prim2SF x with
  | S754_nan => "nan"
  | S754_infinity s => if s then "-inf" else "inf"
  | S754_zero s => if s then "-0.00" else "0.00"
  | S754_finite s m e =>
      (if s then "-" else "") +:+ fixed2 (scaled_round 100 m e)
  end.

(** [format(x, '.2f')] for a number: an [int] goes through [float]. *)
Definition format_2f (x : num) : exc string :=
  f ← PyNum.to_float x; Ok (float_2f f).

(** [round(x, 0)] on a [float]. *)
Definition round0 (x : float) : float :=
  match Prim2SF x with
  | S754_finite s m e =>
      let n := scaled_round 1 m e in
      SF2Prim (binary_normalize prec emax (if s then - n else n) 0 s)
  | _ => x
  end.

(** [int(x)] on a [float]: truncation; NaN and the infinities raise. *)
Definition int_of_float (x : float) : exc Z :=
  match Prim2SF x with
  | S754_nan => Raise ValueError
  | S754_infinity _ => Raise OverflowError
  | S754_zero _ => Ok 0
  | S754_finite s m e =>
      let n := if 0 <=? e then Zpos m * 2 ^ e else Zpos m / 2 ^ (- e) in
      Ok (if s then - n else n)
  end.

End PyFormat.

(** ** Values and snapshots *)

(** One row of [historicalData].  The scoring code reads two of its columns:
    [Date] (here the instant [pd.to_datetime] reads from it) and [Close]. *)
Record bar : Set := { Date : Z; Close : float }.

Inductive pyval : Type :=
| PyNone
| PyBool (b : bool)
| PyInt (z : Z)
| PyFloat (f : float)
| PyStr (s : string)
| PyRows (rows : list bar)         (* historicalData *)
| PyStrs (l : list string)         (* reasons *)
| PyScores (m : gmap string Z).    (* scoreBreakdown *)

(** [isinstance(v, (int, float))], with the number it then denotes. *)
Definition as_number (v : pyval) : option num :=
  match v with
  | PyBool b => Some (NInt (if b then 1 else 0))
  | PyInt z => Some (NInt z)
  | PyFloat f => Some (NFloat f)
  | _ => None
  end.

(** Truth value, as [if v], [not v] and [and] test it. *)
Definition truthy (v : pyval) : bool :=
  match v with
  | PyNone => false
  | PyBool b => b
  | PyInt z => PyNum.truthy (NInt z)
  | PyFloat f => PyNum.truthy (NFloat f)
  | PyStr s => negb (String.eqb s "")
  | PyRows rows => negb (bool_decide (rows = []))
  | PyStrs l => negb (bool_decide (l = []))
  | PyScores m => negb (bool_decide (m = ∅))
  end.

(** [v == s] for a string literal [s]. *)
Definition eq_str (v : pyval) (s : string) : bool :=
  match v with
  | PyStr t => String.eqb t s
  | _ => false
  end.

(** [d.get(k)]: the value, [None] when the key is absent. *)
Definition get (d : gmap string pyval) (k : string) : pyval :=
  default PyNone (d !! k).

(** [d.get(k, dflt)]. *)
Definition get_or (d : gmap string pyval) (k : string) (dflt : pyval) : pyval :=
  default dflt (d !! k).

(** ** calculate_analyst_rating_score *)

Definition calculate_analyst_rating_score (recommendation : pyval) : Z * string :=
  if eq_str recommendation "Strong Buy" then
    (100, "Analysts strongly recommend buying based on consensus ratings.")
  else if eq_str recommendation "Buy" then
    (80, "Analysts generally recommend buying.")
  else if eq_str recommendation "Hold" then
    (50, "Analysts suggest holding, expecting modest performance.")
  else if eq_str recommendation "Sell" then
    (20, "Analysts recommend selling due to anticipated underperformance.")
  else if eq_str recommendation "Strong Sell" then
    (0, "Analysts strongly recommend selling due to significant concerns.")
  else
    (50, "Analyst recommendation data unavailable or neutral.").

(** ** calculate_analyst_upside_score *)

(** [f"{(x * 100):.2f}"]. *)
Definition percent_2f (x : num) : exc string :=
  p ← PyNum.mul x (NInt 100); PyFormat.format_2f p.

Definition calculate_analyst_upside_score (upside_percent : pyval) : exc (Z * string) :=
  match as_number upside_percent with
  | None => Ok (50, "Analyst target price or upside data not available.")
  | Some u =>
      if PyNum.ge u (NFloat 0.25) then
        pct ← percent_2f u;
        Ok (100, "Significant upside potential of " +:+ pct +:+ "% according to target prices.")
      else if PyNum.ge u (NFloat 0.15) then
        pct ← percent_2f u;
        Ok (90, "High upside potential of " +:+ pct +:+ "% based on target prices.")
      else if PyNum.ge u (NFloat 0.08) then
        pct ← percent_2f u;
        Ok (75, "Moderate upside potential of " +:+ pct +:+ "% based on target prices.")
      else if PyNum.ge u (NFloat 0.02) then
        pct ← percent_2f u;
        Ok (60, "Modest upside potential of " +:+ pct +:+ "% based on target prices.")
      else if PyNum.ge u (NFloat (-0.05)) then
        pct ← percent_2f u;
        Ok (40, "Limited upside or slight downside of " +:+ pct +:+ "% based on target prices.")
      else
        pct ← percent_2f u;
        Ok (10, "Significant downside risk of " +:+ pct +:+ "% based on target prices.")
  end.

(** ** calculate_financial_analysis_score *)

(** The two accumulators [score] and [reasons] of a scorer body. *)
Definition tally : Type := Z * list string.

(** [score += points; reasons.append(reason)]. *)
Definition credit (points : Z) (reason : string) (t : tally) : tally :=
  (t.1 + points, t.2 ++ [reason]).

(** [reasons.append(reason)] alone. *)
Definition note (reason : string) (t : tally) : tally := credit 0 reason t.

(** [isinstance(v, (int, float)) and v > 0]. *)
Definition positive_number (v : pyval) : option num :=
  match as_number v with
  | Some x => if PyNum.gt x (NInt 0) then Some x else None
  | None => None
  end.

Definition score_trailing_pe (pe_ratio : pyval) (t : tally) : exc tally :=
  match positive_number pe_ratio with
  | Some pe =>
      if PyNum.lt pe (NInt 15) then
        s ← PyFormat.format_2f pe;
        Ok (credit 25 ("Healthy Trailing P/E Ratio (" +:+ s +:+ ") indicates good valuation.") t)
      else if PyNum.lt pe (NInt 25) then
        s ← PyFormat.format_2f pe;
        Ok (credit 15 ("Moderate Trailing P/E Ratio (" +:+ s +:+ ").") t)
      else
        s ← PyFormat.format_2f pe;
        Ok (credit 5 ("High Trailing P/E Ratio (" +:+ s +:+ ") suggests potential overvaluation or high growth expectations.") t)
  | None =>
      Ok (note "Trailing P/E Ratio N/A or not positive, limiting valuation insight." t)
  end.

Definition score_forward_pe (forward_pe : pyval) (t : tally) : exc tally :=
  match positive_number forward_pe with
  | Some pe =>
      if PyNum.lt pe (NInt 15) then
        s ← PyFormat.format_2f pe;
        Ok (credit 20 ("Strong Forward P/E Ratio (" +:+ s +:+ ") suggests future earnings growth.") t)
      else if PyNum.lt pe (NInt 25) then
        s ← PyFormat.format_2f pe;
        Ok (credit 10 ("Moderate Forward P/E Ratio (" +:+ s +:+ ").") t)
      else
        s ← PyFormat.format_2f pe;
        Ok (credit 2 ("High Forward P/E Ratio (" +:+ s +:+ ").") t)
  | None => Ok (note "Forward P/E Ratio N/A or not positive." t)
  end.

Definition score_dividend_yield (dividend_yield : pyval) (t : tally) : exc tally :=
  match positive_number dividend_yield with
  | Some dy =>
      if PyNum.ge dy (NFloat 0.03) then
        s ← percent_2f dy;
        Ok (credit 20 ("Attractive Dividend Yield of " +:+ s +:+ "% provides income.") t)
      else if PyNum.ge dy (NFloat 0.01) then
        s ← percent_2f dy;
        Ok (credit 10 ("Modest Dividend Yield of " +:+ s +:+ "%.") t)
      else
        s ← percent_2f dy;
        Ok (credit 5 ("Low Dividend Yield of " +:+ s +:+ "%.") t)
  | None =>
      Ok (note "No significant dividend yield, common for growth stocks or those reinvesting earnings." t)
  end.

Definition score_market_cap (market_cap : pyval) (t : tally) : tally :=
  match positive_number market_cap with
  | Some mc =>
      if PyNum.ge mc (NFloat 200e9) then
        credit 15 "Large market capitalization suggests stability and market leadership." t
      else if PyNum.ge mc (NFloat 10e9) then
        credit 10 "Solid large-cap market capitalization." t
      else if PyNum.ge mc (NFloat 2e9) then
        credit 5 "Mid-cap company with potential for growth." t
      else
        note "Smaller market capitalization, potentially higher risk/reward." t
  | None => note "Market capitalization data unavailable." t
  end.

Definition score_beta (beta : pyval) (t : tally) : exc tally :=
  match as_number beta with
  | Some b =>
      if PyNum.lt b (NFloat 0.8) then
        s ← PyFormat.format_2f b;
        Ok (credit 20 ("Low Beta (" +:+ s +:+ ") indicates lower volatility relative to the market.") t)
      else if PyNum.lt b (NFloat 1.2) then
        s ← PyFormat.format_2f b;
        Ok (credit 10 ("Moderate Beta (" +:+ s +:+ ") suggests volatility in line with the market.") t)
      else
        s ← PyFormat.format_2f b;
        Ok (credit 5 ("High Beta (" +:+ s +:+ ") implies higher volatility and potentially higher risk.") t)
  | None => Ok (note "Beta (market volatility) data unavailable." t)
  end.

(** [final_score = int(min(100, score))], then the fallback reason when
    [reasons] is still empty. *)
Definition finish (fallback : string) (t : tally) : Z * list string :=
  (Z.min 100 t.1, if bool_decide (t.2 = []) then [fallback] else t.2).

Definition calculate_financial_analysis_score (info : gmap string pyval)
  : exc (Z * list string) :=
  let pe_ratio := get info "trailingPE" in
  let forward_pe := get info "forwardPE" in
  let dividend_yield := get info "dividendYield" in
  let market_cap := get info "marketCap" in
  let beta := get info "beta" in
  t ← score_trailing_pe pe_ratio (0, []);
  t ← score_forward_pe forward_pe t;
  t ← score_dividend_yield dividend_yield t;
  t ← score_beta beta (score_market_cap market_cap t);
  Ok (finish "Limited financial data available for comprehensive analysis." t).

(** ** calculate_technical_analysis_score *)

(** [len(v)]. *)
Definition len (v : pyval) : exc Z :=
  match v with
  | PyStr s => Ok (Z.of_nat (String.length s))
  | PyRows rows => Ok (Z.of_nat (length rows))
  | PyStrs l => Ok (Z.of_nat (length l))
  | PyScores m => Ok (Z.of_nat (size m))
  | PyNone | PyBool _ | PyInt _ | PyFloat _ => Raise TypeError
  end.

(** [pd.DataFrame(historical_data)] with its [Date] and [Close] columns
    read: only a list of rows has them. *)
Definition data_frame (historical_data : pyval) : exc (list bar) :=
  match historical_data with
  | PyRows rows => Ok rows
  | PyStrs _ => Raise KeyError
  | _ => Raise ValueError
  end.

(** What pandas computes in a way of its own, as parameters of the model.
    [rolling_mean_value w values i] is the number it reports at position
    [i] of [values.rolling(window=w).mean()] once the window ending at [i]
    holds [w] observations: it maintains the sum incrementally along the
    series with compensation, so its last bits, and what an overflow
    leaves, are pandas' own.  [tie_rank rows i] is the rank its sort
    (NumPy's quicksort, which is not stable) gives row [i] among the rows
    of its date.  [plain_mean] further down is the instance used to run
    the model. *)
Record pandas : Type :=
  { rolling_mean_value : nat → list float → nat → float;
    tie_rank : list bar → nat → nat }.

(** [index.is_monotonic_increasing]: no date is earlier than the one
    before it. *)
Fixpoint is_monotonic_increasing (rows : list bar) : bool :=
  match rows with
  | r :: rest =>
      match rest with
      | r' :: _ => (Date r <=? Date r') && is_monotonic_increasing rest
      | [] => true
      end
  | [] => true
  end.

(** A row with its rank goes before another when its date is earlier, or
    is the same with a rank that is not higher. *)
Definition goes_before (a b : bar * nat) : bool :=
  (Date a.1 <? Date b.1) || ((Date a.1 =? Date b.1) && (a.2 <=? b.2)%nat).

Fixpoint insert_row (r : bar * nat) (sorted : list (bar * nat)) : list (bar * nat) :=
  match sorted with
  | [] => [r]
  | r' :: rest =>
      if goes_before r r' then r :: sorted else r' :: insert_row r rest
  end.

(** [series.iloc[-1]] and [series.iloc[-k]] of a float column. *)
Definition iloc_last (xs : list float) : float := default nan (last xs).
Definition iloc_back (k : nat) (xs : list float) : float :=
  default nan (xs !! (length xs - k)%nat).

Definition insufficient_history : Z * list string :=
  (50, ["Insufficient historical data for comprehensive technical analysis (less than 200 days)."]).

Section Technical.

Variable pd : pandas.

(** [df.set_index('Date').sort_index()]: the frame as it is when its dates
    are in order already; otherwise its rows in date order, the rows of
    one date in the order of their ranks. *)
Definition sort_index (rows : list bar) : list bar :=
  if is_monotonic_increasing rows then rows
  else fst <$> foldr insert_row [] (imap (λ i r, (r, tie_rank pd rows i)) rows).

(** The closes in the window of width [w] that ends at position [i]. *)
Definition window (w : nat) (xs : list float) (i : nat) : list float :=
  drop (S i - w)%nat (take (S i) xs).

(** Its non-NaN entries count as observations. *)
Definition observations (w : nat) (xs : list float) (i : nat) : nat :=
  length (filter (λ x, is_nan x = false) (window w xs i)).

(** The values a rolling window works on: an infinite entry is turned into
    NaN first, and so counts as missing. *)
Definition prep_values (xs : list float) : list float :=
  (λ x, if is_infinity x then nan else x) <$> xs.

(** [xs.rolling(window=w).mean()]: NaN until [w] observations are in the
    window ([min_periods] defaults to the window width). *)
Definition rolling_mean (w : nat) (xs : list float) : list float :=
  let values := prep_values xs in
  imap (λ i _, if (w <=? observations w values i)%nat
               then rolling_mean_value pd w values i else nan) values.

(** [col.iloc[-1] if not col.isnull().all() else None]. *)
Definition last_unless_all_null (col : list float) : option float :=
  if forallb is_nan col then None else Some (iloc_last col).

(** MA Crossover Analysis (weight: 40 points). *)
Definition score_ma_crossover (current_price : num)
    (last_ma50 last_ma200 : option float) (t : tally) : exc tally :=
  match last_ma50, last_ma200 with
  | Some ma50, Some ma200 =>
      if PyNum.gt current_price (NFloat ma50) && PyNum.gt current_price (NFloat ma200) then
        p ← PyFormat.format_2f current_price;
        Ok (credit 40 ("Price (" +:+ p +:+ ") is above 50-day (" +:+ PyFormat.float_2f ma50
                       +:+ ") and 200-day (" +:+ PyFormat.float_2f ma200
                       +:+ ") moving averages (Bullish trend).") t)
      else if PyNum.gt current_price (NFloat ma50) then
        p ← PyFormat.format_2f current_price;
        Ok (credit 25 ("Price (" +:+ p +:+ ") is above 50-day moving average ("
                       +:+ PyFormat.float_2f ma50 +:+ ") (Positive short-term momentum).") t)
      else if PyNum.gt current_price (NFloat ma200) then
        p ← PyFormat.format_2f current_price;
        Ok (credit 15 ("Price (" +:+ p +:+ ") is above 200-day moving average ("
                       +:+ PyFormat.float_2f ma200 +:+ ") (Long-term trend support).") t)
      else
        p ← PyFormat.format_2f current_price;
        Ok (credit 5 ("Price (" +:+ p +:+ ") is below key moving averages, indicating bearish pressure.") t)
  | _, _ =>
      Ok (note "Not enough data to calculate 50-day or 200-day moving averages." t)
  end.

(** A value used as an operand of [-]: a number, or [TypeError]. *)
Definition operand (v : pyval) : exc num :=
  match as_number v with
  | Some x => Ok x
  | None => Raise TypeError
  end.

(** 52-Week High/Low (weight: 30 points). *)
Definition score_52_week_range (fifty_two_week_high fifty_two_week_low : pyval)
    (current_price : num) (t : tally) : exc tally :=
  if truthy fifty_two_week_high && truthy fifty_two_week_low
     && PyNum.truthy current_price then
    high ← operand fifty_two_week_high;
    low ← operand fifty_two_week_low;
    price_range ← PyNum.sub high low;
    if PyNum.gt price_range (NInt 0) then
      above_low ← PyNum.sub current_price low;
      position_in_range ← PyNum.truediv above_low price_range;
      if PyNum.ge position_in_range (NFloat 0.9) then
        s ← PyFormat.format_2f high;
        Ok (credit 30 ("Price is near 52-week high (" +:+ s +:+ "), showing strong upward momentum.") t)
      else if PyNum.ge position_in_range (NFloat 0.7) then
        s ← PyFormat.format_2f current_price;
        Ok (credit 20 ("Price is in the upper range of 52-week performance (" +:+ s +:+ ").") t)
      else if PyNum.le position_in_range (NFloat 0.1) then
        s ← PyFormat.format_2f low;
        Ok (credit 0 ("Price is near 52-week low (" +:+ s +:+ "), indicating weakness.") t)
      else if PyNum.le position_in_range (NFloat 0.3) then
        s ← PyFormat.format_2f current_price;
        Ok (credit 5 ("Price is in the lower range of 52-week performance (" +:+ s +:+ ").") t)
      else
        s ← PyFormat.format_2f current_price;
        Ok (credit 10 ("Price is in the mid-range of its 52-week performance (" +:+ s +:+ ").") t)
    else
      Ok (note "52-week high and low are too close or invalid for range analysis." t)
  else
    Ok (note "52-Week High/Low data not available for range analysis." t).

(** Recent Price Performance (weight: 30 points), on the NumPy floats of
    the [Close] column. *)
Definition score_recent_performance (closes : list float) (t : tally) : tally :=
  if (20 <=? length closes)%nat then
    let start_price := iloc_back 20 closes in
    let end_price := iloc_last closes in
    if negb (start_price =? 0)%float then
      let recent_change := ((end_price - start_price) / start_price)%float in
      if (0.05 <=? recent_change)%float then
        credit 30 ("Strong recent performance: Price up "
                   +:+ PyFormat.float_2f (recent_change * 100)%float +:+ "% over the last month.") t
      else if (0.01 <=? recent_change)%float then
        credit 20 ("Positive recent performance: Price up "
                   +:+ PyFormat.float_2f (recent_change * 100)%float +:+ "% over the last month.") t
      else if (recent_change <=? -0.05)%float then
        credit 0 ("Weak recent performance: Price down "
                  +:+ PyFormat.float_2f (PrimFloat.abs recent_change * 100)%float +:+ "% over the last month.") t
      else if (recent_change <? 0)%float then
        credit 10 ("Slightly negative recent performance: Price down "
                   +:+ PyFormat.float_2f (PrimFloat.abs recent_change * 100)%float +:+ "% over the last month.") t
      else
        credit 15 "Stable recent performance over the last month." t
    else
      note "Cannot calculate recent performance due to zero starting price." t
  else
    note "Insufficient data for recent price performance analysis (less than 1 month)." t.

Definition calculate_technical_analysis_score
    (historical_data current_price fifty_two_week_high fifty_two_week_low : pyval)
  : exc (Z * list string) :=
  if negb (truthy historical_data) then Ok insufficient_history
  else
    n ← len historical_data;
    if n <? 200 then Ok insufficient_history
    else
      rows ← data_frame historical_data;
      let closes := Close <$> sort_index rows in
      let '(current_price, t) :=
        match as_number current_price with
        | Some p => (p, ((0, []) : tally))
        | None =>
            (NFloat (iloc_last closes),
             note "Using last available closing price for current price in technical analysis." (0, []))
        end in
      let last_ma50 := last_unless_all_null (rolling_mean 50 closes) in
      let last_ma200 := last_unless_all_null (rolling_mean 200 closes) in
      t ← score_ma_crossover current_price last_ma50 last_ma200 t;
      t ← score_52_week_range fifty_two_week_high fifty_two_week_low current_price t;
      Ok (finish "Limited technical data available for comprehensive analysis."
            (score_recent_performance closes t)).

End Technical.

(** The plain mean of the window, summed left to right. *)
Definition window_mean (w : nat) (xs : list float) (i : nat) : float :=
  (foldl PrimFloat.add 0%float (window w xs i)
   / SF2Prim (binary_normalize prec emax (Z.of_nat w) 0 false))%float.

(** The instance used to run the model: plain window means, and the rows
    of one date left in the order they came. *)
Definition plain_mean : pandas :=
  {| rolling_mean_value := window_mean; tie_rank := λ _ i, i |}.

(** ** calculate_overall_score_and_reasons *)

(** The suggestion for an overall score, with the sentence that opens the
    reasons. *)
Definition overall_recommendation (overall_score : Z) : string * string :=
  if 85 <=? overall_score then
    ("Strong Buy",
     "**Overall Recommendation: Strong Buy** - The stock exhibits excellent performance across all key indicators, suggesting a high-conviction buying opportunity.")
  else if 70 <=? overall_score then
    ("Buy",
     "**Overall Recommendation: Buy** - The stock shows strong potential with favorable analyst sentiment, solid financials, and positive technical trends.")
  else if 50 <=? overall_score then
    ("Hold",
     "**Overall Recommendation: Hold** - The stock presents a balanced profile. Consider holding if already invested, or wait for clearer signals if not.")
  else if 30 <=? overall_score then
    ("Sell",
     "**Overall Recommendation: Sell** - The stock shows some concerning indicators across analyst, financial, or technical fronts. Consider exiting your position.")
  else
    ("Strong Sell",
     "**Overall Recommendation: Strong Sell** - The stock demonstrates significant weaknesses, indicating a high risk and strong recommendation to sell.").

(** [rating * 0.25 + upside * 0.25 + financial * 0.25 + technical * 0.25]:
    each [int] score becomes a [float] in its product. *)
Definition weighted_sum (rating upside financial technical : Z) : exc float :=
  a ← PyNum.float_of_int rating;
  b ← PyNum.float_of_int upside;
  c ← PyNum.float_of_int financial;
  d ← PyNum.float_of_int technical;
  Ok (a * 0.25 + b * 0.25 + c * 0.25 + d * 0.25)%float.

(** [int(round(overall_score, 0))]. *)
Definition rounded_overall (rating upside financial technical : Z) : exc Z :=
  overall_score ← weighted_sum rating upside financial technical;
  PyFormat.int_of_float (PyFormat.round0 overall_score).

(** [f"{(analyst_upside * 100):.2f}"] on the raw snapshot value: [None * 100]
    is a [TypeError]; a [str] times 100 is a [str], which has no ['f']
    format; the containers fail in the product or in the format. *)
Definition upside_field_percent (analyst_upside : pyval) : exc string :=
  match as_number analyst_upside with
  | Some u => percent_2f u
  | None =>
      match analyst_upside with
      | PyStr _ => Raise ValueError
      | _ => Raise TypeError
      end
  end.

(** [detailed_reasons.insert(0, sentence)]. *)
Definition insert_first (sentence : string) (reasons : list string) : list string :=
  sentence :: reasons.

Section Aggregator.

Variable pd : pandas.

(** [str(v)] of a value that is neither [None], a [bool], an [int] nor a
    [str] (the text of a [float] or of a container). *)
Variable str_of_other : pyval → string.

(** [f"{v}"]. *)
Definition py_str (v : pyval) : string :=
  match v with
  | PyNone => "None"
  | PyBool b => if b then "True" else "False"
  | PyInt z => PyFormat.str_of_int z
  | PyStr s => s
  | _ => str_of_other v
  end.

(** The dict [stock_data] is updated in place and returned: the argument
    is its content when the call starts, the result its content when the
    call returns.  Nothing is written before the four scorers and the four
    summary lines are through, so a call that raises leaves it as it
    was. *)
Definition calculate_overall_score_and_reasons (stock_data : gmap string pyval)
  : exc (gmap string pyval) :=
  (* 1. Analyst Rating Score *)
  let analyst_recommendation := get stock_data "analystRecommendation" in
  let '(analyst_rating_score, reason_ar) :=
    calculate_analyst_rating_score analyst_recommendation in
  let score_breakdown : gmap string Z := <["analystRating" := analyst_rating_score]> ∅ in
  let detailed_reasons :=
    [] ++ ["Analyst Rating: " +:+ py_str analyst_recommendation +:+ " - " +:+ reason_ar
           +:+ " (Score: " +:+ PyFormat.str_of_int analyst_rating_score +:+ "%)"] in
  (* 2. Analyst Upside Score *)
  let analyst_upside := get stock_data "analystUpside" in
  '(analyst_upside_score, reason_au) ← calculate_analyst_upside_score analyst_upside;
  let score_breakdown := <["analystUpside" := analyst_upside_score]> score_breakdown in
  pct ← upside_field_percent analyst_upside;
  let detailed_reasons :=
    detailed_reasons ++ ["Analyst Upside: " +:+ pct +:+ "% - " +:+ reason_au
                         +:+ " (Score: " +:+ PyFormat.str_of_int analyst_upside_score +:+ "%)"] in
  (* 3. Financial Analysis Score *)
  '(financial_analysis_score, reason_fa) ← calculate_financial_analysis_score stock_data;
  let score_breakdown := <["financialAnalysis" := financial_analysis_score]> score_breakdown in
  let detailed_reasons :=
    detailed_reasons ++ ["Financial Analysis: " +:+ String.concat "; " reason_fa
                         +:+ " (Score: " +:+ PyFormat.str_of_int financial_analysis_score +:+ "%)"] in
  (* 4. Technical Analysis Score *)
  let historical_data := get_or stock_data "historicalData" (PyRows []) in
  let current_price := get stock_data "currentPrice" in
  let fifty_two_week_high := get stock_data "52WeekHigh" in
  let fifty_two_week_low := get stock_data "52WeekLow" in
  '(technical_analysis_score, reason_ta) ←
    calculate_technical_analysis_score pd
      historical_data current_price fifty_two_week_high fifty_two_week_low;
  let score_breakdown := <["technicalAnalysis" := technical_analysis_score]> score_breakdown in
  let detailed_reasons :=
    detailed_reasons ++ ["Technical Analysis: " +:+ String.concat "; " reason_ta
                         +:+ " (Score: " +:+ PyFormat.str_of_int technical_analysis_score +:+ "%)"] in
  (* Overall score, 25% for each category *)
  overall_score ← rounded_overall analyst_rating_score analyst_upside_score
                    financial_analysis_score technical_analysis_score;
  let stock_data := <["overallScore" := PyInt overall_score]> stock_data in
  let stock_data := <["scoreBreakdown" := PyScores score_breakdown]> stock_data in
  let '(suggestion, sentence) := overall_recommendation overall_score in
  let stock_data := <["suggestion" := PyStr suggestion]> stock_data in
  let detailed_reasons := insert_first sentence detailed_reasons in
  Ok (<["reasons" := PyStrs detailed_reasons]> stock_data).

End Aggregator.

(** ** The stored lists and their routes *)

(** *** Exceptions outside the scoring core *)

(** What the routes and the fetcher can meet besides the arithmetic
    exceptions of [exn]: a method looked up on a value that has none, the
    two failures of the provider that are retried, and any other
    exception class. *)
Inductive raised : Type :=
| Builtin (e : exn)
| AttributeError
| HTTPError (status_code : Z)
| JSONDecodeError
| OtherException.

Inductive outcome (A : Type) : Type :=
| Returns (a : A)
| Raises (r : raised).
Arguments Returns {A} a.
Arguments Raises {A} r.

#[global] Instance outcome_ret : MRet outcome := fun _ a => Returns a.
#[global] Instance outcome_bind : MBind outcome := fun _ _ f m =>
  match m with
  | Returns a => f a
  | Raises r => Raises r
  end.

(** An operation of the scoring core used from outside it. *)
Definition lift {A} (m : exc A) : outcome A :=
  match m with
  | Ok a => Returns a
  | Raise e => Raises (Builtin e)
  end.

(** *** Files *)

(** What is stored under a file name: no file, text that [json.load]
    rejects, or the JSON text of a value. *)
Inductive file (A : Type) : Type :=
| Missing
| Malformed
| Holds (content : A).
Arguments Missing {A}.
Arguments Malformed {A}.
Arguments Holds {A} content.

(** *** load_watchlist, save_watchlist *)

(** The watchlist file holds what [save_watchlist] writes, a list of
    strings. *)

Definition load_watchlist (watchlist_file : file (list string)) : list string :=
  match watchlist_file with
  | Holds watchlist => watchlist
  | Malformed => []
  | Missing => []
  end.

(** The file after [save_watchlist(watchlist)]. *)
Definition save_watchlist (watchlist : list string) : file (list string) :=
  Holds watchlist.

(** *** load_default_stocks *)

(** The object of [default_stocks.json]; either key may be absent. *)
Record default_stocks : Type :=
  { companies : option (list string); index_funds : option (list string) }.

Definition DEFAULT_COMPANY_TICKERS : list string := ["AAPL"; "MSFT"; "GOOGL"].
Definition DEFAULT_INDEX_FUNDS : list string := ["SPY"; "QQQ"; "DIA"].

(** The pair returned, and the file afterwards. *)
Definition load_default_stocks (stocks_file : file default_stocks)
  : (list string * list string) * file default_stocks :=
  match stocks_file with
  | Holds data =>
      ((default [] (companies data), default [] (index_funds data)), stocks_file)
  | Malformed => ((DEFAULT_COMPANY_TICKERS, DEFAULT_INDEX_FUNDS), stocks_file)
  | Missing =>
      ((DEFAULT_COMPANY_TICKERS, DEFAULT_INDEX_FUNDS),
       Holds {| companies := Some DEFAULT_COMPANY_TICKERS;
                index_funds := Some DEFAULT_INDEX_FUNDS |})
  end.

(** *** The watchlist routes *)

(** The JSON body of a response with its status code. *)
Inductive body : Type :=
| Message (text : string)
| Error (text : string).

Record response : Type := { payload : body; status : Z }.

(** [watchlist.remove(ticker)]: the first item equal to [ticker] goes. *)
Fixpoint remove_first (ticker : string) (watchlist : list string) : list string :=
  match watchlist with
  | [] => []
  | item :: rest =>
      if bool_decide (item = ticker) then rest else item :: remove_first ticker rest
  end.

Section Watchlist.

(** [str.upper]. *)
Variable upper : string → string.

(** [GET /api/watchlist]. *)
Definition get_watchlist_api (watchlist_file : file (list string)) : list string :=
  load_watchlist watchlist_file.

(** [POST /api/watchlist] on the JSON object [data] that [request.get_json()]
    returns: the response, or the exception that reaches Flask, and the
    file afterwards. *)
Definition add_to_watchlist_api (data : gmap string pyval)
    (watchlist_file : file (list string))
  : outcome response * file (list string) :=
  let ticker := get data "ticker" in
  if negb (truthy ticker) then
    (Returns {| payload := Error "Ticker not provided"; status := 400 |}, watchlist_file)
  else
    match ticker with
    | PyStr ticker =>
        let ticker := upper ticker in
        let watchlist := load_watchlist watchlist_file in
        if bool_decide (ticker ∉ watchlist) then
          let watchlist := watchlist ++ [ticker] in
          (Returns {| payload := Message (ticker +:+ " added to watchlist successfully.");
                      status := 200 |},
           save_watchlist watchlist)
        else
          (Returns {| payload := Error (ticker +:+ " is already in the watchlist.");
                      status := 409 |},
           watchlist_file)
    | _ => (Raises AttributeError, watchlist_file)
    end.

(** [DELETE /api/watchlist]. *)
Definition remove_from_watchlist_api (data : gmap string pyval)
    (watchlist_file : file (list string))
  : outcome response * file (list string) :=
  let ticker := get data "ticker" in
  if negb (truthy ticker) then
    (Returns {| payload := Error "Ticker not provided"; status := 400 |}, watchlist_file)
  else
    match ticker with
    | PyStr ticker =>
        let ticker := upper ticker in
        let watchlist := load_watchlist watchlist_file in
        if bool_decide (ticker ∈ watchlist) then
          let watchlist := remove_first ticker watchlist in
          (Returns {| payload := Message (ticker +:+ " removed from watchlist successfully.");
                      status := 200 |},
           save_watchlist watchlist)
        else
          (Returns {| payload := Error (ticker +:+ " not found in watchlist.");
                      status := 404 |},
           watchlist_file)
    | _ => (Raises AttributeError, watchlist_file)
    end.

End Watchlist.

(** [GET /api/default_stocks]: the two lists of the response. *)
Definition get_default_stocks_api (stocks_file : file default_stocks)
  : (list string * list string) * file default_stocks :=
  load_default_stocks stocks_file.

(** [str.upper] on ASCII text. *)
Definition upper_char (c : ascii) : ascii :=
  let n := nat_of_ascii c in
  if ((97 <=? n) && (n <=? 122))%nat then ascii_of_nat (n - 32) else c.

Fixpoint ascii_upper (s : string) : string :=
  match s with
  | EmptyString => EmptyString
  | String c rest => String (upper_char c) (ascii_upper rest)
  end.

(** ** fetch_stock_data_from_yfinance *)

(** *** The provider *)

(** [yf.Ticker(ticker)] as the fetcher uses it: what reading [.info] does
    on the first, second, ... read (the dict, or the exception raised), and
    what [.history(period="1y")] does (the rows, oldest first, or the
    exception raised). *)
Record ticker_object : Type :=
  { info_read : nat → outcome (gmap string pyval);
    history_1y : outcome (list bar) }.

(** *** _fetch_yfinance_info_with_retry *)

(** [not d] on a dict. *)
Definition empty_dict (d : gmap string pyval) : bool := bool_decide (size d = 0%nat).

(** The body of the helper on one read of [.info]. *)
Definition fetch_info_body (read : outcome (gmap string pyval))
  : outcome (gmap string pyval) :=
  info ← read;
  if empty_dict info then Raises (Builtin ValueError) else Returns info.

(** [retry_if_exception_type((HTTPError, JSONDecodeError, ValueError))];
    [Builtin ValueError] stands for a [ValueError] of any subclass but
    [JSONDecodeError]. *)
Definition retry_if_exception_type (e : raised) : bool :=
  match e with
  | HTTPError _ | JSONDecodeError | Builtin ValueError => true
  | _ => false
  end.

(** How the decorated helper ends: with the info, with tenacity's
    [RetryError] around the last exception, or with an exception that is
    not retried and comes through as it is. *)
Inductive info_result : Type :=
| Info (info : gmap string pyval)
| RetryError (last_exception : raised)
| Unretried (e : raised).

(** tenacity's loop from read number [k] on, with [more] attempts allowed
    after this one. *)
Fixpoint retry_loop (more : nat) (read : nat → outcome (gmap string pyval)) (k : nat)
  : info_result :=
  match fetch_info_body (read k) with
  | Returns info => Info info
  | Raises e =>
      if retry_if_exception_type e then
        match more with
        | O => RetryError e
        | S more => retry_loop more read (S k)
        end
      else Unretried e
  end.

Definition stop_after_attempt : nat := 5.

Definition _fetch_yfinance_info_with_retry (ticker_obj : ticker_object) : info_result :=
  retry_loop (stop_after_attempt - 1) (info_read ticker_obj) 0.

(** *** The fields the fetcher computes *)

Definition of_number (x : num) : pyval :=
  match x with
  | NInt z => PyInt z
  | NFloat f => PyFloat f
  end.

(** [v is not None]. *)
Definition is_not_none (v : pyval) : bool :=
  match v with
  | PyNone => false
  | _ => true
  end.

(** [v != 0]: true of whatever is not a number. *)
Definition ne_zero (v : pyval) : bool :=
  match as_number v with
  | Some x => PyNum.ne x (NInt 0)
  | None => true
  end.

(** Price Change Calculation: [priceChange] and [percentChange]. *)
Definition price_change (current_price previous_close : pyval) : exc (pyval * pyval) :=
  if is_not_none current_price && is_not_none previous_close then
    price ← operand current_price;
    close ← operand previous_close;
    change ← PyNum.sub price close;
    if ne_zero previous_close then
      ratio ← PyNum.truediv change close;
      percent ← PyNum.mul ratio (NInt 100);
      Ok (of_number change, of_number percent)
    else
      Ok (of_number change, PyInt 0)
  else
    Ok (PyNone, PyNone).

(** [analystUpside] from the target price and the current price. *)
Definition analyst_upside (target_price current_price : pyval) : exc pyval :=
  if truthy target_price && truthy current_price && ne_zero current_price then
    target ← operand target_price;
    price ← operand current_price;
    above ← PyNum.sub target price;
    upside ← PyNum.truediv above price;
    Ok (of_number upside)
  else
    Ok PyNone.

(** [s.replace(old, new)] for two characters. *)
Fixpoint replace (old new : ascii) (s : string) : string :=
  match s with
  | EmptyString => EmptyString
  | String c rest => String (if Ascii.eqb c old then new else c) (replace old new rest)
  end.

Section Fetcher.

(** [str.title]. *)
Variable title : string → string.

(** [datetime.fromtimestamp(t, tz=pytz.utc).strftime('%Y-%m-%d')]: the
    date, or the exception the conversion raises. *)
Variable utc_date : num → exc string.

(** [f"{e}"] for an exception. *)
Variable exception_text : raised → string.

(** [exDividendDate]: a timestamp becomes its date, [None] when the
    conversion raises [TypeError] or [ValueError]; anything else stays. *)
Definition ex_dividend_date (v : pyval) : exc pyval :=
  match as_number v with
  | Some t =>
      match utc_date t with
      | Ok date => Ok (PyStr date)
      | Raise TypeError | Raise ValueError => Ok PyNone
      | Raise e => Raise e
      end
  | None => Ok v
  end.

(** [ipo] from [firstTradeDateEpochUtc]; [fromtimestamp] of what is not a
    number is a [TypeError]. *)
Definition ipo (ipo_date : pyval) : exc pyval :=
  if truthy ipo_date then
    match as_number ipo_date with
    | Some t =>
        match utc_date t with
        | Ok date => Ok (PyStr date)
        | Raise TypeError | Raise ValueError => Ok (PyStr "N/A")
        | Raise e => Raise e
        end
    | None => Ok (PyStr "N/A")
    end
  else
    Ok (PyStr "N/A").

(** [info.get('recommendationKey', 'Data Unavailable').replace('_', ' ').title()]:
    only a [str] has [replace]. *)
Definition analyst_recommendation (info : gmap string pyval) : outcome pyval :=
  match get_or info "recommendationKey" (PyStr "Data Unavailable") with
  | PyStr key => Returns (PyStr (title (replace "_" " " key)))
  | _ => Raises AttributeError
  end.

(** Lines 137 to 210: the snapshot built from [info] and the history, with
    the errors noted on the way, or the exception that leaves the [try]
    block. *)
Definition build_stock_data (ticker : string) (info : gmap string pyval)
    (history : outcome (list bar))
  : outcome (gmap string pyval * list string) :=
  let errors : list string := [] in
  (* Basic Info *)
  let stock_data : gmap string pyval := <["ticker" := PyStr ticker]> ∅ in
  let stock_data :=
    <["companyName" := if truthy (get info "longName") then get info "longName"
                       else get_or info "shortName" (PyStr "N/A")]> stock_data in
  let stock_data := <["currentPrice" := get info "currentPrice"]> stock_data in
  let stock_data := <["openPrice" := get info "open"]> stock_data in
  let stock_data := <["previousClose" := get info "previousClose"]> stock_data in
  let stock_data := <["dayHigh" := get info "dayHigh"]> stock_data in
  let stock_data := <["dayLow" := get info "dayLow"]> stock_data in
  let stock_data := <["volume" := get info "volume"]> stock_data in
  let stock_data := <["marketCap" := get info "marketCap"]> stock_data in
  let stock_data := <["currency" := get info "currency"]> stock_data in
  let stock_data := <["industry" := get info "industry"]> stock_data in
  let stock_data := <["sector" := get info "sector"]> stock_data in
  let stock_data := <["fullTimeEmployees" := get info "fullTimeEmployees"]> stock_data in
  let stock_data :=
    <["businessSummary" := get_or info "longBusinessSummary"
                             (PyStr "No business summary available.")]> stock_data in
  let stock_data := <["weburl" := get info "website"]> stock_data in
  (* Price Change Calculation *)
  '(change, percent) ←
    lift (price_change (get stock_data "currentPrice") (get stock_data "previousClose"));
  let stock_data := <["priceChange" := change]> stock_data in
  let stock_data := <["percentChange" := percent]> stock_data in
  (* Financial Ratios *)
  let stock_data := <["peRatio" := get info "trailingPE"]> stock_data in
  let stock_data := <["forwardPE" := get info "forwardPE"]> stock_data in
  let stock_data := <["dividendYield" := get info "dividendYield"]> stock_data in
  let stock_data := <["beta" := get info "beta"]> stock_data in
  let stock_data := <["52WeekHigh" := get info "fiftyTwoWeekHigh"]> stock_data in
  let stock_data := <["52WeekLow" := get info "fiftyTwoWeekLow"]> stock_data in
  let stock_data := <["exDividendDate" := get info "exDividendDate"]> stock_data in
  date ← lift (ex_dividend_date (get stock_data "exDividendDate"));
  let stock_data := <["exDividendDate" := date]> stock_data in
  (* IPO Date *)
  ipo_date ← lift (ipo (get info "firstTradeDateEpochUtc"));
  let stock_data := <["ipo" := ipo_date]> stock_data in
  (* Analyst Recommendations *)
  recommendation ← analyst_recommendation info;
  let stock_data := <["analystRecommendation" := recommendation]> stock_data in
  let stock_data := <["analystTargetPrice" := get info "targetMeanPrice"]> stock_data in
  upside ←
    lift (analyst_upside (get stock_data "analystTargetPrice") (get stock_data "currentPrice"));
  let stock_data := <["analystUpside" := upside]> stock_data in
  (* Historical data *)
  rows ← history;
  let stock_data := <["historicalData" := PyRows []]> stock_data in
  if negb (bool_decide (rows = [])) then
    Returns (<["historicalData" := PyRows rows]> stock_data, errors)
  else
    Returns (stock_data, errors ++ ["No historical data found for " +:+ ticker +:+ "."]).

(** *** The cache *)

(** An entry of [STOCK_DATA_CACHE]: the dict object it refers to and the
    time it was stored, in microseconds. *)
Record cache_entry : Type := { data : nat; timestamp : Z }.

(** The module state: the cache, and the dict objects it refers to.  An
    object is named by its position, and a new one is put at the end. *)
Record server : Type :=
  { STOCK_DATA_CACHE : gmap string cache_entry;
    objects : list (gmap string pyval) }.

Definition CACHE_EXPIRATION_SECONDS : Z := 3600 * 4.

(** [timedelta.total_seconds()] of a difference of [microseconds]. *)
Definition total_seconds (microseconds : Z) : exc num :=
  PyNum.truediv (NInt microseconds) (NInt 1000000).

(** [(current_time - timestamp).total_seconds() < CACHE_EXPIRATION_SECONDS].
    Two datetimes are less than 10^10 days apart, where the quotient is far
    from raising. *)
Definition within_expiration (current_time timestamp : Z) : bool :=
  match total_seconds (current_time - timestamp) with
  | Ok seconds => PyNum.lt seconds (NInt CACHE_EXPIRATION_SECONDS)
  | Raise _ => false
  end.

(** The error noted when every attempt at the info failed. *)
Definition retry_error_message (ticker : string) (last_exception : raised) : string :=
  match last_exception with
  | HTTPError status_code =>
      if status_code =? 429 then
        "Rate limit hit for " +:+ ticker
          +:+ " (429 Too Many Requests) after multiple retries. Please try again later."
      else
        "Failed to retrieve info for " +:+ ticker +:+ " after multiple retries. Last error: "
          +:+ exception_text last_exception
  | JSONDecodeError =>
      "JSON decode error for " +:+ ticker
        +:+ ". Invalid response from yfinance after multiple retries. Error: "
        +:+ exception_text last_exception
  | Builtin ValueError =>
      "No info data found for " +:+ ticker +:+ " after multiple retries. Error: "
        +:+ exception_text last_exception
  | _ =>
      "Failed to retrieve info for " +:+ ticker +:+ " after multiple retries. Last error: "
        +:+ exception_text last_exception
  end.

(** The cached object for [ticker], when there is one that has not
    expired. *)
Definition served_from_cache (ticker : string) (current_time : Z) (s : server)
  : option nat :=
  match STOCK_DATA_CACHE s !! ticker with
  | Some entry =>
      if within_expiration current_time (timestamp entry) then Some (data entry) else None
  | None => None
  end.

(** The dict a fetch returns: an object of the state, or a new empty
    dict. *)
Definition content (s : server) (stock_data : option nat) : gmap string pyval :=
  match stock_data with
  | Some object => default ∅ (objects s !! object)
  | None => ∅
  end.

(** [fetch_stock_data_from_yfinance(ticker)] at [current_time], [yf] being
    what the provider does during the call: the dict returned with the
    errors, and the state afterwards.  (The 30 seconds of sleep before a
    fresh fetch are not modelled.) *)
Definition fetch_stock_data_from_yfinance (ticker : string) (current_time : Z)
    (yf : string → ticker_object) (s : server)
  : (option nat * list string) * server :=
  match served_from_cache ticker current_time s with
  | Some object => ((Some object, []), s)
  | None =>
      let ticker_obj := yf ticker in
      match _fetch_yfinance_info_with_retry ticker_obj with
      | RetryError last_exception =>
          ((None, [retry_error_message ticker last_exception]), s)
      | Unretried e =>
          ((None, ["An unexpected error occurred while fetching info for " +:+ ticker
                     +:+ ": " +:+ exception_text e]), s)
      | Info info =>
          let '(stock_data, errors) :=
            match build_stock_data ticker info (history_1y ticker_obj) with
            | Returns built => built
            | Raises e => (∅, ["yfinance data fetch error: " +:+ exception_text e])
            end in
          let errors :=
            if empty_dict stock_data && bool_decide (errors = []) then
              errors ++ ["Could not retrieve any data for " +:+ ticker
                           +:+ ". It might be an invalid ticker or temporarily unavailable."]
            else errors in
          (* Cache the result if successful *)
          if negb (empty_dict stock_data) then
            let object := length (objects s) in
            ((Some object, errors),
             {| STOCK_DATA_CACHE :=
                  <[ticker := {| data := object; timestamp := current_time |}]>
                    (STOCK_DATA_CACHE s);
                objects := objects s ++ [stock_data] |})
          else
            ((None, errors), s)
      end
  end.

End Fetcher.

(** ** get_stock_data_api *)

(** The JSON of a response of [/api/stock_data]: the analysis (status 200),
    the missing ticker (400), the failed retrieval (404). *)
Inductive stock_data_response : Type :=
| Analysed (stockData : gmap string pyval) (errors : option (list string))
| TickerRequired
| NotRetrieved (error : string) (detailedErrors : list string).

Definition status_code (r : stock_data_response) : Z :=
  match r with
  | Analysed _ _ => 200
  | TickerRequired => 400
  | NotRetrieved _ _ => 404
  end.

(** The body of the 404 response. *)
Definition not_retrieved (ticker_symbol : string) (errors : list string)
  : stock_data_response :=
  NotRetrieved
    ("Failed to retrieve data for " +:+ ticker_symbol
       +:+ ". It might be an invalid ticker or data is temporarily unavailable. Detailed errors: "
       +:+ String.concat "; " errors)
    errors.

Section Route.

Variable pd : pandas.
Variable str_of_other : pyval → string.
Variable title : string → string.
Variable utc_date : num → exc string.
Variable exception_text : raised → string.

(** [calculate_overall_score_and_reasons] on a dict object of the state:
    the object is updated in place. *)
Definition analyse_in_place (object : nat) (s : server)
  : outcome (gmap string pyval) * server :=
  match calculate_overall_score_and_reasons pd str_of_other
          (content s (Some object)) with
  | Ok analyzed_stock_data =>
      (Returns analyzed_stock_data,
       {| STOCK_DATA_CACHE := STOCK_DATA_CACHE s;
          objects := <[object := analyzed_stock_data]> (objects s) |})
  | Raise e => (Raises (Builtin e), s)
  end.

(** [GET /api/stock_data?ticker=...]: the response, or the exception that
    reaches Flask, and the state afterwards. *)
Definition get_stock_data_api (ticker_symbol : option string) (current_time : Z)
    (yf : string → ticker_object) (s : server)
  : outcome stock_data_response * server :=
  match ticker_symbol with
  | None => (Returns TickerRequired, s)
  | Some ticker_symbol =>
      if String.eqb ticker_symbol "" then (Returns TickerRequired, s)
      else
        let '((stock_data, errors), s) :=
          fetch_stock_data_from_yfinance title utc_date exception_text
            ticker_symbol current_time yf s in
        match stock_data with
        | Some object =>
            if negb (empty_dict (content s stock_data)) then
              let '(analysed, s) := analyse_in_place object s in
              (analyzed_stock_data ← analysed;
               Returns (Analysed analyzed_stock_data
                          (if bool_decide (errors = []) then None else Some errors)),
               s)
            else
              (Returns (not_retrieved ticker_symbol errors), s)
        | None =>
            (Returns (not_retrieved ticker_symbol errors), s)
        end
  end.

End Route.

(** [str.title] on ASCII text: a letter is upper case after a character
    that is no letter, lower case after a letter. *)
Definition is_lower (c : ascii) : bool :=
  let n := nat_of_ascii c in ((97 <=? n) && (n <=? 122))%nat.
Definition is_upper (c : ascii) : bool :=
  let n := nat_of_ascii c in ((65 <=? n) && (n <=? 90))%nat.
Definition lower_char (c : ascii) : ascii :=
  if is_upper c then ascii_of_nat (nat_of_ascii c + 32) else c.

Fixpoint title_from (previous_is_cased : bool) (s : string) : string :=
  match s with
  | EmptyString => EmptyString
  | String c rest =>
      if is_lower c || is_upper c then
        String (if previous_is_cased then lower_char c else upper_char c)
               (title_from true rest)
      else String c (title_from false rest)
  end.

Definition ascii_title (s : string) : string := title_from false s.

(** * Vocabulary of the properties *)

(** [t'] is [t] after one block that credited between [lo] and [hi] points
    and appended exactly one reason. *)
Definition one_block (lo hi : Z) (t t' : tally) : Prop :=
  lo ≤ t'.1 - t.1 ≤ hi ∧ ∃ reason, t'.2 = t.2 ++ [reason].

Definition in_range (score : Z) : Prop := 0 ≤ score ≤ 100.

(** The [int]s of a snapshot are far inside the floats: below [int_bound]
    their products by 100 and their differences still convert. *)
Definition int_bound : Z := 2 ^ 1000.

Definition magnitude_below (bound : Z) (x : num) : Prop :=
  match x with
  | NInt z => Z.abs z < bound
  | NFloat _ => True
  end.

(** Any value at all, except an [int] of [int_bound] or more. *)
Definition fitting (v : pyval) : Prop :=
  match as_number v with
  | Some x => magnitude_below int_bound x
  | None => True
  end.

(** [fitting] as a test. *)
Definition fittingb (v : pyval) : bool :=
  match as_number v with
  | Some (NInt z) => Z.abs z <? int_bound
  | _ => true
  end.

(** A numeric field of the data model: null, or a number. *)
Definition number_or_null (v : pyval) : Prop :=
  v = PyNone ∨ ∃ x, as_number v = Some x ∧ magnitude_below int_bound x.

(** The history field of the data model: null, or a list of rows. *)
Definition history_or_null (v : pyval) : Prop :=
  v = PyNone ∨ ∃ rows, v = PyRows rows.

(** The tier table of the upside scorer, top-down, first match wins. *)
Definition upside_tier (upside : num) : Z :=
  if PyNum.ge upside (NFloat 0.25) then 100
  else if PyNum.ge upside (NFloat 0.15) then 90
  else if PyNum.ge upside (NFloat 0.08) then 75
  else if PyNum.ge upside (NFloat 0.02) then 60
  else if PyNum.ge upside (NFloat (-0.05)) then 40
  else 10.

(** [part] occurs inside [s]. *)
Definition occurs_in (part s : string) : Prop :=
  ∃ before after, s = before +:+ part +:+ after.

(** The all-best-case fundamentals. *)
Definition best_case : gmap string pyval :=
  <["trailingPE" := PyInt 10]> (<["forwardPE" := PyInt 10]>
    (<["dividendYield" := PyFloat 0.04]> (<["marketCap" := PyFloat 300e9]>
      (<["beta" := PyFloat 0.5]> ∅)))).

Definition limited_financial_data : string :=
  "Limited financial data available for comprehensive analysis.".


Definition range_unavailable : string :=
  "52-Week High/Low data not available for range analysis.".

(** [v == 0] holds. *)
Definition equals_zero (v : pyval) : Prop :=
  ∃ x, as_number v = Some x ∧ PyNum.eq x (NInt 0) = true.

(** The first character of [s] is [c]. *)
Definition head_is (c : ascii) (s : string) : bool :=
  match s with
  | String a _ => Ascii.eqb a c
  | EmptyString => false
  end.





(** A rising history of [n] daily bars: closes 100, 101, ... *)
Definition rising (n : nat) : list bar :=
  (λ i : nat, {| Date := Z.of_nat i;
                 Close := SF2Prim (binary_normalize prec emax (100 + Z.of_nat i) 0 false) |})
  <$> seq 0 n.

(** The mean of the four scores rounded to the nearest integer, a tie going
    to the even neighbour. *)
Definition mean_rounded (rating upside financial technical : Z) : Z :=
  PyFormat.round_half_even (rating + upside + financial + technical) 4.

(** The suggestion table, read top-down. *)
Definition suggestion_for (overall_score : Z) : string :=
  if 85 <=? overall_score then "Strong Buy"
  else if 70 <=? overall_score then "Buy"
  else if 50 <=? overall_score then "Hold"
  else if 30 <=? overall_score then "Sell"
  else "Strong Sell".

(** [n / 4] as a [float]. *)
Definition quarters (n : Z) : float :=
  SF2Prim (binary_normalize prec emax n (-2) false).

(** [P] holds of 0, 1, ..., [n]. *)
Definition all_upto (n : nat) (P : Z → bool) : bool :=
  forallb (λ i, P (Z.of_nat i)) (seq 0 (S n)).

(** The keys the aggregator assigns. *)
Definition report_keys : list string :=
  ["overallScore"; "scoreBreakdown"; "suggestion"; "reasons"].

(** The reasons of a report. *)
Definition reasons_of (report : exc (gmap string pyval)) : list string :=
  match report with
  | Ok d => match d !! "reasons" with Some (PyStrs l) => l | _ => [] end
  | Raise _ => []
  end.

(** A snapshot as [fetch_stock_data_from_yfinance] builds it. *)
Definition sample_snapshot : gmap string pyval :=
  list_to_map
    [("ticker", PyStr "ACME"); ("companyName", PyStr "Acme Corporation");
     ("currentPrice", PyFloat 299); ("previousClose", PyFloat 298);
     ("marketCap", PyInt 250000000000); ("peRatio", PyFloat 12.5);
     ("forwardPE", PyFloat 11); ("dividendYield", PyFloat 0.02);
     ("beta", PyFloat 1.1); ("52WeekHigh", PyFloat 299); ("52WeekLow", PyFloat 100);
     ("analystRecommendation", PyStr "Buy"); ("analystTargetPrice", PyFloat 330);
     ("analystUpside", PyFloat 0.1); ("historicalData", PyRows (rising 200))].

(** The same snapshot when the provider gave no target price: the fetcher
    then stores [None] as the upside. *)
Definition snapshot_without_target : gmap string pyval :=
  <["analystTargetPrice" := PyNone]> (<["analystUpside" := PyNone]> sample_snapshot).

(** The report the aggregator makes of [sample_snapshot]. *)
Definition sample_report (kernel : pandas) : gmap string pyval :=
  match calculate_overall_score_and_reasons kernel (λ _, "") sample_snapshot with
  | Ok report => report
  | Raise _ => ∅
  end.

(** A snapshot of the data model: numbers within [int_bound], a history
    that is absent or a list of rows, 52-week bounds that are null or
    numbers. *)
Definition data_model (stock_data : gmap string pyval) : Prop :=
  (∀ key, fitting (get stock_data key))
  ∧ history_or_null (get_or stock_data "historicalData" (PyRows []))
  ∧ number_or_null (get stock_data "52WeekHigh")
  ∧ number_or_null (get stock_data "52WeekLow").

(** ** Vocabulary of the routes and the fetcher *)

(** A read of [.info] that the retry decorator answers with another
    attempt: an exception of a retried class, or an empty dict. *)
Definition retried_failure (read : outcome (gmap string pyval)) : Prop :=
  ∃ e, fetch_info_body read = Raises e ∧ retry_if_exception_type e = true.

(** The error of line 218. *)
Definition general_failure (ticker : string) : string :=
  "Could not retrieve any data for " +:+ ticker
    +:+ ". It might be an invalid ticker or temporarily unavailable.".

(** Every cache entry refers to a dict object of the state, and that dict
    is not empty. *)
Definition cache_sound (s : server) : Prop :=
  ∀ ticker entry,
    STOCK_DATA_CACHE s !! ticker = Some entry →
    ∃ d, objects s !! data entry = Some d ∧ empty_dict d = false.

(** [v] is a [str]. *)
Definition is_str (v : pyval) : bool :=
  match v with
  | PyStr _ => true
  | _ => false
  end.

(** The assignments of lines 138 to 208 in their order, on the values
    computed on the way. *)
Definition snapshot_of (ticker : string) (info : gmap string pyval)
    (change percent date ipo_date recommendation upside : pyval) (rows : list bar)
  : gmap string pyval :=
  <["historicalData" := PyRows rows]>
  (<["analystUpside" := upside]>
  (<["analystTargetPrice" := get info "targetMeanPrice"]>
  (<["analystRecommendation" := recommendation]>
  (<["ipo" := ipo_date]>
  (<["exDividendDate" := date]>
  (<["exDividendDate" := get info "exDividendDate"]>
  (<["52WeekLow" := get info "fiftyTwoWeekLow"]>
  (<["52WeekHigh" := get info "fiftyTwoWeekHigh"]>
  (<["beta" := get info "beta"]>
  (<["dividendYield" := get info "dividendYield"]>
  (<["forwardPE" := get info "forwardPE"]>
  (<["peRatio" := get info "trailingPE"]>
  (<["percentChange" := percent]>
  (<["priceChange" := change]>
  (<["weburl" := get info "website"]>
  (<["businessSummary" := get_or info "longBusinessSummary"
                            (PyStr "No business summary available.")]>
  (<["fullTimeEmployees" := get info "fullTimeEmployees"]>
  (<["sector" := get info "sector"]>
  (<["industry" := get info "industry"]>
  (<["currency" := get info "currency"]>
  (<["marketCap" := get info "marketCap"]>
  (<["volume" := get info "volume"]>
  (<["dayLow" := get info "dayLow"]>
  (<["dayHigh" := get info "dayHigh"]>
  (<["previousClose" := get info "previousClose"]>
  (<["openPrice" := get info "open"]>
  (<["currentPrice" := get info "currentPrice"]>
  (<["companyName" := if truthy (get info "longName") then get info "longName"
                      else get_or info "shortName" (PyStr "N/A")]>
  (<["ticker" := PyStr ticker]> ∅))))))))))))))))))))))))))))).

(** The error noted on an empty history. *)
Definition no_history (ticker : string) : string :=
  "No historical data found for " +:+ ticker +:+ ".".

(** The reason of a trailing P/E that is absent or not positive. *)
Definition trailing_pe_unavailable : string :=
  "Trailing P/E Ratio N/A or not positive, limiting valuation insight.".

(** The financial score of a report. *)
Definition financial_score_of (report : gmap string pyval) : option Z :=
  match report !! "scoreBreakdown" with
  | Some (PyScores score_breakdown) => score_breakdown !! "financialAnalysis"
  | _ => None
  end.

(** An info as the provider documents it: prices and bounds that are null
    or numbers, ratios that are not [int]s beyond the floats, a
    recommendation key that is a string when present, and two timestamps
    the date conversion accepts or rejects with [TypeError] or
    [ValueError]. *)
Definition provider_model (utc_date : num → exc string) (info : gmap string pyval) : Prop :=
  number_or_null (get info "currentPrice")
  ∧ number_or_null (get info "previousClose")
  ∧ number_or_null (get info "targetMeanPrice")
  ∧ number_or_null (get info "fiftyTwoWeekHigh")
  ∧ number_or_null (get info "fiftyTwoWeekLow")
  ∧ fitting (get info "forwardPE")
  ∧ fitting (get info "dividendYield")
  ∧ fitting (get info "marketCap")
  ∧ fitting (get info "beta")
  ∧ is_str (get_or info "recommendationKey" (PyStr "Data Unavailable")) = true
  ∧ returns (ex_dividend_date utc_date (get info "exDividendDate")) = true
  ∧ returns (ipo utc_date (get info "firstTradeDateEpochUtc")) = true.

(** ** Sample requests and provider answers *)

(** [m] returned. *)
Definition succeeds {A} (m : outcome A) : bool :=
  match m with
  | Returns _ => true
  | Raises _ => false
  end.

(** The body [{"ticker": "aapl"}] and a watchlist file. *)
Definition sample_request : gmap string pyval := <["ticker" := PyStr "aapl"]> ∅.
Definition sample_watchlist : file (list string) := Holds ["MSFT"; "GOOGL"].
Definition watchlist_with_aapl : file (list string) := Holds ["MSFT"; "AAPL"; "GOOGL"].

(** An info of the provider, with and without a target price, and with a
    null recommendation key. *)
Definition sample_info : gmap string pyval :=
  list_to_map
    [("longName", PyStr "Acme Corporation"); ("currentPrice", PyFloat 299);
     ("previousClose", PyFloat 298); ("marketCap", PyInt 250000000000);
     ("trailingPE", PyFloat 12.5); ("forwardPE", PyFloat 11);
     ("dividendYield", PyFloat 0.02); ("beta", PyFloat 1.1);
     ("fiftyTwoWeekHigh", PyFloat 299); ("fiftyTwoWeekLow", PyFloat 100);
     ("recommendationKey", PyStr "strong_buy"); ("targetMeanPrice", PyFloat 330)].

Definition info_without_target : gmap string pyval := delete "targetMeanPrice" sample_info.

Definition info_with_null_key : gmap string pyval :=
  <["recommendationKey" := PyNone]> sample_info.

(** A provider that gives [info] at every read and a rising year of
    history. *)
Definition provider_of (info : gmap string pyval) (ticker : string) : ticker_object :=
  {| info_read := λ _, Returns info; history_1y := Returns (rising 200) |}.

(** A provider that answers 429 to every read. *)
Definition rate_limiting (ticker : string) : ticker_object :=
  {| info_read := λ _, Raises (HTTPError 429); history_1y := Returns [] |}.

(** A provider that gives an empty info at every read. *)
Definition knowing_nothing (ticker : string) : ticker_object :=
  {| info_read := λ _, Returns ∅; history_1y := Returns [] |}.

(** A date conversion that rejects every timestamp (the sample infos
    carry none). *)
Definition no_dates (t : num) : exc string := Raise ValueError.

(** The module state when the server starts. *)
Definition at_start : server := {| STOCK_DATA_CACHE := ∅; objects := [] |}.

(** What the fetcher builds from a sample info, and the report the
    aggregator makes of it. *)
Definition built_from (info : gmap string pyval) : gmap string pyval * list string :=
  match build_stock_data ascii_title no_dates "ACME" info (Returns (rising 200)) with
  | Returns built => built
  | Raises _ => (∅, [])
  end.

Definition report_from (info : gmap string pyval) : gmap string pyval :=
  match calculate_overall_score_and_reasons plain_mean (λ _, "") (built_from info).1 with
  | Ok report => report
  | Raise _ => ∅
  end.

(** One hour, in microseconds. *)
Definition one_hour : Z := 3600 * 1000000.

(** A provider that answers 429 five times and gives an info from the
    sixth read on. *)
Definition recovering_late (ticker : string) : ticker_object :=
  {| info_read := λ k, if (k <? 5)%nat then Raises (HTTPError 429) else Returns sample_info;
     history_1y := Returns [] |}.

(** The state after the sample ticker was fetched from [info] at time 0. *)
Definition fetched_state (info : gmap string pyval) : server :=
  {| STOCK_DATA_CACHE := <["ACME" := {| data := 0; timestamp := 0 |}]> ∅;
     objects := [] ++ [(built_from info).1] |}.

(** The state after it was analysed as well. *)
Definition analysed_state (info : gmap string pyval) : server :=
  {| STOCK_DATA_CACHE := <["ACME" := {| data := 0; timestamp := 0 |}]> ∅;
     objects := [report_from info] |}.

(** * Properties *)

(** ** The error monad *)

Lemma bind_Ok {A B} (m : exc A) (f : A → exc B) (b : B) :
  m ≫= f = Ok b ↔ ∃ a, m = Ok a ∧ f a = Ok b.
Proof.
  destruct m as [a|e]; simpl; split.
  - intros H. exists a. done.
  - intros (a' & [= <-] & H). done.
  - discriminate.
  - intros (a' & [=] & _).
Qed.

Lemma bind_unit {A B} (a : A) (f : A → exc B) : Ok a ≫= f = f a.
Proof. reflexivity. Qed.

(** ** One step of a scorer body *)

Lemma one_block_credit lo hi points reason t :
  lo ≤ points ≤ hi → one_block lo hi t (credit points reason t).
Proof. intros H. split; simpl; [lia | by exists reason]. Qed.

Lemma one_block_note lo hi reason t :
  lo ≤ 0 ≤ hi → one_block lo hi t (note reason t).
Proof. apply one_block_credit. Qed.

Create HintDb blocks.
#[local] Hint Resolve one_block_credit one_block_note : blocks.

(** Case analysis of a block: every branch ends in [credit] or [note],
    possibly after formats and operations that have to succeed. *)
Ltac block_cases :=
  repeat match goal with
    | H : _ ≫= _ = Ok _ |- _ =>
        apply bind_Ok in H; destruct H as (? & ? & H)
    | H : Ok _ = Ok _ |- _ => injection H as H; try subst
    | H : Raise _ = Ok _ |- _ => discriminate H
    | H : context [match ?x with _ => _ end] |- _ => destruct x eqn:?
    | |- context [match ?x with _ => _ end] => destruct x eqn:?
    end;
  subst.

Lemma score_trailing_pe_block v t t' :
  score_trailing_pe v t = Ok t' → one_block 0 25 t t'.
Proof. unfold score_trailing_pe. intros H. block_cases; auto with blocks lia. Qed.

Lemma score_forward_pe_block v t t' :
  score_forward_pe v t = Ok t' → one_block 0 20 t t'.
Proof. unfold score_forward_pe. intros H. block_cases; auto with blocks lia. Qed.

Lemma score_dividend_yield_block v t t' :
  score_dividend_yield v t = Ok t' → one_block 0 20 t t'.
Proof. unfold score_dividend_yield. intros H. block_cases; auto with blocks lia. Qed.

Lemma score_market_cap_block v t :
  one_block 0 15 t (score_market_cap v t).
Proof. unfold score_market_cap. block_cases; auto with blocks lia. Qed.

Lemma score_beta_block v t t' :
  score_beta v t = Ok t' → one_block 0 20 t t'.
Proof. unfold score_beta. intros H. block_cases; auto with blocks lia. Qed.

(** ** Scores stay between 0 and 100 *)

Lemma rating_in_range recommendation :
  in_range (calculate_analyst_rating_score recommendation).1.
Proof.
  unfold calculate_analyst_rating_score, in_range.
  repeat case_match; simpl; lia.
Qed.

Lemma upside_in_range upside score reason :
  calculate_analyst_upside_score upside = Ok (score, reason) → in_range score.
Proof.
  unfold calculate_analyst_upside_score, in_range. intros H.
  block_cases; lia.
Qed.

(** The financial scorer appends one reason per metric and credits at most
    25 + 20 + 20 + 15 + 20 points. *)
Lemma financial_tally info score reasons :
  calculate_financial_analysis_score info = Ok (score, reasons) →
  in_range score ∧ length reasons = 5%nat.
Proof.
  unfold calculate_financial_analysis_score. intros H.
  apply bind_Ok in H as (t1 & H1 & H). apply score_trailing_pe_block in H1 as [? [r1 E1]].
  apply bind_Ok in H as (t2 & H2 & H). apply score_forward_pe_block in H2 as [? [r2 E2]].
  apply bind_Ok in H as (t3 & H3 & H). apply score_dividend_yield_block in H3 as [? [r3 E3]].
  apply bind_Ok in H as (t5 & H5 & H). apply score_beta_block in H5 as [? [r5 E5]].
  destruct (score_market_cap_block (get info "marketCap") t3) as [? [r4 E4]].
  injection H as <- <-. simpl in *.
  rewrite E5, E4, E3, E2, E1. simpl.
  split; [unfold in_range; lia | done].
Qed.

Section TechnicalRange.

Variable pd : pandas.

Lemma score_ma_crossover_block price ma50 ma200 t t' :
  score_ma_crossover price ma50 ma200 t = Ok t' → one_block 0 40 t t'.
Proof. unfold score_ma_crossover. intros H. block_cases; auto with blocks lia. Qed.

Lemma score_52_week_range_block high low price t t' :
  score_52_week_range high low price t = Ok t' → one_block 0 30 t t'.
Proof. unfold score_52_week_range. intros H. block_cases; auto with blocks lia. Qed.

Lemma score_recent_performance_block closes t :
  one_block 0 30 t (score_recent_performance closes t).
Proof. unfold score_recent_performance. block_cases; auto with blocks lia. Qed.

Lemma technical_in_range historical_data price high low score reasons :
  calculate_technical_analysis_score pd historical_data price high low
    = Ok (score, reasons) →
  in_range score.
Proof.
  unfold calculate_technical_analysis_score. intros H.
  destruct (negb (truthy historical_data)); [injection H as <- <-; unfold in_range; lia|].
  apply bind_Ok in H as (n & _ & H).
  destruct (n <? 200); [injection H as <- <-; unfold in_range; lia|].
  apply bind_Ok in H as (rows & _ & H).
  set (closes := Close <$> sort_index pd rows) in *.
  destruct (match as_number price with Some p => _ | None => _ end) as [p t0] eqn:Ht0.
  assert (0 ≤ t0.1) as Ht0'.
  { destruct (as_number price); injection Ht0 as <- <-; simpl; lia. }
  apply bind_Ok in H as (t1 & H1 & H). apply score_ma_crossover_block in H1 as [? _].
  apply bind_Ok in H as (t2 & H2 & H). apply score_52_week_range_block in H2 as [? _].
  destruct (score_recent_performance_block closes t2) as [? _].
  injection H as <- <-. unfold in_range. lia.
Qed.

End TechnicalRange.

(** ** Where the scorers return *)

Lemma int_bound_limit : 1 ≤ int_bound ∧ 400 * int_bound < PyNum.float_limit.
Proof. by vm_compute. Qed.

Lemma float_of_int_returns z :
  Z.abs z < PyNum.float_limit → ∃ f, PyNum.float_of_int z = Ok f.
Proof.
  intros H. unfold PyNum.float_of_int.
  destruct (Z.ltb_spec (Z.abs z) PyNum.float_limit); [eauto | lia].
Qed.

Lemma to_float_returns x :
  magnitude_below PyNum.float_limit x → ∃ f, PyNum.to_float x = Ok f.
Proof. destruct x; simpl; [apply float_of_int_returns | eauto]. Qed.

Lemma magnitude_below_mono b b' x :
  b ≤ b' → magnitude_below b x → magnitude_below b' x.
Proof. destruct x; simpl; [lia | done]. Qed.

Lemma format_2f_returns x :
  magnitude_below PyNum.float_limit x → ∃ s, PyFormat.format_2f x = Ok s.
Proof.
  intros H. unfold PyFormat.format_2f.
  destruct (to_float_returns x H) as [f ->]. simpl. eauto.
Qed.

Lemma format_2f_fits x :
  magnitude_below int_bound x → ∃ s, PyFormat.format_2f x = Ok s.
Proof.
  intros H. apply format_2f_returns. revert H. apply magnitude_below_mono.
  pose proof int_bound_limit. lia.
Qed.

Lemma percent_2f_returns x :
  magnitude_below int_bound x → ∃ s, percent_2f x = Ok s.
Proof.
  intros H. unfold percent_2f, PyNum.mul, PyNum.to_float.
  pose proof int_bound_limit as Hb.
  destruct x as [z|f].
  - simpl in *. apply format_2f_returns. simpl. lia.
  - destruct (float_of_int_returns 100) as [h ->]; [lia|].
    simpl. by apply format_2f_returns.
Qed.

Lemma float_2f_always f : ∃ s, percent_2f (NFloat f) = Ok s.
Proof. by apply percent_2f_returns. Qed.

Lemma sub_returns b x y :
  2 * b ≤ PyNum.float_limit →
  magnitude_below b x → magnitude_below b y →
  ∃ r, PyNum.sub x y = Ok r ∧ magnitude_below (2 * b) r.
Proof.
  intros Hb Hx Hy.
  destruct x as [a|a], y as [c|c]; simpl in *.
  - eexists. split; [done|]. simpl. lia.
  - destruct (float_of_int_returns a) as [h ->]; [lia|]. simpl. by eexists.
  - destruct (float_of_int_returns c) as [h ->]; [lia|]. simpl. by eexists.
  - by eexists.
Qed.

(** A number above zero is not equal to zero. *)
Lemma gt_zero_ne x : PyNum.gt x (NInt 0) = true → PyNum.eq x (NInt 0) = false.
Proof.
  unfold PyNum.gt, PyNum.lt, PyNum.eq. destruct x as [z|f]; simpl.
  - by destruct z.
  - destruct (PyNum.int_compare_float 0 f) as [[]|]; simpl; done.
Qed.

Lemma truediv_returns x y :
  magnitude_below PyNum.float_limit x → magnitude_below PyNum.float_limit y →
  PyNum.gt y (NInt 0) = true →
  ∃ q, PyNum.truediv x y = Ok (NFloat q).
Proof.
  intros Hx Hy Hpos. pose proof (gt_zero_ne y Hpos) as Hne.
  destruct x as [a|a], y as [c|c]; simpl in *.
  - unfold PyNum.gt, PyNum.lt in Hpos. simpl in Hpos.
    destruct c as [|c|c]; try done. simpl.
    destruct (Z.leb_spec (PyNum.float_limit * Z.abs (Z.pos c)) (Z.abs a)); [nia | eauto].
  - destruct (float_of_int_returns a) as [h ->]; [lia|]. simpl.
    rewrite Hne. eauto.
  - destruct (float_of_int_returns c) as [h ->]; [lia|]. simpl.
    rewrite Hne. eauto.
  - rewrite Hne. eauto.
Qed.

Lemma upside_returns upside :
  fitting upside → ∃ score reason, calculate_analyst_upside_score upside = Ok (score, reason).
Proof.
  unfold fitting, calculate_analyst_upside_score.
  destruct (as_number upside) as [u|]; [|eauto]. intros Hu.
  destruct (percent_2f_returns u Hu) as [pct ->].
  repeat case_match; simpl; eauto.
Qed.

Lemma positive_number_fits v x :
  fitting v → positive_number v = Some x → magnitude_below int_bound x.
Proof.
  unfold fitting, positive_number. destruct (as_number v); [|done].
  case_match; [|done]. by intros ? [= <-].
Qed.

Lemma score_trailing_pe_returns v t :
  fitting v → ∃ t', score_trailing_pe v t = Ok t'.
Proof.
  intros Hv. unfold score_trailing_pe.
  destruct (positive_number v) as [x|] eqn:Hx; [|eauto].
  destruct (format_2f_fits x (positive_number_fits _ _ Hv Hx)) as [s ->].
  repeat case_match; simpl; eauto.
Qed.

Lemma score_forward_pe_returns v t :
  fitting v → ∃ t', score_forward_pe v t = Ok t'.
Proof.
  intros Hv. unfold score_forward_pe.
  destruct (positive_number v) as [x|] eqn:Hx; [|eauto].
  destruct (format_2f_fits x (positive_number_fits _ _ Hv Hx)) as [s ->].
  repeat case_match; simpl; eauto.
Qed.

Lemma score_dividend_yield_returns v t :
  fitting v → ∃ t', score_dividend_yield v t = Ok t'.
Proof.
  intros Hv. unfold score_dividend_yield.
  destruct (positive_number v) as [x|] eqn:Hx; [|eauto].
  destruct (percent_2f_returns x (positive_number_fits _ _ Hv Hx)) as [s ->].
  repeat case_match; simpl; eauto.
Qed.

Lemma score_beta_returns v t :
  fitting v → ∃ t', score_beta v t = Ok t'.
Proof.
  unfold fitting, score_beta. destruct (as_number v) as [x|]; [|eauto]. intros Hx.
  destruct (format_2f_fits x Hx) as [s ->].
  repeat case_match; simpl; eauto.
Qed.

Lemma financial_returns info :
  (∀ key, fitting (get info key)) →
  ∃ score reasons, calculate_financial_analysis_score info = Ok (score, reasons).
Proof.
  intros Hinfo. unfold calculate_financial_analysis_score.
  destruct (score_trailing_pe_returns _ (0, []) (Hinfo "trailingPE")) as [t1 ->]. simpl.
  destruct (score_forward_pe_returns _ t1 (Hinfo "forwardPE")) as [t2 ->]. simpl.
  destruct (score_dividend_yield_returns _ t2 (Hinfo "dividendYield")) as [t3 ->]. simpl.
  destruct (score_beta_returns _ (score_market_cap (get info "marketCap") t3)
              (Hinfo "beta")) as [t5 ->]. simpl.
  unfold finish. eauto.
Qed.

Section TechnicalReturns.

Variable pd : pandas.

Lemma score_ma_crossover_returns price ma50 ma200 t :
  magnitude_below int_bound price →
  ∃ t', score_ma_crossover price ma50 ma200 t = Ok t'.
Proof.
  intros Hp. unfold score_ma_crossover.
  destruct (format_2f_fits price Hp) as [s ->].
  repeat case_match; simpl; eauto.
Qed.

(** A value of the data model that tests true is a number. *)
Lemma operand_returns v :
  number_or_null v → truthy v = true →
  ∃ x, operand v = Ok x ∧ magnitude_below int_bound x.
Proof.
  intros [-> | (x & Hx & Hb)]; [done|]. intros _.
  unfold operand. rewrite Hx. eauto.
Qed.

Lemma score_52_week_range_returns high low price t :
  number_or_null high → number_or_null low → magnitude_below int_bound price →
  ∃ t', score_52_week_range high low price t = Ok t'.
Proof.
  intros Hh Hl Hp. unfold score_52_week_range.
  pose proof int_bound_limit as [? ?].
  destruct (truthy high) eqn:Eh; [|simpl; eauto].
  destruct (truthy low) eqn:El; [|simpl; eauto].
  destruct (PyNum.truthy price); [|simpl; eauto]. simpl.
  destruct (operand_returns high Hh Eh) as (h & -> & Hhb).
  destruct (operand_returns low Hl El) as (l & -> & Hlb). simpl.
  destruct (sub_returns int_bound h l) as (range & -> & Hrange); [lia|done..|]. simpl.
  destruct (PyNum.gt range (NInt 0)) eqn:Hpos; [|eauto].
  destruct (sub_returns int_bound price l) as (above & -> & Habove); [lia|done..|]. simpl.
  destruct (truediv_returns above range) as (q & ->);
    [eapply magnitude_below_mono; [|done]; lia..|done|]. simpl.
  destruct (format_2f_fits h Hhb) as [sh ->].
  destruct (format_2f_fits l Hlb) as [sl ->].
  destruct (format_2f_fits price Hp) as [sp ->].
  repeat case_match; simpl; eauto.
Qed.

Lemma technical_returns historical_data price high low :
  history_or_null historical_data → fitting price →
  number_or_null high → number_or_null low →
  ∃ score reasons,
    calculate_technical_analysis_score pd historical_data price high low
      = Ok (score, reasons).
Proof.
  intros Hhist Hp Hh Hl. unfold calculate_technical_analysis_score.
  destruct Hhist as [-> | [rows ->]]; [simpl; eauto|].
  destruct (negb (truthy (PyRows rows))); [eauto|]. simpl.
  destruct (Z.of_nat (length rows) <? 200); [eauto|].
  set (closes := Close <$> sort_index pd rows).
  assert (∃ p t0, (match as_number price with
                   | Some p => (p, ((0, []) : tally))
                   | None => (NFloat (iloc_last closes),
                              note "Using last available closing price for current price in technical analysis." (0, []))
                   end) = (p, t0) ∧ magnitude_below int_bound p) as (p & t0 & -> & Hpb).
  { unfold fitting in Hp. destruct (as_number price); eauto. }
  destruct (score_ma_crossover_returns p
              (last_unless_all_null (rolling_mean pd 50 closes))
              (last_unless_all_null (rolling_mean pd 200 closes)) t0 Hpb)
    as [t1 ->]. simpl.
  destruct (score_52_week_range_returns high low p t1 Hh Hl Hpb) as [t2 ->]. simpl.
  unfold finish. eauto.
Qed.

End TechnicalReturns.

(** ** The four scorers *)

(** Where the scorers return, and what they return.  For every input of
    the data model, the fully null one included, each of the four scorers
    returns an integer score between 0 and 100; and on no input at all
    does a scorer return a score outside that range. *)
Theorem scorer_scores_in_range :
  (* the four scorers return a score in range *)
  (∀ recommendation, in_range (calculate_analyst_rating_score recommendation).1) ∧
  (∀ upside, fitting upside →
     ∃ score reason,
       calculate_analyst_upside_score upside = Ok (score, reason) ∧ in_range score) ∧
  (∀ info, (∀ key, fitting (get info key)) →
     ∃ score reasons,
       calculate_financial_analysis_score info = Ok (score, reasons) ∧ in_range score) ∧
  (∀ kernel history price high low,
     history_or_null history → fitting price → number_or_null high → number_or_null low →
     ∃ score reasons,
       calculate_technical_analysis_score kernel history price high low = Ok (score, reasons)
       ∧ in_range score) ∧
  (* the null input *)
  (calculate_analyst_rating_score PyNone).1 = 50 ∧
  (∃ reason, calculate_analyst_upside_score PyNone = Ok (50, reason)) ∧
  (∃ reasons, calculate_financial_analysis_score ∅ = Ok (0, reasons)) ∧
  (∀ kernel, ∃ reasons,
     calculate_technical_analysis_score kernel PyNone PyNone PyNone PyNone = Ok (50, reasons)) ∧
  (* whatever the input, a returned score is in range *)
  (∀ upside score reason,
     calculate_analyst_upside_score upside = Ok (score, reason) → in_range score) ∧
  (∀ info score reasons,
     calculate_financial_analysis_score info = Ok (score, reasons) → in_range score) ∧
  (∀ kernel history price high low score reasons,
     calculate_technical_analysis_score kernel history price high low = Ok (score, reasons) →
     in_range score).
Proof.
  split_and!.
  - apply rating_in_range.
  - intros upside Hu. destruct (upside_returns upside Hu) as (score & reason & H).
    exists score, reason. split; [done|]. by eapply upside_in_range.
  - intros info Hinfo. destruct (financial_returns info Hinfo) as (score & reasons & H).
    exists score, reasons. split; [done|]. by eapply financial_tally.
  - intros kernel history price high low Hh Hp Hhi Hlo.
    destruct (technical_returns kernel history price high low Hh Hp Hhi Hlo)
      as (score & reasons & H).
    exists score, reasons. split; [done|]. by eapply technical_in_range.
  - done.
  - by eexists.
  - by eexists.
  - intros kernel. by eexists.
  - intros upside score reason. apply upside_in_range.
  - intros info score reasons H. by eapply financial_tally.
  - intros kernel history price high low score reasons. apply technical_in_range.
Qed.

(** C5: a history of fewer than 200 bars, the empty one included, and an
    absent history as well, gives exactly the neutral result, score 50 with
    the single insufficient-data reason, whatever the current price and the
    52-week bounds are. *)
Theorem short_history_is_neutral kernel rows price high low :
  (length rows < 200)%nat →
  calculate_technical_analysis_score kernel (PyRows rows) price high low
    = Ok (50, ["Insufficient historical data for comprehensive technical analysis (less than 200 days)."])
  ∧ calculate_technical_analysis_score kernel PyNone price high low
    = Ok (50, ["Insufficient historical data for comprehensive technical analysis (less than 200 days)."]).
Proof.
  intros Hshort. split; [|done].
  unfold calculate_technical_analysis_score.
  destruct (negb (truthy (PyRows rows))); [done|]. simpl.
  destruct (Z.ltb_spec (Z.of_nat (length rows)) 200); [done | lia].
Qed.

Lemma short_history_is_neutral_witness :
  (length (rising 199) < 200)%nat
  ∧ calculate_technical_analysis_score plain_mean (PyRows (rising 199))
      (PyFloat 250) (PyFloat 300) (PyFloat 100)
    = Ok (50, ["Insufficient historical data for comprehensive technical analysis (less than 200 days)."]).
Proof.
  split; [vm_compute; lia|].
  apply (short_history_is_neutral plain_mean (rising 199)). vm_compute. lia.
Defined.

(** ** Strings *)

Lemma append_assoc (a b c : string) : (a +:+ b) +:+ c = a +:+ b +:+ c.
Proof.
  induction a as [|x a IH]; [done|].
  change (String x ((a +:+ b) +:+ c) = String x (a +:+ b +:+ c)). by rewrite IH.
Qed.

Lemma occurs_in_percent (before pct after : string) :
  occurs_in (pct +:+ "%") (before +:+ pct +:+ "%" +:+ after).
Proof. exists before, after. by rewrite append_assoc. Qed.

Lemma prefix_append (s t : string) : String.prefix s (s +:+ t) = true.
Proof.
  induction s as [|x s IH]; [by destruct t|].
  change (String.prefix (String x s) (String x (s +:+ t)) = true). simpl.
  destruct (ascii_dec x x); [done | congruence].
Qed.

(** ** The upside tiers *)

(** C6: the upside scorer gives 50 to an absent or non-numeric upside and
    otherwise the score of the first tier, read top-down with inclusive
    lower bounds, that the upside reaches (0.25, 0.15, 0.08, 0.02, -0.05,
    else 10); the reason then includes the upside as a percentage with two
    decimals, which a [float] upside always has. *)
Theorem upside_tiers :
  (∀ upside, as_number upside = None →
     calculate_analyst_upside_score upside
       = Ok (50, "Analyst target price or upside data not available.")) ∧
  (∀ upside u pct, as_number upside = Some u → percent_2f u = Ok pct →
     ∃ reason,
       calculate_analyst_upside_score upside = Ok (upside_tier u, reason)
       ∧ occurs_in (pct +:+ "%") reason) ∧
  (∀ f, ∃ pct, percent_2f (NFloat f) = Ok pct) ∧
  calculate_analyst_upside_score (PyFloat 0.25)
    = Ok (100, "Significant upside potential of 25.00% according to target prices.") ∧
  calculate_analyst_upside_score (PyFloat 0.2499)
    = Ok (90, "High upside potential of 24.99% based on target prices.") ∧
  calculate_analyst_upside_score (PyFloat (-0.05))
    = Ok (40, "Limited upside or slight downside of -5.00% based on target prices.") ∧
  calculate_analyst_upside_score (PyFloat (-0.0501))
    = Ok (10, "Significant downside risk of -5.01% based on target prices.") ∧
  calculate_analyst_upside_score PyNone
    = Ok (50, "Analyst target price or upside data not available.").
Proof.
  split_and!.
  - intros upside H. unfold calculate_analyst_upside_score. by rewrite H.
  - intros upside u pct Hu Hpct.
    unfold calculate_analyst_upside_score, upside_tier. rewrite Hu, Hpct.
    repeat case_match; simpl; eexists; (split; [done|]); apply occurs_in_percent.
  - apply float_2f_always.
  - vm_compute. reflexivity.
  - vm_compute. reflexivity.
  - vm_compute. reflexivity.
  - vm_compute. reflexivity.
  - reflexivity.
Qed.

(** ** The financial extremes *)

(** C4 as stated fails: with every metric absent the scorer returns five
    reasons, one per metric, and the limited-data fallback is not among
    them. *)
Lemma all_absent_has_no_fallback :
  ∃ reasons,
    calculate_financial_analysis_score ∅ = Ok (0, reasons)
    ∧ length reasons = 5%nat
    ∧ reasons ≠ [limited_financial_data].
Proof.
  eexists. split; [vm_compute; reflexivity|]. split; [reflexivity | discriminate].
Qed.

(** C4, amended: with every metric absent the financial scorer returns
    score 0 with the five per-metric reasons; with the all-best-case metrics
    it returns score 100 = 25 + 20 + 20 + 15 + 20; and whatever the input,
    it returns exactly five reasons, so the limited-data fallback is never
    the result. *)
Theorem financial_extremes :
  (∀ info,
     get info "trailingPE" = PyNone → get info "forwardPE" = PyNone →
     get info "dividendYield" = PyNone → get info "marketCap" = PyNone →
     get info "beta" = PyNone →
     calculate_financial_analysis_score info
       = Ok (0, ["Trailing P/E Ratio N/A or not positive, limiting valuation insight.";
                 "Forward P/E Ratio N/A or not positive.";
                 "No significant dividend yield, common for growth stocks or those reinvesting earnings.";
                 "Market capitalization data unavailable.";
                 "Beta (market volatility) data unavailable."])) ∧
  (∃ reasons, calculate_financial_analysis_score ∅ = Ok (0, reasons)) ∧
  calculate_financial_analysis_score best_case
    = Ok (25 + 20 + 20 + 15 + 20,
          ["Healthy Trailing P/E Ratio (10.00) indicates good valuation.";
           "Strong Forward P/E Ratio (10.00) suggests future earnings growth.";
           "Attractive Dividend Yield of 4.00% provides income.";
           "Large market capitalization suggests stability and market leadership.";
           "Low Beta (0.50) indicates lower volatility relative to the market."]) ∧
  (∀ info score reasons,
     calculate_financial_analysis_score info = Ok (score, reasons) →
     length reasons = 5%nat ∧ reasons ≠ [limited_financial_data]).
Proof.
  split_and!.
  - intros info H1 H2 H3 H4 H5. unfold calculate_financial_analysis_score.
    by rewrite H1, H2, H3, H4, H5.
  - eexists. vm_compute. reflexivity.
  - vm_compute. reflexivity.
  - intros info score reasons H. apply financial_tally in H as [_ H].
    split; [done|]. by intros ->.
Qed.

(** ** The 52-week range and the truth value of zero *)

Lemma equals_zero_falsy v : equals_zero v → truthy v = false.
Proof.
  intros (x & Hx & Hzero).
  destruct v as [|b|z|f| | | |]; simpl in Hx; try discriminate; injection Hx as <-.
  - by destruct b.
  - unfold truthy, PyNum.truthy, PyNum.ne. by rewrite Hzero.
  - unfold truthy, PyNum.truthy, PyNum.ne. by rewrite Hzero.
Qed.

Lemma zero_is_falsy (price : num) :
  PyNum.eq price (NInt 0) = true → PyNum.truthy price = false.
Proof. intros H. unfold PyNum.truthy, PyNum.ne. by rewrite H. Qed.

Lemma finish_reasons fallback t reason :
  reason ∈ t.2 → reason ∈ (finish fallback t).2.
Proof.
  intros H. unfold finish. simpl. case_bool_decide as Hnil; [|done].
  rewrite Hnil in H. by apply elem_of_nil in H.
Qed.

Lemma long_history_proceeds kernel rows price high low :
  (200 ≤ length rows)%nat →
  calculate_technical_analysis_score kernel (PyRows rows) price high low =
    let closes := Close <$> sort_index kernel rows in
    let '(current_price, t) :=
      match as_number price with
      | Some p => (p, ((0, []) : tally))
      | None =>
          (NFloat (iloc_last closes),
           note "Using last available closing price for current price in technical analysis." (0, []))
      end in
    t ← score_ma_crossover current_price
           (last_unless_all_null (rolling_mean kernel 50 closes))
           (last_unless_all_null (rolling_mean kernel 200 closes)) t;
    t ← score_52_week_range high low current_price t;
    Ok (finish "Limited technical data available for comprehensive analysis."
          (score_recent_performance closes t)).
Proof.
  intros Hlen. unfold calculate_technical_analysis_score.
  destruct rows as [|r rows]; [simpl in Hlen; lia|].
  replace (negb (truthy (PyRows (r :: rows)))) with false by done.
  unfold len, data_frame. rewrite bind_unit.
  destruct (Z.ltb_spec (Z.of_nat (length (r :: rows))) 200); [lia|].
  by rewrite bind_unit.
Qed.

(** C10: the 52-week range block is skipped, crediting nothing and giving
    the not-available reason, as soon as the 52-week high, the 52-week low
    or the current price equals 0; so a stock whose 52-week low is exactly 0
    gets no range sub-score whatever its high, and on a history of 200 bars
    or more the scorer's reasons then hold the not-available reason. *)
Theorem zero_skips_52_week_range high low (price : num) t :
  equals_zero high ∨ equals_zero low ∨ PyNum.eq price (NInt 0) = true →
  score_52_week_range high low price t = Ok (note range_unavailable t)
  ∧ ∀ kernel rows current_price score reasons,
      (200 ≤ length rows)%nat →
      as_number current_price = Some price →
      calculate_technical_analysis_score kernel (PyRows rows) current_price high low
        = Ok (score, reasons) →
      range_unavailable ∈ reasons.
Proof.
  intros Hzero.
  assert (score_52_week_range high low price t = Ok (note range_unavailable t)
          ∧ ∀ t0, score_52_week_range high low price t0 = Ok (note range_unavailable t0))
    as [Hblock Hany].
  { assert (truthy high && truthy low && PyNum.truthy price = false) as Hguard.
    { destruct Hzero as [H | [H | H]].
      - by rewrite (equals_zero_falsy _ H).
      - rewrite (equals_zero_falsy _ H). by destruct (truthy high).
      - rewrite (zero_is_falsy _ H). by destruct (truthy high), (truthy low). }
    unfold score_52_week_range. by rewrite Hguard. }
  split; [done|].
  intros kernel rows current_price score reasons Hlen Hprice.
  rewrite long_history_proceeds by done. cbv zeta. rewrite Hprice.
  intros H. apply bind_Ok in H as (t1 & _ & H). rewrite Hany in H. simpl in H.
  injection H as <- <-.
  apply finish_reasons.
  destruct (score_recent_performance_block (Close <$> sort_index kernel rows) (note range_unavailable t1))
    as [_ [r ->]].
  simpl. rewrite !elem_of_app, list_elem_of_singleton. auto.
Qed.

Lemma zero_skips_52_week_range_witness :
  (equals_zero (PyFloat 352) ∨ equals_zero (PyInt 0) ∨ PyNum.eq (NFloat 300) (NInt 0) = true)
  ∧ score_52_week_range (PyFloat 352) (PyInt 0) (NFloat 300) (0, [])
    = Ok (0, [range_unavailable]).
Proof.
  assert (equals_zero (PyFloat 352) ∨ equals_zero (PyInt 0)
          ∨ PyNum.eq (NFloat 300) (NInt 0) = true) as H.
  { right. left. exists (NInt 0). split; reflexivity. }
  split; [exact H|].
  exact (proj1 (zero_skips_52_week_range (PyFloat 352) (PyInt 0) (NFloat 300) (0, []) H)).
Defined.

(** ** A 52-week bound that is no number *)

(** C2: the technical scorer does not return a score on every input.  It
    tests a 52-week bound for truth only before it subtracts: on a history
    of 200 bars or more and a current price that is a number other than
    zero, a high that is a non-empty string, with any low that tests true,
    makes the scorer raise [TypeError] instead of returning a score. *)
Theorem technical_scorer_raises_on_text_bound kernel rows price p high low :
  (200 ≤ length rows)%nat →
  as_number price = Some p → magnitude_below int_bound p → PyNum.truthy p = true →
  high ≠ "" → truthy low = true →
  calculate_technical_analysis_score kernel (PyRows rows) price (PyStr high) low
    = Raise TypeError.
Proof.
  intros Hlen Hprice Hfits Hp Hhigh Hlow.
  rewrite long_history_proceeds by done. cbv zeta. rewrite Hprice.
  destruct (score_ma_crossover_returns p
              (last_unless_all_null
                 (rolling_mean kernel 50 (Close <$> sort_index kernel rows)))
              (last_unless_all_null
                 (rolling_mean kernel 200 (Close <$> sort_index kernel rows)))
              (0, []) Hfits) as [t1 ->].
  rewrite bind_unit. unfold score_52_week_range.
  assert (truthy (PyStr high) = true) as ->.
  { simpl. by destruct (String.eqb_spec high ""). }
  by rewrite Hlow, Hp.
Qed.

Lemma technical_scorer_raises_on_text_bound_witness :
  (200 ≤ length (rising 200))%nat
  ∧ as_number (PyFloat 150) = Some (NFloat 150)
  ∧ magnitude_below int_bound (NFloat 150)
  ∧ PyNum.truthy (NFloat 150) = true
  ∧ "N/A" ≠ ""
  ∧ truthy (PyStr "N/A") = true
  ∧ calculate_technical_analysis_score plain_mean (PyRows (rising 200)) (PyFloat 150)
      (PyStr "N/A") (PyStr "N/A")
    = Raise TypeError.
Proof.
  assert (200 ≤ length (rising 200))%nat as Hlen by (vm_compute; lia).
  assert (PyNum.truthy (NFloat 150) = true) as Hp by (vm_compute; reflexivity).
  assert ("N/A" ≠ "") as Hhigh by discriminate.
  split; [exact Hlen|]. split; [reflexivity|]. split; [exact I|]. split; [exact Hp|].
  split; [exact Hhigh|]. split; [reflexivity|].
  exact (technical_scorer_raises_on_text_bound plain_mean (rising 200) (PyFloat 150)
           (NFloat 150) "N/A" (PyStr "N/A") Hlen eq_refl I Hp Hhigh eq_refl).
Defined.

(** ** The moving averages of a long history *)























(** ** The weighted sum of four scores *)

Lemma all_upto_spec n P z :
  all_upto n P = true → 0 ≤ z ≤ Z.of_nat n → P z = true.
Proof.
  unfold all_upto. rewrite forallb_forall. intros H Hz.
  specialize (H (Z.to_nat z)). rewrite Z2Nat.id in H by lia.
  apply H, in_seq. lia.
Qed.

(** A score times 0.25 is exact. *)
Lemma score_quarter s :
  in_range s →
  ∃ a, PyNum.float_of_int s = Ok a ∧ (a * 0.25)%float = quarters s.
Proof.
  intros [Hlo Hhi].
  assert (all_upto 100 (λ n, match PyNum.float_of_int n with
                             | Ok a => PrimFloat.Leibniz.eqb (a * 0.25)%float (quarters n)
                             | Raise _ => false
                             end) = true) as H by (vm_compute; reflexivity).
  apply (all_upto_spec _ _ s) in H; [|lia]. cbv beta in H.
  destruct (PyNum.float_of_int s) as [a|]; [|done].
  exists a. split; [done|]. by apply FloatAxioms.Leibniz.eqb_spec.
Qed.

(** So is the sum of up to four of them. *)
Lemma quarters_add n m :
  0 ≤ n ≤ 300 → 0 ≤ m ≤ 100 → (quarters n + quarters m)%float = quarters (n + m).
Proof.
  intros Hn Hm.
  assert (all_upto 300 (λ n, all_upto 100 (λ m,
            PrimFloat.Leibniz.eqb (quarters n + quarters m)%float (quarters (n + m))))
          = true) as H by (vm_compute; reflexivity).
  apply (all_upto_spec _ _ n) in H; [|lia]. cbv beta in H.
  apply (all_upto_spec _ _ m) in H; [|lia]. cbv beta in H.
  by apply FloatAxioms.Leibniz.eqb_spec.
Qed.

Lemma quarters_round n :
  0 ≤ n ≤ 400 →
  PyFormat.int_of_float (PyFormat.round0 (quarters n)) = Ok (PyFormat.round_half_even n 4).
Proof.
  intros Hn.
  assert (all_upto 400 (λ n, match PyFormat.int_of_float (PyFormat.round0 (quarters n)) with
                             | Ok z => z =? PyFormat.round_half_even n 4
                             | Raise _ => false
                             end) = true) as H by (vm_compute; reflexivity).
  apply (all_upto_spec _ _ n) in H; [|lia]. cbv beta in H.
  destruct (PyFormat.int_of_float _) as [z|]; [|done].
  apply Z.eqb_eq in H. by subst.
Qed.

(** [int(round(...))] of the weighted sum is the rounded mean. *)
Lemma rounded_overall_mean rating upside financial technical :
  in_range rating → in_range upside → in_range financial → in_range technical →
  rounded_overall rating upside financial technical
    = Ok (mean_rounded rating upside financial technical).
Proof.
  intros Hr Hu Hf Ht. unfold rounded_overall, weighted_sum, mean_rounded.
  destruct (score_quarter rating Hr) as (a & -> & Ea).
  destruct (score_quarter upside Hu) as (b & -> & Eb).
  destruct (score_quarter financial Hf) as (c & -> & Ec).
  destruct (score_quarter technical Ht) as (d & -> & Ed).
  rewrite !bind_unit, Ea, Eb, Ec, Ed.
  unfold in_range in *.
  rewrite !quarters_add by lia.
  apply quarters_round. lia.
Qed.

Lemma suggestion_for_recommendation overall_score :
  (overall_recommendation overall_score).1 = suggestion_for overall_score.
Proof.
  unfold overall_recommendation, suggestion_for. by repeat case_match.
Qed.

(** ** The aggregator *)

Section AggregatorFacts.

Variable pd : pandas.
Variable str_of_other : pyval → string.

(** What a call that returns has computed and written. *)
Lemma aggregator_returns stock_data stock_data' :
  calculate_overall_score_and_reasons pd str_of_other stock_data
    = Ok stock_data' →
  ∃ rating reason_ar upside reason_au pct financial reason_fa technical reason_ta overall,
    calculate_analyst_rating_score (get stock_data "analystRecommendation")
      = (rating, reason_ar)
    ∧ calculate_analyst_upside_score (get stock_data "analystUpside") = Ok (upside, reason_au)
    ∧ upside_field_percent (get stock_data "analystUpside") = Ok pct
    ∧ calculate_financial_analysis_score stock_data = Ok (financial, reason_fa)
    ∧ calculate_technical_analysis_score pd
        (get_or stock_data "historicalData" (PyRows []))
        (get stock_data "currentPrice") (get stock_data "52WeekHigh")
        (get stock_data "52WeekLow") = Ok (technical, reason_ta)
    ∧ rounded_overall rating upside financial technical = Ok overall
    ∧ stock_data' =
        <["reasons" := PyStrs
            [(overall_recommendation overall).2;
             "Analyst Rating: " +:+ py_str str_of_other (get stock_data "analystRecommendation")
               +:+ " - " +:+ reason_ar +:+ " (Score: " +:+ PyFormat.str_of_int rating +:+ "%)";
             "Analyst Upside: " +:+ pct +:+ "% - " +:+ reason_au
               +:+ " (Score: " +:+ PyFormat.str_of_int upside +:+ "%)";
             "Financial Analysis: " +:+ String.concat "; " reason_fa
               +:+ " (Score: " +:+ PyFormat.str_of_int financial +:+ "%)";
             "Technical Analysis: " +:+ String.concat "; " reason_ta
               +:+ " (Score: " +:+ PyFormat.str_of_int technical +:+ "%)"]]>
        (<["suggestion" := PyStr (overall_recommendation overall).1]>
        (<["scoreBreakdown" := PyScores
             (<["technicalAnalysis" := technical]> (<["financialAnalysis" := financial]>
              (<["analystUpside" := upside]> (<["analystRating" := rating]> ∅))))]>
        (<["overallScore" := PyInt overall]> stock_data))).
Proof.
  unfold calculate_overall_score_and_reasons. intros H.
  destruct (calculate_analyst_rating_score _) as [rating reason_ar].
  apply bind_Ok in H as ([upside reason_au] & Hu & H).
  apply bind_Ok in H as (pct & Hpct & H).
  apply bind_Ok in H as ([financial reason_fa] & Hf & H).
  apply bind_Ok in H as ([technical reason_ta] & Ht & H).
  apply bind_Ok in H as (overall & Ho & H).
  destruct (overall_recommendation overall) as [suggestion sentence] eqn:Esugg.
  injection H as <-.
  exists rating, reason_ar, upside, reason_au, pct, financial, reason_fa,
    technical, reason_ta, overall.
  rewrite Esugg. by split_and!.
Qed.

(** A snapshot whose upside is [None] makes the summary line of the upside
    raise, after the upside scorer itself returned its neutral 50. *)
Lemma missing_upside_raises stock_data :
  get stock_data "analystUpside" = PyNone →
  calculate_overall_score_and_reasons pd str_of_other stock_data
    = Raise TypeError.
Proof.
  intros H. unfold calculate_overall_score_and_reasons.
  destruct (calculate_analyst_rating_score _) as [rating reason_ar].
  by rewrite H.
Qed.

End AggregatorFacts.

(** The aggregator returns on the sample snapshot. *)
Lemma sample_report_returned :
  calculate_overall_score_and_reasons plain_mean (λ _, "") sample_snapshot
    = Ok (sample_report plain_mean).
Proof.
  assert (returns (calculate_overall_score_and_reasons plain_mean (λ _, "") sample_snapshot)
          = true) as H by (vm_compute; reflexivity).
  unfold sample_report.
  by destruct (calculate_overall_score_and_reasons plain_mean (λ _, "") sample_snapshot).
Qed.

(** C1: the aggregator raises on the snapshot the fetcher builds when the
    provider has no target price (upside [None]): the claim that it never
    fails does not hold of the code. *)
Theorem aggregator_fails_without_upside kernel str_of_other :
  calculate_analyst_upside_score (get snapshot_without_target "analystUpside")
    = Ok (50, "Analyst target price or upside data not available.")
  ∧ calculate_overall_score_and_reasons kernel str_of_other snapshot_without_target
    = Raise TypeError.
Proof.
  split; [vm_compute; reflexivity|].
  apply missing_upside_raises. vm_compute. reflexivity.
Qed.

(** C3: the overall score of a report is the mean of the four sub-scores,
    each weighted 0.25, rounded to the nearest integer (a tie to the even
    one), and the suggestion is read off it top-down: 85 Strong Buy, 70 Buy,
    50 Hold, 30 Sell, else Strong Sell.  Four scores of 80 give 80 and Buy;
    85 gives Strong Buy, 84 Buy. *)
Theorem overall_score_and_suggestion kernel str_of_other stock_data stock_data' :
  calculate_overall_score_and_reasons kernel str_of_other stock_data = Ok stock_data' →
  (∃ rating upside financial technical reason_ar reason_au reason_fa reason_ta,
     calculate_analyst_rating_score (get stock_data "analystRecommendation")
       = (rating, reason_ar)
     ∧ calculate_analyst_upside_score (get stock_data "analystUpside") = Ok (upside, reason_au)
     ∧ calculate_financial_analysis_score stock_data = Ok (financial, reason_fa)
     ∧ calculate_technical_analysis_score kernel
         (get_or stock_data "historicalData" (PyRows []))
         (get stock_data "currentPrice") (get stock_data "52WeekHigh")
         (get stock_data "52WeekLow") = Ok (technical, reason_ta)
     ∧ stock_data' !! "overallScore"
         = Some (PyInt (mean_rounded rating upside financial technical))
     ∧ stock_data' !! "suggestion"
         = Some (PyStr (suggestion_for (mean_rounded rating upside financial technical))))
  ∧ rounded_overall 80 80 80 80 = Ok 80
  ∧ (overall_recommendation 80).1 = "Buy"
  ∧ (overall_recommendation 85).1 = "Strong Buy"
  ∧ (overall_recommendation 84).1 = "Buy".
Proof.
  intros H. split; [|split_and!; vm_compute; reflexivity].
  apply aggregator_returns in H
    as (rating & reason_ar & upside & reason_au & pct & financial & reason_fa
        & technical & reason_ta & overall & Hr & Hu & _ & Hf & Ht & Ho & ->).
  exists rating, upside, financial, technical, reason_ar, reason_au, reason_fa, reason_ta.
  rewrite rounded_overall_mean in Ho.
  - injection Ho as <-. split_and!; try done.
    + rewrite !lookup_insert_ne by done. by rewrite lookup_insert_eq.
    + rewrite lookup_insert_ne by done. rewrite lookup_insert_eq.
      by rewrite suggestion_for_recommendation.
  - pose proof (rating_in_range (get stock_data "analystRecommendation")) as Hin.
    by rewrite Hr in Hin.
  - by eapply upside_in_range.
  - by eapply financial_tally.
  - by eapply technical_in_range.
Qed.

Lemma overall_score_and_suggestion_witness :
  calculate_overall_score_and_reasons plain_mean (λ _, "") sample_snapshot
    = Ok (sample_report plain_mean)
  ∧ sample_report plain_mean !! "overallScore" = Some (PyInt 78)
  ∧ sample_report plain_mean !! "suggestion" = Some (PyStr "Buy")
  ∧ ∃ rating upside financial technical,
      sample_report plain_mean !! "overallScore"
        = Some (PyInt (mean_rounded rating upside financial technical)).
Proof.
  assert (calculate_overall_score_and_reasons plain_mean (λ _, "") sample_snapshot
          = Ok (sample_report plain_mean)) as E by apply sample_report_returned.
  split; [exact E|].
  split; [vm_compute; reflexivity|].
  split; [vm_compute; reflexivity|].
  destruct (overall_score_and_suggestion plain_mean (λ _, "") _ _ E)
    as [(rating & upside & financial & technical & _ & _ & _ & _ & _ & _ & _ & _ & H & _) _].
  by exists rating, upside, financial, technical.
Defined.

(** C7 as stated fails: the first reason of a report starts with the
    Markdown marker of bold text, not with the word Overall. *)
Lemma first_reason_starts_with_markup :
  calculate_overall_score_and_reasons plain_mean (λ _, "") sample_snapshot
    = Ok (sample_report plain_mean)
  ∧ (String.prefix "Overall" <$>
       head (reasons_of (calculate_overall_score_and_reasons plain_mean (λ _, "")
                           sample_snapshot))) = Some false
  ∧ (String.prefix "**Overall" <$>
       head (reasons_of (calculate_overall_score_and_reasons plain_mean (λ _, "")
                           sample_snapshot))) = Some true.
Proof.
  split; [apply sample_report_returned|]. split; vm_compute; reflexivity.
Qed.

Lemma overall_sentence_prefix overall :
  String.prefix "**Overall Recommendation: " (overall_recommendation overall).2 = true.
Proof. unfold overall_recommendation. repeat case_match; reflexivity. Qed.

(** C7, amended: the reasons of a report are exactly five, in this order:
    the overall recommendation, which starts with "**Overall
    Recommendation: ", then the lines of the analyst rating, the analyst
    upside, the financial analysis and the technical analysis, each starting
    with its name. *)
Theorem reasons_layout kernel str_of_other stock_data stock_data' :
  calculate_overall_score_and_reasons kernel str_of_other stock_data = Ok stock_data' →
  ∃ overall rating upside financial technical,
    stock_data' !! "reasons" = Some (PyStrs [overall; rating; upside; financial; technical])
    ∧ (5 ≤ length [overall; rating; upside; financial; technical])%nat
    ∧ String.prefix "**Overall Recommendation: " overall = true
    ∧ String.prefix "Analyst Rating: " rating = true
    ∧ String.prefix "Analyst Upside: " upside = true
    ∧ String.prefix "Financial Analysis: " financial = true
    ∧ String.prefix "Technical Analysis: " technical = true.
Proof.
  intros H.
  apply aggregator_returns in H
    as (rating & reason_ar & upside & reason_au & pct & financial & reason_fa
        & technical & reason_ta & overall & _ & _ & _ & _ & _ & _ & ->).
  eexists _, _, _, _, _. split; [apply lookup_insert_eq|].
  split; [simpl; lia|].
  split; [apply overall_sentence_prefix|].
  split_and!; apply prefix_append.
Qed.

Lemma reasons_layout_witness :
  calculate_overall_score_and_reasons plain_mean (λ _, "") sample_snapshot
    = Ok (sample_report plain_mean)
  ∧ ∃ overall rating upside financial technical,
      sample_report plain_mean !! "reasons"
        = Some (PyStrs [overall; rating; upside; financial; technical])
      ∧ (5 ≤ length [overall; rating; upside; financial; technical])%nat
      ∧ String.prefix "**Overall Recommendation: " overall = true
      ∧ String.prefix "Analyst Rating: " rating = true
      ∧ String.prefix "Analyst Upside: " upside = true
      ∧ String.prefix "Financial Analysis: " financial = true
      ∧ String.prefix "Technical Analysis: " technical = true.
Proof.
  split; [apply sample_report_returned|].
  destruct (reasons_layout plain_mean (λ _, "") _ _ sample_report_returned)
    as (overall & rating & upside & financial & technical & H).
  by exists overall, rating, upside, financial, technical.
Defined.

(** C8 as stated fails: the aggregator assigns into the snapshot it is
    given; the sample snapshot has no overall score before the call and has
    one after it. *)
Lemma aggregator_writes_into_snapshot :
  calculate_overall_score_and_reasons plain_mean (λ _, "") sample_snapshot
    = Ok (sample_report plain_mean)
  ∧ sample_snapshot !! "overallScore" = None
  ∧ sample_report plain_mean !! "overallScore" = Some (PyInt 78)
  ∧ sample_report plain_mean ≠ sample_snapshot.
Proof.
  assert (sample_snapshot !! "overallScore" = None) as Hbefore by (vm_compute; reflexivity).
  assert (sample_report plain_mean !! "overallScore" = Some (PyInt 78)) as Hafter
    by (vm_compute; reflexivity).
  split; [apply sample_report_returned|]. split; [exact Hbefore|]. split; [exact Hafter|].
  intros Heq.
  apply (f_equal (λ m : gmap string pyval, m !! "overallScore")) in Heq.
  cbv beta in Heq. congruence.
Qed.

(** C8, amended: the four scorers are functions of their arguments and
    write nothing; the aggregator assigns the four keys overallScore,
    scoreBreakdown, suggestion and reasons in the snapshot it was given and
    returns that snapshot; every other key keeps its value. *)
Theorem aggregator_frame kernel str_of_other stock_data stock_data' :
  calculate_overall_score_and_reasons kernel str_of_other stock_data = Ok stock_data' →
  (∀ key, key ∉ report_keys → stock_data' !! key = stock_data !! key)
  ∧ (∀ key, key ∈ report_keys → is_Some (stock_data' !! key))
  ∧ ∃ overall breakdown suggestion reasons,
      stock_data' =
        <["reasons" := PyStrs reasons]> (<["suggestion" := PyStr suggestion]>
        (<["scoreBreakdown" := PyScores breakdown]>
        (<["overallScore" := PyInt overall]> stock_data))).
Proof.
  intros H.
  apply aggregator_returns in H
    as (rating & reason_ar & upside & reason_au & pct & financial & reason_fa
        & technical & reason_ta & overall & _ & _ & _ & _ & _ & _ & ->).
  split_and!.
  - intros key Hkey. unfold report_keys in Hkey.
    rewrite !not_elem_of_cons in Hkey. destruct Hkey as (? & ? & ? & ? & _).
    by rewrite !lookup_insert_ne.
  - intros key Hkey. unfold report_keys in Hkey.
    rewrite !elem_of_cons, elem_of_nil in Hkey.
    destruct Hkey as [-> | [-> | [-> | [-> | []]]]];
      rewrite ?lookup_insert_eq, ?lookup_insert_ne by done; try done;
      rewrite ?lookup_insert_eq, ?lookup_insert_ne by done; try done;
      rewrite ?lookup_insert_eq, ?lookup_insert_ne by done; try done;
      rewrite ?lookup_insert_eq; done.
  - by eexists _, _, _, _.
Qed.

Lemma aggregator_frame_witness :
  calculate_overall_score_and_reasons plain_mean (λ _, "") sample_snapshot
    = Ok (sample_report plain_mean)
  ∧ (∀ key, key ∉ report_keys → sample_report plain_mean !! key = sample_snapshot !! key)
  ∧ (∀ key, key ∈ report_keys → is_Some (sample_report plain_mean !! key)).
Proof.
  split; [apply sample_report_returned|].
  destruct (aggregator_frame plain_mean (λ _, "") _ _ sample_report_returned)
    as (Hframe & Hkeys & _).
  split; [exact Hframe | exact Hkeys].
Defined.

(** The aggregator returns a report on every snapshot of the data model
    whose upside is a number. *)
Theorem aggregator_returns_with_upside kernel str_of_other stock_data :
  data_model stock_data →
  is_Some (as_number (get stock_data "analystUpside")) →
  ∃ report, calculate_overall_score_and_reasons kernel str_of_other stock_data = Ok report.
Proof.
  intros (Hfit & Hhist & Hhigh & Hlow) [u Hu].
  unfold calculate_overall_score_and_reasons.
  pose proof (rating_in_range (get stock_data "analystRecommendation")) as Hr.
  destruct (calculate_analyst_rating_score _) as [rating reason_ar].
  destruct (upside_returns _ (Hfit "analystUpside")) as (upside & reason_au & Eu).
  rewrite Eu, bind_unit.
  assert (∃ pct, upside_field_percent (get stock_data "analystUpside") = Ok pct) as [pct ->].
  { unfold upside_field_percent. rewrite Hu. apply percent_2f_returns.
    specialize (Hfit "analystUpside"). unfold fitting in Hfit. by rewrite Hu in Hfit. }
  rewrite bind_unit.
  destruct (financial_returns stock_data Hfit) as (financial & reason_fa & Ef).
  rewrite Ef, bind_unit.
  destruct (technical_returns kernel _ _ _ _ Hhist (Hfit "currentPrice") Hhigh Hlow)
    as (technical & reason_ta & Et).
  rewrite Et, bind_unit.
  rewrite rounded_overall_mean, bind_unit.
  - destruct (overall_recommendation _). by eexists.
  - done.
  - by eapply upside_in_range.
  - by eapply financial_tally.
  - by eapply technical_in_range.
Qed.

Lemma fittingb_fitting v : fittingb v = true → fitting v.
Proof.
  unfold fittingb, fitting. destruct (as_number v) as [[z|f]|]; simpl; [|done..].
  intros H. by apply Z.ltb_lt.
Qed.

Lemma sample_snapshot_in_data_model : data_model sample_snapshot.
Proof.
  split_and!.
  - intros key. unfold get.
    destruct (sample_snapshot !! key) as [v|] eqn:E; [|exact I].
    apply fittingb_fitting.
    assert (forallb (λ kv : string * pyval, fittingb kv.2) (map_to_list sample_snapshot)
            = true) as H by (vm_compute; reflexivity).
    apply (proj1 (forallb_forall _ _) H (key, v)).
    apply (proj1 (list_elem_of_In _ _)), (proj2 (elem_of_map_to_list _ _ _)), E.
  - right. exists (rising 200). vm_compute. reflexivity.
  - right. exists (NFloat 299). split; [vm_compute; reflexivity | exact I].
  - right. exists (NFloat 100). split; [vm_compute; reflexivity | exact I].
Qed.

Lemma aggregator_returns_with_upside_witness :
  data_model sample_snapshot
  ∧ is_Some (as_number (get sample_snapshot "analystUpside"))
  ∧ ∃ report,
      calculate_overall_score_and_reasons plain_mean (λ _, "") sample_snapshot = Ok report.
Proof.
  assert (is_Some (as_number (get sample_snapshot "analystUpside"))) as Hu.
  { exists (NFloat 0.1). vm_compute. reflexivity. }
  split; [exact sample_snapshot_in_data_model|]. split; [exact Hu|].
  destruct (aggregator_returns_with_upside plain_mean (λ _, "") sample_snapshot
              sample_snapshot_in_data_model Hu) as [report H].
  by exists report.
Defined.

(** ** Further properties of the specification *)

(** The rating scorer is the lookup table of the five labels, and gives the
    neutral 50 to any other value. *)
Theorem rating_table :
  calculate_analyst_rating_score (PyStr "Strong Buy")
    = (100, "Analysts strongly recommend buying based on consensus ratings.")
  ∧ calculate_analyst_rating_score (PyStr "Buy")
    = (80, "Analysts generally recommend buying.")
  ∧ calculate_analyst_rating_score (PyStr "Hold")
    = (50, "Analysts suggest holding, expecting modest performance.")
  ∧ calculate_analyst_rating_score (PyStr "Sell")
    = (20, "Analysts recommend selling due to anticipated underperformance.")
  ∧ calculate_analyst_rating_score (PyStr "Strong Sell")
    = (0, "Analysts strongly recommend selling due to significant concerns.")
  ∧ ∀ recommendation,
      recommendation ∉ PyStr <$> ["Strong Buy"; "Buy"; "Hold"; "Sell"; "Strong Sell"] →
      calculate_analyst_rating_score recommendation
        = (50, "Analyst recommendation data unavailable or neutral.").
Proof.
  split_and!; try reflexivity.
  intros recommendation Hother. simpl in Hother.
  rewrite !not_elem_of_cons in Hother.
  destruct Hother as (H1 & H2 & H3 & H4 & H5 & _).
  unfold calculate_analyst_rating_score, eq_str.
  destruct recommendation as [| | | |s| | |]; try reflexivity.
  destruct (String.eqb_spec s "Strong Buy") as [->|_]; [congruence|].
  destruct (String.eqb_spec s "Buy") as [->|_]; [congruence|].
  destruct (String.eqb_spec s "Hold") as [->|_]; [congruence|].
  destruct (String.eqb_spec s "Sell") as [->|_]; [congruence|].
  destruct (String.eqb_spec s "Strong Sell") as [->|_]; [congruence|].
  reflexivity.
Qed.

(** The financial scorer reads five keys of its argument and nothing
    else. *)
(** Closes a goal [key ∉ report_keys] for a literal [key]. *)
Ltac not_report_key :=
  unfold report_keys;
  repeat (apply not_elem_of_cons; split; [discriminate|]);
  apply not_elem_of_nil.

Lemma financial_reads info info' :
  (∀ key, key ∉ report_keys → info' !! key = info !! key) →
  calculate_financial_analysis_score info' = calculate_financial_analysis_score info.
Proof.
  intros Hsame. unfold calculate_financial_analysis_score, get.
  by rewrite !Hsame by not_report_key.
Qed.

(** Analysing a snapshot that already holds its report, as happens when the
    cached dict is served again, writes the same report once more. *)
Theorem aggregator_idempotent kernel str_of_other stock_data report :
  calculate_overall_score_and_reasons kernel str_of_other stock_data = Ok report →
  calculate_overall_score_and_reasons kernel str_of_other report = Ok report.
Proof.
  intros H.
  assert (∀ key, key ∉ report_keys → report !! key = stock_data !! key) as Hsame.
  { apply aggregator_returns in H
      as (rating & reason_ar & upside & reason_au & pct & financial & reason_fa
          & technical & reason_ta & overall & _ & _ & _ & _ & _ & _ & ->).
    intros key Hkey. unfold report_keys in Hkey.
    rewrite !not_elem_of_cons in Hkey. destruct Hkey as (? & ? & ? & ? & _).
    by rewrite !lookup_insert_ne. }
  assert (∀ key, key ∉ report_keys → get report key = get stock_data key) as Hget.
  { intros key Hkey. unfold get. by rewrite Hsame. }
  assert (∀ key, key ∉ report_keys → ∀ dflt,
            get_or report key dflt = get_or stock_data key dflt) as Hget_or.
  { intros key Hkey dflt. unfold get_or. by rewrite Hsame. }
  pose proof (financial_reads stock_data report Hsame) as Hfin.
  pose proof H as H'.
  apply aggregator_returns in H'
    as (rating & reason_ar & upside & reason_au & pct & financial & reason_fa
        & technical & reason_ta & overall & Hr & Hu & Hp & Hf & Ht & Ho & Hreport).
  unfold calculate_overall_score_and_reasons.
  rewrite Hfin.
  rewrite !Hget, !Hget_or by not_report_key.
  rewrite Hr, Hu, bind_unit, Hp, bind_unit, Hf, bind_unit, Ht, bind_unit, Ho, bind_unit.
  destruct (overall_recommendation overall) as [suggestion sentence] eqn:Esugg.
  simpl in Hreport.
  assert (report !! "overallScore" = Some (PyInt overall)) as L1.
  { rewrite Hreport, !lookup_insert_ne by done. apply lookup_insert_eq. }
  rewrite (insert_id report "overallScore") by exact L1.
  rewrite (insert_id report "scoreBreakdown").
  2: { rewrite Hreport at 1. rewrite !lookup_insert_ne by done. apply lookup_insert_eq. }
  rewrite (insert_id report "suggestion").
  2: { rewrite Hreport at 1. rewrite !lookup_insert_ne by done. apply lookup_insert_eq. }
  rewrite (insert_id report "reasons"); [done|].
  rewrite Hreport at 1. apply lookup_insert_eq.
Qed.

Lemma aggregator_idempotent_witness :
  calculate_overall_score_and_reasons plain_mean (λ _, "") sample_snapshot
    = Ok (sample_report plain_mean)
  ∧ calculate_overall_score_and_reasons plain_mean (λ _, "") (sample_report plain_mean)
    = Ok (sample_report plain_mean).
Proof.
  split; [apply sample_report_returned|].
  apply (aggregator_idempotent plain_mean (λ _, "") sample_snapshot), sample_report_returned.
Defined.

(** On a rising history of 252 bars, with the price above both moving
    averages and at the 52-week high, the three sub-scores add up to
    40 + 30 + 30 and the technical score is 100. *)
Theorem rising_history_scores_100 :
  calculate_technical_analysis_score plain_mean (PyRows (rising 252))
    (PyFloat 351) (PyFloat 351) (PyFloat 100)
  = Ok (100,
        ["Price (351.00) is above 50-day (326.50) and 200-day (251.50) moving averages (Bullish trend).";
         "Price is near 52-week high (351.00), showing strong upward momentum.";
         "Strong recent performance: Price up 5.72% over the last month."]).
Proof. vm_compute. reflexivity. Qed.

(** ** The watchlist routes *)

Lemma remove_first_split ticker watchlist :
  ticker ∈ watchlist →
  ∃ before after,
    watchlist = before ++ ticker :: after
    ∧ (ticker ∉ before)
    ∧ remove_first ticker watchlist = before ++ after.
Proof.
  induction watchlist as [|item rest IH]; intros Hin.
  - by apply elem_of_nil in Hin.
  - simpl. case_bool_decide as Heq.
    + subst item. exists [], rest. split_and!; [done | apply not_elem_of_nil | done].
    + apply elem_of_cons in Hin as [->|Hin]; [done|].
      destruct (IH Hin) as (before & after & -> & Hnot & ->).
      exists (item :: before), after. split_and!; [done | | done].
      apply not_elem_of_cons. split; [congruence | done].
Qed.

Lemma remove_first_appended ticker watchlist :
  ticker ∉ watchlist → remove_first ticker (watchlist ++ [ticker]) = watchlist.
Proof.
  induction watchlist as [|item rest IH]; intros Hnot; simpl.
  - by rewrite bool_decide_true.
  - apply not_elem_of_cons in Hnot as [Hne Hnot].
    rewrite bool_decide_false by congruence. by rewrite IH.
Qed.

Lemma nonempty_truthy ticker : ticker ≠ "" → truthy (PyStr ticker) = true.
Proof. intros H. simpl. by destruct (String.eqb_spec ticker ""). Qed.

(** Adding a ticker answers 200 and appends its upper-case form to the
    list when that form is not in it, and answers 409 and leaves the file
    alone when it is; either way the upper-case ticker is in the watchlist
    afterwards. *)
Theorem add_to_watchlist_outcome upper ticker data watchlist_file :
  get data "ticker" = PyStr ticker → ticker ≠ "" →
  ∃ r watchlist_file',
    add_to_watchlist_api upper data watchlist_file = (Returns r, watchlist_file')
    ∧ upper ticker ∈ load_watchlist watchlist_file'
    ∧ (((upper ticker ∉ load_watchlist watchlist_file)
        ∧ status r = 200
        ∧ watchlist_file' = Holds (load_watchlist watchlist_file ++ [upper ticker]))
       ∨ ((upper ticker ∈ load_watchlist watchlist_file)
          ∧ status r = 409
          ∧ watchlist_file' = watchlist_file)).
Proof.
  intros Hget Hne. unfold add_to_watchlist_api.
  rewrite Hget, (nonempty_truthy _ Hne). simpl.
  case_bool_decide as Hin.
  - eexists _, _. split; [done|]. split.
    + simpl. apply elem_of_app. right. by apply list_elem_of_singleton.
    + left. by split_and!.
  - eexists _, _. split; [done|]. split; [done|]. right. by split_and!.
Qed.

(** The add route never introduces a duplicate: a watchlist without
    repeated tickers is still without after any request. *)
Theorem add_keeps_watchlist_duplicate_free upper data watchlist_file :
  NoDup (load_watchlist watchlist_file) →
  NoDup (load_watchlist (add_to_watchlist_api upper data watchlist_file).2).
Proof.
  intros Hnodup. unfold add_to_watchlist_api.
  destruct (truthy (get data "ticker")); simpl; [|done].
  destruct (get data "ticker"); simpl; try done.
  case_bool_decide as Hin; simpl; [|done].
  apply NoDup_app. split_and!; [done | | apply NoDup_singleton].
  intros x Hx Hx'. apply list_elem_of_singleton in Hx'. by subst x.
Qed.

(** Removing a ticker that is listed answers 200 and deletes its first
    occurrence only; removing one that is not listed answers 404 and
    leaves the file alone. *)
Theorem remove_from_watchlist_outcome upper ticker data watchlist_file :
  get data "ticker" = PyStr ticker → ticker ≠ "" →
  ∃ r watchlist_file',
    remove_from_watchlist_api upper data watchlist_file = (Returns r, watchlist_file')
    ∧ ((status r = 200
        ∧ ∃ before after,
            load_watchlist watchlist_file = before ++ upper ticker :: after
            ∧ (upper ticker ∉ before)
            ∧ watchlist_file' = Holds (before ++ after))
       ∨ (status r = 404
          ∧ (upper ticker ∉ load_watchlist watchlist_file)
          ∧ watchlist_file' = watchlist_file)).
Proof.
  intros Hget Hne. unfold remove_from_watchlist_api.
  rewrite Hget, (nonempty_truthy _ Hne). simpl.
  case_bool_decide as Hin.
  - destruct (remove_first_split _ _ Hin) as (before & after & Hl & Hnot & Hrem).
    eexists _, _. split; [done|]. left. split; [done|].
    exists before, after. unfold save_watchlist. by rewrite Hrem.
  - eexists _, _. split; [done|]. right. by split_and!.
Qed.

(** On a watchlist without repeated tickers, a removed ticker is gone. *)
Theorem removed_ticker_is_gone upper ticker data watchlist_file :
  get data "ticker" = PyStr ticker → ticker ≠ "" →
  NoDup (load_watchlist watchlist_file) →
  upper ticker ∉ load_watchlist (remove_from_watchlist_api upper data watchlist_file).2.
Proof.
  intros Hget Hne Hnodup. unfold remove_from_watchlist_api.
  rewrite Hget, (nonempty_truthy _ Hne). simpl.
  case_bool_decide as Hin; [|done].
  destruct (remove_first_split _ _ Hin) as (before & after & Hl & Hnot & Hrem).
  simpl. rewrite Hrem.
  rewrite Hl in Hnodup. apply NoDup_app in Hnodup as (_ & _ & Hafter).
  apply NoDup_cons in Hafter as [Hafter _].
  rewrite elem_of_app. tauto.
Qed.

(** Adding a ticker that is not listed and removing it again gives back
    the watchlist as it was, both requests answered 200. *)
Theorem add_then_remove_restores upper ticker data watchlist_file :
  get data "ticker" = PyStr ticker → ticker ≠ "" →
  upper ticker ∉ load_watchlist watchlist_file →
  ∃ added removed watchlist_file' watchlist_file'',
    add_to_watchlist_api upper data watchlist_file = (Returns added, watchlist_file')
    ∧ remove_from_watchlist_api upper data watchlist_file' = (Returns removed, watchlist_file'')
    ∧ status added = 200 ∧ status removed = 200
    ∧ load_watchlist watchlist_file'' = load_watchlist watchlist_file.
Proof.
  intros Hget Hne Hnot.
  assert (add_to_watchlist_api upper data watchlist_file
          = (Returns {| payload := Message (upper ticker +:+ " added to watchlist successfully.");
                        status := 200 |},
             Holds (load_watchlist watchlist_file ++ [upper ticker]))) as Eadd.
  { unfold add_to_watchlist_api. rewrite Hget, (nonempty_truthy _ Hne). simpl.
    by rewrite bool_decide_true by done. }
  assert (remove_from_watchlist_api upper data
            (Holds (load_watchlist watchlist_file ++ [upper ticker]))
          = (Returns {| payload := Message (upper ticker +:+ " removed from watchlist successfully.");
                        status := 200 |},
             Holds (load_watchlist watchlist_file))) as Eremove.
  { unfold remove_from_watchlist_api. rewrite Hget, (nonempty_truthy _ Hne). simpl.
    rewrite bool_decide_true.
    - unfold save_watchlist. by rewrite remove_first_appended.
    - apply elem_of_app. right. by apply list_elem_of_singleton. }
  eexists _, _, _, _. split; [exact Eadd|]. split; [exact Eremove|]. done.
Qed.

(** A second request to add the same ticker, in whatever letter case that
    has the same upper-case form, is answered 409 and changes nothing. *)
Theorem add_twice_conflicts upper ticker ticker' data data' watchlist_file :
  get data "ticker" = PyStr ticker → ticker ≠ "" →
  get data' "ticker" = PyStr ticker' → ticker' ≠ "" →
  upper ticker' = upper ticker →
  let watchlist_file' := (add_to_watchlist_api upper data watchlist_file).2 in
  add_to_watchlist_api upper data' watchlist_file'
    = (Returns {| payload := Error (upper ticker +:+ " is already in the watchlist.");
                  status := 409 |},
       watchlist_file').
Proof.
  intros Hget Hne Hget' Hne' Hupper f'.
  assert (upper ticker ∈ load_watchlist f') as Hin.
  { unfold f', add_to_watchlist_api. rewrite Hget, (nonempty_truthy _ Hne). simpl.
    case_bool_decide as Hin; simpl; [|done].
    apply elem_of_app. right. by apply list_elem_of_singleton. }
  unfold add_to_watchlist_api.
  rewrite Hget', (nonempty_truthy _ Hne'). simpl. rewrite Hupper.
  by rewrite bool_decide_false by (by intros ?).
Qed.

(** A ticker that is true as a condition but is no string (a number, true,
    a list) makes both routes raise [AttributeError] at [ticker.upper()];
    the file is not touched. *)
Theorem ticker_without_upper upper data watchlist_file :
  truthy (get data "ticker") = true →
  (∀ ticker, get data "ticker" ≠ PyStr ticker) →
  add_to_watchlist_api upper data watchlist_file = (Raises AttributeError, watchlist_file)
  ∧ remove_from_watchlist_api upper data watchlist_file
    = (Raises AttributeError, watchlist_file).
Proof.
  intros Htrue Hstr. unfold add_to_watchlist_api, remove_from_watchlist_api.
  rewrite Htrue. simpl.
  destruct (get data "ticker") as [| | | |ticker| | |]; try done.
  by destruct (Hstr ticker).
Qed.

(** Loading the default stocks a second time returns the same two lists
    and leaves the file as the first load left it; the file exists after
    the first load, and a file that was there is never rewritten. *)
Theorem load_default_stocks_settles stocks_file :
  let '(lists, stocks_file') := load_default_stocks stocks_file in
  load_default_stocks stocks_file' = (lists, stocks_file')
  ∧ stocks_file' ≠ Missing
  ∧ (stocks_file ≠ Missing → stocks_file' = stocks_file).
Proof. by destruct stocks_file. Qed.

(** ** The retry helper *)

Lemma retry_loop_reads more read read' k :
  (∀ j, (k ≤ j ≤ k + more)%nat → read j = read' j) →
  retry_loop more read k = retry_loop more read' k.
Proof.
  revert k. induction more as [|more IH]; intros k Hsame; simpl.
  - by rewrite (Hsame k) by lia.
  - rewrite (Hsame k) by lia.
    destruct (fetch_info_body (read' k)) as [info|e]; [done|].
    destruct (retry_if_exception_type e); [|done].
    apply IH. intros j Hj. apply Hsame. lia.
Qed.

Lemma retry_loop_info more read k info :
  retry_loop more read k = Info info ↔
  ∃ j, (j ≤ more)%nat
       ∧ fetch_info_body (read (k + j)%nat) = Returns info
       ∧ ∀ i, (i < j)%nat → retried_failure (read (k + i)%nat).
Proof.
  revert k. induction more as [|more IH]; intros k; simpl.
  - destruct (fetch_info_body (read k)) as [info'|e] eqn:E.
    + split.
      * intros [= ->]. exists 0%nat. rewrite Nat.add_0_r. split_and!; [lia | done | lia].
      * intros (j & Hj & Hinfo & _). assert (j = 0%nat) as -> by lia.
        rewrite Nat.add_0_r in Hinfo. congruence.
    + split.
      * by destruct (retry_if_exception_type e).
      * intros (j & Hj & Hinfo & _). assert (j = 0%nat) as -> by lia.
        rewrite Nat.add_0_r in Hinfo. congruence.
  - destruct (fetch_info_body (read k)) as [info'|e] eqn:E.
    + split.
      * intros [= ->]. exists 0%nat. rewrite Nat.add_0_r. split_and!; [lia | done | lia].
      * intros (j & Hj & Hinfo & Hbefore). destruct j as [|j].
        -- rewrite Nat.add_0_r in Hinfo. congruence.
        -- destruct (Hbefore 0%nat) as (e & He & _); [lia|].
           rewrite Nat.add_0_r in He. congruence.
    + destruct (retry_if_exception_type e) eqn:Er.
      * rewrite IH. split.
        -- intros (j & Hj & Hinfo & Hbefore). exists (S j).
           split_and!; [lia | by rewrite Nat.add_succ_r | ].
           intros [|i] Hi.
           ++ rewrite Nat.add_0_r. by exists e.
           ++ rewrite Nat.add_succ_r. apply Hbefore. lia.
        -- intros (j & Hj & Hinfo & Hbefore). destruct j as [|j].
           ++ rewrite Nat.add_0_r in Hinfo. congruence.
           ++ exists j. split_and!; [lia | by rewrite Nat.add_succ_r in Hinfo | ].
              intros i Hi. specialize (Hbefore (S i)).
              rewrite Nat.add_succ_r in Hbefore. apply Hbefore. lia.
      * split; [done|].
        intros (j & Hj & Hinfo & Hbefore). destruct j as [|j].
        -- rewrite Nat.add_0_r in Hinfo. congruence.
        -- destruct (Hbefore 0%nat) as (e' & He & Hr); [lia|].
           rewrite Nat.add_0_r in He. congruence.
Qed.

Lemma retry_loop_gives_up more read k e :
  retry_loop more read k = RetryError e ↔
  (∀ i, (i ≤ more)%nat → retried_failure (read (k + i)%nat))
  ∧ fetch_info_body (read (k + more)%nat) = Raises e.
Proof.
  revert k. induction more as [|more IH]; intros k; simpl.
  - rewrite Nat.add_0_r.
    destruct (fetch_info_body (read k)) as [info'|e'] eqn:E.
    + split; [done|]. by intros [_ ?].
    + destruct (retry_if_exception_type e') eqn:Er.
      * split.
        -- intros [= ->]. split; [|done]. intros i Hi. assert (i = 0%nat) as -> by lia.
           rewrite Nat.add_0_r. by exists e.
        -- intros [_ [= ->]]. done.
      * split; [done|]. intros [Hall [= ->]].
        destruct (Hall 0%nat) as (e' & He & Hr); [lia|].
        rewrite Nat.add_0_r in He. congruence.
  - destruct (fetch_info_body (read k)) as [info'|e'] eqn:E.
    + split; [done|]. intros [Hall _].
      destruct (Hall 0%nat) as (e' & He & Hr); [lia|].
      rewrite Nat.add_0_r in He. congruence.
    + destruct (retry_if_exception_type e') eqn:Er.
      * rewrite IH. rewrite Nat.add_succ_r. simpl. split.
        -- intros [Hall Hlast]. split; [|done]. intros [|i] Hi.
           ++ rewrite Nat.add_0_r. by exists e'.
           ++ rewrite Nat.add_succ_r. apply Hall. lia.
        -- intros [Hall Hlast]. split; [|done]. intros i Hi.
           specialize (Hall (S i)). rewrite Nat.add_succ_r in Hall. apply Hall. lia.
      * split; [done|]. intros [Hall _].
        destruct (Hall 0%nat) as (e'' & He & Hr); [lia|].
        rewrite Nat.add_0_r in He. congruence.
Qed.

(** The helper reads [.info] at most five times: what a sixth or later
    read would do has no bearing on how it ends. *)
Theorem info_read_at_most_five_times ticker_obj ticker_obj' :
  (∀ k, (k < 5)%nat → info_read ticker_obj k = info_read ticker_obj' k) →
  _fetch_yfinance_info_with_retry ticker_obj = _fetch_yfinance_info_with_retry ticker_obj'.
Proof.
  intros Hsame. unfold _fetch_yfinance_info_with_retry.
  apply retry_loop_reads. intros j Hj. apply Hsame. unfold stop_after_attempt in Hj. lia.
Qed.

(** The helper returns an info exactly when one of the first five reads
    gives a non-empty dict and every read before it failed in a retried
    way (an exception of a retried class, or an empty dict); the info is
    that of the first such read. *)
Theorem first_good_read_is_returned ticker_obj info :
  _fetch_yfinance_info_with_retry ticker_obj = Info info ↔
  ∃ k, (k < 5)%nat
       ∧ info_read ticker_obj k = Returns info ∧ empty_dict info = false
       ∧ ∀ j, (j < k)%nat → retried_failure (info_read ticker_obj j).
Proof.
  unfold _fetch_yfinance_info_with_retry. rewrite retry_loop_info. simpl.
  split.
  - intros (j & Hj & Hinfo & Hbefore). exists j.
    unfold fetch_info_body in Hinfo.
    destruct (info_read ticker_obj j) as [info'|e] eqn:E; [|done].
    simpl in Hinfo. destruct (empty_dict info') eqn:Ee; [done|].
    injection Hinfo as ->. by split_and!; [lia | | |].
  - intros (k & Hk & Hread & Hne & Hbefore). exists k.
    split_and!; [lia | | done].
    unfold fetch_info_body. rewrite Hread. simpl. by rewrite Hne.
Qed.

(** The helper ends in tenacity's [RetryError] exactly when all five reads
    failed in a retried way; the error carries the fifth failure. *)
Theorem five_retried_failures_give_up ticker_obj e :
  _fetch_yfinance_info_with_retry ticker_obj = RetryError e ↔
  (∀ k, (k < 5)%nat → retried_failure (info_read ticker_obj k))
  ∧ fetch_info_body (info_read ticker_obj 4) = Raises e.
Proof.
  unfold _fetch_yfinance_info_with_retry. rewrite retry_loop_gives_up. simpl.
  split; intros [Hall Hlast]; (split; [|done]); intros k Hk; apply Hall; lia.
Qed.

(** ** The fields the fetcher computes *)

Lemma get_insert_eq (d : gmap string pyval) k v : get (<[k := v]> d) k = v.
Proof. unfold get. by rewrite lookup_insert_eq. Qed.

Lemma get_insert_ne (d : gmap string pyval) k k' v :
  k ≠ k' → get (<[k := v]> d) k' = get d k'.
Proof. intros H. unfold get. by rewrite lookup_insert_ne. Qed.

(** Reads a literal key off a dict built by assignments. *)
Ltac get_insert :=
  repeat match goal with
    | |- context [get (<[?k := ?v]> ?d) ?k'] =>
        first [ rewrite (get_insert_eq d k v)
              | rewrite (get_insert_ne d k k' v) by done ]
    end.

Lemma lift_bind {A B} (a : A) (f : A → outcome B) : lift (Ok a) ≫= f = f a.
Proof. reflexivity. Qed.

Lemma outcome_bind_unit {A B} (a : A) (f : A → outcome B) : Returns a ≫= f = f a.
Proof. reflexivity. Qed.

Lemma outcome_bind_Returns {A B} (m : outcome A) (f : A → outcome B) (b : B) :
  m ≫= f = Returns b ↔ ∃ a, m = Returns a ∧ f a = Returns b.
Proof.
  destruct m as [a|e]; simpl; split.
  - intros H. exists a. done.
  - intros (a' & [= <-] & H). done.
  - discriminate.
  - intros (a' & [=] & _).
Qed.

Lemma lift_Returns {A} (m : exc A) (a : A) : lift m = Returns a ↔ m = Ok a.
Proof. destruct m; simpl; split; congruence. Qed.

(** The conversions to [float] raise [OverflowError] and nothing else. *)
Lemma to_float_raises x e : PyNum.to_float x = Raise e → e = OverflowError.
Proof.
  destruct x as [z|f]; simpl; [|done].
  unfold PyNum.float_of_int. case_match; congruence.
Qed.

Lemma sub_raises x y e : PyNum.sub x y = Raise e → e = OverflowError.
Proof.
  destruct x as [a|a], y as [b|b]; simpl; try done.
  - destruct (PyNum.float_of_int a) eqn:E; simpl; [done|].
    intros [= <-]. by apply (to_float_raises (NInt a)).
  - destruct (PyNum.float_of_int b) eqn:E; simpl; [done|].
    intros [= <-]. by apply (to_float_raises (NInt b)).
Qed.

Lemma mul_raises x y e : PyNum.mul x y = Raise e → e = OverflowError.
Proof.
  destruct x as [a|a], y as [b|b]; simpl; try done.
  - destruct (PyNum.float_of_int a) eqn:E; simpl; [done|].
    intros [= <-]. by apply (to_float_raises (NInt a)).
  - destruct (PyNum.float_of_int b) eqn:E; simpl; [done|].
    intros [= <-]. by apply (to_float_raises (NInt b)).
Qed.

(** A true division raises [ZeroDivisionError] only on a divisor equal to
    zero, and [OverflowError] otherwise. *)
Lemma truediv_raises x y e :
  PyNum.truediv x y = Raise e →
  (e = ZeroDivisionError ∧ PyNum.eq y (NInt 0) = true) ∨ e = OverflowError.
Proof.
  destruct x as [a|a], y as [b|b]; simpl.
  - destruct (Z.eqb_spec b 0) as [->|Hb]; [intros [= <-]; by left|].
    case_match; [|done]. intros [= <-]. by right.
  - destruct (PyNum.float_of_int a) eqn:E; simpl.
    + case_match; [|done]. intros [= <-]. by left.
    + intros [= <-]. right. by apply (to_float_raises (NInt a)).
  - destruct (PyNum.float_of_int b) eqn:E; simpl.
    + case_match eqn:Ez; [|done]. intros [= <-]. by left.
    + intros [= <-]. right. by apply (to_float_raises (NInt b)).
  - case_match; [|done]. intros [= <-]. by left.
Qed.

Lemma truediv_float x y q : PyNum.truediv x y = Ok q → ∃ f, q = NFloat f.
Proof.
  destruct x as [a|a], y as [b|b]; simpl.
  - repeat case_match; try done. intros [= <-]. eauto.
  - destruct (PyNum.float_of_int a); simpl; [|done].
    case_match; [done|]. intros [= <-]. eauto.
  - destruct (PyNum.float_of_int b); simpl; [|done].
    case_match; [done|]. intros [= <-]. eauto.
  - case_match; [done|]. intros [= <-]. eauto.
Qed.

Lemma operand_number v x : operand v = Ok x ↔ as_number v = Some x.
Proof. unfold operand. destruct (as_number v); split; congruence. Qed.

Lemma operand_raises v e : operand v = Raise e → e = TypeError ∧ as_number v = None.
Proof. unfold operand. destruct (as_number v); [done|]. by intros [= <-]. Qed.

(** On a number, [if v] and [v != 0] are the same test. *)
Lemma truthy_ne_zero v x : as_number v = Some x → truthy v = ne_zero v.
Proof.
  unfold ne_zero. intros H. rewrite H.
  destruct v as [|b| | | | | |]; simpl in H; try done; injection H as <-; [|done..].
  by destruct b.
Qed.

(** ** The snapshot the fetcher builds *)

Lemma Returns_pair_inj {A B} (a a' : A) (b b' : B) :
  Returns (a, b) = Returns (a', b') → a = a' ∧ b = b'.
Proof. by intros [= -> ->]. Qed.

Section BuilderFacts.

Variable title : string → string.
Variable utc_date : num → exc string.

(** What a build that returns has computed and assigned. *)
Lemma build_stock_data_returns ticker info history stock_data errors :
  build_stock_data title utc_date ticker info history = Returns (stock_data, errors) →
  ∃ change percent date ipo_date recommendation upside rows,
    price_change (get info "currentPrice") (get info "previousClose") = Ok (change, percent)
    ∧ ex_dividend_date utc_date (get info "exDividendDate") = Ok date
    ∧ ipo utc_date (get info "firstTradeDateEpochUtc") = Ok ipo_date
    ∧ analyst_recommendation title info = Returns recommendation
    ∧ analyst_upside (get info "targetMeanPrice") (get info "currentPrice") = Ok upside
    ∧ history = Returns rows
    ∧ errors = (if bool_decide (rows = []) then [no_history ticker] else [])
    ∧ stock_data
      = snapshot_of ticker info change percent date ipo_date recommendation upside rows.
Proof.
  unfold build_stock_data. cbv zeta. get_insert.
  destruct (price_change _ _) as [[change percent]|e] eqn:Epc; [|done].
  rewrite lift_bind. cbv beta iota. get_insert.
  destruct (ex_dividend_date _ _) as [date|e] eqn:Edate; [|done].
  rewrite lift_bind.
  destruct (ipo _ _) as [ipo_date|e] eqn:Eipo; [|done].
  rewrite lift_bind.
  destruct (analyst_recommendation _ _) as [recommendation|e] eqn:Erec; [|done].
  rewrite outcome_bind_unit. get_insert.
  destruct (analyst_upside _ _) as [upside|e] eqn:Eup; [|done].
  rewrite lift_bind.
  destruct history as [rows|e]; [|done].
  rewrite outcome_bind_unit.
  intros H. exists change, percent, date, ipo_date, recommendation, upside, rows.
  unfold snapshot_of, no_history.
  case_bool_decide as Hrows; unfold negb in H;
    apply Returns_pair_inj in H as [<- <-]; do 7 (split; [reflexivity|]).
  - subst rows. by rewrite insert_insert_eq.
  - by rewrite insert_insert_eq.
Qed.

End BuilderFacts.

(** The upside the fetcher stores is [None] exactly when the target price
    or the current price is missing, null or zero, and otherwise a
    [float], never an [int]. *)
Theorem fetched_upside_is_null_or_float target_price current_price upside :
  analyst_upside target_price current_price = Ok upside →
  (truthy target_price && truthy current_price = false ∧ upside = PyNone)
  ∨ (truthy target_price && truthy current_price = true ∧ ∃ f, upside = PyFloat f).
Proof.
  unfold analyst_upside.
  destruct (truthy target_price && truthy current_price) eqn:Eboth.
  - destruct (ne_zero current_price) eqn:Ene.
    + rewrite andb_true_l. intros H. right. split; [done|].
      apply bind_Ok in H as (target & _ & H).
      apply bind_Ok in H as (price & _ & H).
      apply bind_Ok in H as (above & _ & H).
      apply bind_Ok in H as (q & Hq & H).
      apply truediv_float in Hq as [f ->]. injection H as <-. by exists f.
    + apply andb_true_iff in Eboth as [_ Hprice].
      unfold ne_zero in Ene.
      destruct (as_number current_price) as [x|] eqn:Ex; [|done].
      rewrite (truthy_ne_zero _ _ Ex) in Hprice. unfold ne_zero in Hprice.
      rewrite Ex in Hprice. congruence.
  - rewrite andb_false_l. intros [= <-]. by left.
Qed.

(** Neither division of the fetcher can divide by zero: the price change
    and the upside raise only [TypeError] (a field that is no number) or
    [OverflowError] (an [int] beyond the floats). *)
Theorem fetched_divisions_are_guarded a b e :
  price_change a b = Raise e ∨ analyst_upside a b = Raise e →
  e = TypeError ∨ e = OverflowError.
Proof.
  intros [H|H].
  - unfold price_change in H.
    destruct (is_not_none a && is_not_none b); [|done].
    destruct (operand a) as [price|e1] eqn:Ea;
      [|apply operand_raises in Ea as [-> _]; injection H as <-; by left].
    destruct (operand b) as [close|e1] eqn:Eb;
      [|apply operand_raises in Eb as [-> _]; injection H as <-; by left].
    rewrite !bind_unit in H.
    destruct (PyNum.sub price close) as [change|e1] eqn:Es;
      [|apply sub_raises in Es as ->; injection H as <-; by right].
    rewrite bind_unit in H.
    apply operand_number in Eb. unfold ne_zero in H. rewrite Eb in H.
    destruct (PyNum.ne close (NInt 0)) eqn:Ene; [|done].
    destruct (PyNum.truediv change close) as [ratio|e1] eqn:Ed.
    + rewrite bind_unit in H.
      destruct (PyNum.mul ratio (NInt 100)) as [percent|e1] eqn:Em; [done|].
      apply mul_raises in Em as ->. injection H as <-. by right.
    + apply truediv_raises in Ed as [[-> Hz] | ->]; [|injection H as <-; by right].
      unfold PyNum.ne in Ene. by rewrite Hz in Ene.
  - unfold analyst_upside in H.
    destruct (truthy a && truthy b) eqn:Eboth; [|done].
    destruct (ne_zero b) eqn:Ene; [|done].
    rewrite andb_true_l in H.
    destruct (operand a) as [target|e1] eqn:Ea;
      [|apply operand_raises in Ea as [-> _]; injection H as <-; by left].
    destruct (operand b) as [price|e1] eqn:Eb;
      [|apply operand_raises in Eb as [-> _]; injection H as <-; by left].
    rewrite !bind_unit in H.
    destruct (PyNum.sub target price) as [above|e1] eqn:Es;
      [|apply sub_raises in Es as ->; injection H as <-; by right].
    rewrite bind_unit in H.
    apply operand_number in Eb. unfold ne_zero in Ene. rewrite Eb in Ene.
    destruct (PyNum.truediv above price) as [q|e1] eqn:Ed; [done|].
    apply truediv_raises in Ed as [[-> Hz] | ->]; [|injection H as <-; by right].
    unfold PyNum.ne in Ene. by rewrite Hz in Ene.
Qed.

(** With a previous close equal to zero the percent change is the [int] 0
    and no division takes place. *)
Theorem zero_previous_close_gives_zero_percent current_price previous_close change percent :
  equals_zero previous_close →
  current_price ≠ PyNone →
  price_change current_price previous_close = Ok (change, percent) →
  percent = PyInt 0.
Proof.
  intros (x & Hx & Hzero) Hprice. unfold price_change.
  assert (is_not_none current_price = true) as -> by (by destruct current_price).
  assert (is_not_none previous_close = true) as -> by (by destruct previous_close).
  rewrite andb_true_l. unfold ne_zero. rewrite Hx. unfold PyNum.ne. rewrite Hzero.
  intros H.
  apply bind_Ok in H as (price & _ & H).
  apply bind_Ok in H as (close & _ & H).
  apply bind_Ok in H as (d & _ & H).
  unfold negb in H. by injection H as _ <-.
Qed.

(** Without a trailing P/E the financial scorer opens with the reason
    for its absence and has at most 20 + 20 + 15 + 20 points to give. *)
Lemma financial_without_trailing_pe info score reasons :
  get info "trailingPE" = PyNone →
  calculate_financial_analysis_score info = Ok (score, reasons) →
  head reasons = Some trailing_pe_unavailable ∧ score ≤ 75.
Proof.
  intros Hpe. unfold calculate_financial_analysis_score. rewrite Hpe.
  change (score_trailing_pe PyNone (0, []))
    with (Ok (note trailing_pe_unavailable (0, [])) : exc tally).
  rewrite bind_unit. intros H.
  apply bind_Ok in H as (t2 & H2 & H). apply score_forward_pe_block in H2 as [? [r2 E2]].
  apply bind_Ok in H as (t3 & H3 & H). apply score_dividend_yield_block in H3 as [? [r3 E3]].
  apply bind_Ok in H as (t5 & H5 & H). apply score_beta_block in H5 as [? [r5 E5]].
  destruct (score_market_cap_block (get info "marketCap") t3) as [? [r4 E4]].
  injection H as <- <-. simpl in *.
  rewrite E5, E4, E3, E2. simpl. split; [done | lia].
Qed.

Lemma snapshot_of_trailing_pe ticker info change percent date ipo_date recommendation
    upside rows :
  snapshot_of ticker info change percent date ipo_date recommendation upside rows
    !! "trailingPE" = None.
Proof. unfold snapshot_of. rewrite !lookup_insert_ne by done. apply lookup_empty. Qed.

Lemma snapshot_of_upside ticker info change percent date ipo_date recommendation
    upside rows :
  get (snapshot_of ticker info change percent date ipo_date recommendation upside rows)
    "analystUpside" = upside.
Proof.
  unfold snapshot_of, get. rewrite lookup_insert_ne by done. by rewrite lookup_insert_eq.
Qed.

Lemma empty_dict_spec d : empty_dict d = true ↔ d = ∅.
Proof.
  unfold empty_dict. rewrite bool_decide_eq_true. apply map_size_empty_iff.
Qed.

Lemma insert_not_empty (d : gmap string pyval) k v : empty_dict (<[k := v]> d) = false.
Proof.
  destruct (empty_dict _) eqn:E; [|done].
  apply empty_dict_spec in E. by apply insert_non_empty in E.
Qed.

Lemma lookup_not_empty (d : gmap string pyval) k v : d !! k = Some v → empty_dict d = false.
Proof.
  intros H. destruct (empty_dict d) eqn:E; [|done].
  apply empty_dict_spec in E. subst d. by rewrite lookup_empty in H.
Qed.

Lemma snapshot_of_not_empty ticker info change percent date ipo_date recommendation
    upside rows :
  empty_dict
    (snapshot_of ticker info change percent date ipo_date recommendation upside rows)
  = false.
Proof. apply insert_not_empty. Qed.

(** The trailing P/E of a fetched snapshot is stored under [peRatio], a
    key the financial scorer does not read: in every report made of a
    snapshot the fetcher built, the trailing P/E block has scored nothing
    and the financial score is at most 75. *)
Theorem fetched_trailing_pe_is_never_scored
    kernel str_of_other title utc_date ticker info history stock_data errors report :
  build_stock_data title utc_date ticker info history = Returns (stock_data, errors) →
  calculate_overall_score_and_reasons kernel str_of_other stock_data = Ok report →
  stock_data !! "trailingPE" = None
  ∧ stock_data !! "peRatio" = Some (get info "trailingPE")
  ∧ ∃ financial, financial_score_of report = Some financial ∧ financial ≤ 75.
Proof.
  intros Hbuild Hreport.
  apply build_stock_data_returns in Hbuild
    as (change & percent & date & ipo_date & recommendation & upside & rows
        & _ & _ & _ & _ & _ & _ & _ & ->).
  pose proof (snapshot_of_trailing_pe ticker info change percent date ipo_date
                recommendation upside rows) as Hpe.
  split; [exact Hpe|]. split.
  { unfold snapshot_of. rewrite !lookup_insert_ne by done. apply lookup_insert_eq. }
  apply aggregator_returns in Hreport
    as (rating & reason_ar & up & reason_au & pct & financial & reason_fa
        & technical & reason_ta & overall & _ & _ & _ & Hf & _ & _ & ->).
  exists financial. split.
  - unfold financial_score_of.
    rewrite !lookup_insert_ne by done. rewrite lookup_insert_eq.
    rewrite lookup_insert_ne by done. apply lookup_insert_eq.
  - eapply financial_without_trailing_pe; [|exact Hf].
    unfold get. by rewrite Hpe.
Qed.

(** A [recommendationKey] that is present but is no string (a null, say)
    makes the build raise: none of the other fields survives. *)
Lemma non_string_recommendation_raises title utc_date ticker info history v :
  info !! "recommendationKey" = Some v → is_str v = false →
  ∃ e, build_stock_data title utc_date ticker info history = Raises e.
Proof.
  intros Hkey Hstr.
  unfold build_stock_data. cbv zeta. get_insert.
  destruct (price_change _ _) as [[change percent]|e] eqn:Epc; [|by eexists].
  rewrite lift_bind. cbv beta iota. get_insert.
  destruct (ex_dividend_date _ _) as [date|e] eqn:Edate; [|by eexists].
  rewrite lift_bind.
  destruct (ipo _ _) as [ipo_date|e] eqn:Eipo; [|by eexists].
  rewrite lift_bind.
  unfold analyst_recommendation, get_or. rewrite Hkey.
  destruct v; try discriminate Hstr; by eexists.
Qed.

(** ** The fetcher and its cache *)

Lemma first_read_good ticker_obj info :
  info_read ticker_obj 0 = Returns info → empty_dict info = false →
  _fetch_yfinance_info_with_retry ticker_obj = Info info.
Proof.
  intros Hread Hne. unfold _fetch_yfinance_info_with_retry. simpl.
  unfold fetch_info_body. rewrite Hread. simpl. by rewrite Hne.
Qed.

Lemma empty_dict_empty : empty_dict ∅ = true.
Proof. by apply empty_dict_spec. Qed.

Lemma head_is_general_failure ticker : head_is "C" (general_failure ticker) = true.
Proof. reflexivity. Qed.

Lemma head_differs (c : ascii) (s s' : string) :
  head_is c s = true → head_is c s' = false → s ≠ s'.
Proof. intros H H' ->. congruence. Qed.

Section FetchFacts.

Variable title : string → string.
Variable utc_date : num → exc string.
Variable exception_text : raised → string.

Lemma fetch_served ticker current_time yf s object :
  served_from_cache ticker current_time s = Some object →
  fetch_stock_data_from_yfinance title utc_date exception_text ticker current_time yf s
    = ((Some object, []), s).
Proof. intros H. unfold fetch_stock_data_from_yfinance. by rewrite H. Qed.

Lemma fetch_built ticker current_time yf s info stock_data errors :
  served_from_cache ticker current_time s = None →
  _fetch_yfinance_info_with_retry (yf ticker) = Info info →
  build_stock_data title utc_date ticker info (history_1y (yf ticker))
    = Returns (stock_data, errors) →
  fetch_stock_data_from_yfinance title utc_date exception_text ticker current_time yf s
    = ((Some (length (objects s)), errors),
       {| STOCK_DATA_CACHE :=
            <[ticker := {| data := length (objects s); timestamp := current_time |}]>
              (STOCK_DATA_CACHE s);
          objects := objects s ++ [stock_data] |}).
Proof.
  intros Hmiss Hinfo Hbuild.
  assert (empty_dict stock_data = false) as Hne.
  { apply build_stock_data_returns in Hbuild
      as (change & percent & date & ipo_date & recommendation & upside & rows
          & _ & _ & _ & _ & _ & _ & _ & ->).
    apply snapshot_of_not_empty. }
  unfold fetch_stock_data_from_yfinance. rewrite Hmiss. cbv zeta.
  rewrite Hinfo, Hbuild. cbv beta iota. rewrite Hne. reflexivity.
Qed.

Lemma fetch_build_raises ticker current_time yf s info e :
  served_from_cache ticker current_time s = None →
  _fetch_yfinance_info_with_retry (yf ticker) = Info info →
  build_stock_data title utc_date ticker info (history_1y (yf ticker)) = Raises e →
  fetch_stock_data_from_yfinance title utc_date exception_text ticker current_time yf s
    = ((None, ["yfinance data fetch error: " +:+ exception_text e]), s).
Proof.
  intros Hmiss Hinfo Hbuild.
  unfold fetch_stock_data_from_yfinance. rewrite Hmiss. cbv zeta.
  rewrite Hinfo, Hbuild. cbv beta iota. rewrite empty_dict_empty. reflexivity.
Qed.

Lemma fetch_retry_error ticker current_time yf s e :
  served_from_cache ticker current_time s = None →
  _fetch_yfinance_info_with_retry (yf ticker) = RetryError e →
  fetch_stock_data_from_yfinance title utc_date exception_text ticker current_time yf s
    = ((None, [retry_error_message exception_text ticker e]), s).
Proof.
  intros Hmiss Hinfo.
  unfold fetch_stock_data_from_yfinance. rewrite Hmiss. cbv zeta. by rewrite Hinfo.
Qed.

Lemma fetch_unretried ticker current_time yf s e :
  served_from_cache ticker current_time s = None →
  _fetch_yfinance_info_with_retry (yf ticker) = Unretried e →
  fetch_stock_data_from_yfinance title utc_date exception_text ticker current_time yf s
    = ((None, ["An unexpected error occurred while fetching info for " +:+ ticker
                 +:+ ": " +:+ exception_text e]), s).
Proof.
  intros Hmiss Hinfo.
  unfold fetch_stock_data_from_yfinance. rewrite Hmiss. cbv zeta. by rewrite Hinfo.
Qed.

Lemma head_is_retry_error ticker e :
  head_is "C" (retry_error_message exception_text ticker e) = false.
Proof.
  unfold retry_error_message. destruct e as [[]| |code| |]; try reflexivity.
  by destruct (code =? 429).
Qed.

(** The three ways a fetch goes: served from the cache; built, stored as
    a new object and cached; or failed with one error and no change. *)
Lemma fetch_cases ticker current_time yf s :
  (∃ object,
     served_from_cache ticker current_time s = Some object
     ∧ fetch_stock_data_from_yfinance title utc_date exception_text ticker current_time yf s
       = ((Some object, []), s))
  ∨ (served_from_cache ticker current_time s = None
     ∧ ∃ info stock_data errors,
         _fetch_yfinance_info_with_retry (yf ticker) = Info info
         ∧ build_stock_data title utc_date ticker info (history_1y (yf ticker))
           = Returns (stock_data, errors)
         ∧ (errors = [] ∨ errors = [no_history ticker])
         ∧ fetch_stock_data_from_yfinance title utc_date exception_text ticker current_time yf s
           = ((Some (length (objects s)), errors),
              {| STOCK_DATA_CACHE :=
                   <[ticker := {| data := length (objects s); timestamp := current_time |}]>
                     (STOCK_DATA_CACHE s);
                 objects := objects s ++ [stock_data] |}))
  ∨ (served_from_cache ticker current_time s = None
     ∧ ∃ message,
         head_is "C" message = false
         ∧ fetch_stock_data_from_yfinance title utc_date exception_text ticker current_time yf s
           = ((None, [message]), s)).
Proof.
  destruct (served_from_cache ticker current_time s) as [object|] eqn:Hserved.
  { left. exists object. split; [done|]. by apply fetch_served. }
  right.
  destruct (_fetch_yfinance_info_with_retry (yf ticker)) as [info|e|e] eqn:Hinfo.
  - destruct (build_stock_data title utc_date ticker info (history_1y (yf ticker)))
      as [[stock_data errors]|e] eqn:Hbuild.
    + left. split; [done|]. exists info, stock_data, errors.
      split_and!; [done | done | | by apply (fetch_built _ _ _ _ info)].
      apply build_stock_data_returns in Hbuild
        as (change & percent & date & ipo_date & recommendation & upside & rows
            & _ & _ & _ & _ & _ & _ & -> & _).
      case_bool_decide; auto.
    + right. split; [done|]. eexists.
      split; [|by apply (fetch_build_raises _ _ _ _ info e)]. reflexivity.
  - right. split; [done|]. eexists. split; [|by apply fetch_retry_error].
    apply head_is_retry_error.
  - right. split; [done|]. eexists. split; [|by apply fetch_unretried]. reflexivity.
Qed.

End FetchFacts.

(** A fetch that returns no snapshot has noted exactly one error and has
    left the cache and every dict object as they were. *)
Theorem failed_fetch_changes_nothing
    title utc_date exception_text ticker current_time yf s errors s' :
  fetch_stock_data_from_yfinance title utc_date exception_text ticker current_time yf s
    = ((None, errors), s') →
  s' = s ∧ length errors = 1%nat.
Proof.
  intros H.
  destruct (fetch_cases title utc_date exception_text ticker current_time yf s)
    as [(object & _ & E) | [(_ & info & sd & errs & _ & _ & _ & E) | (_ & message & _ & E)]];
    rewrite E in H; try discriminate H.
  by injection H as <- <-.
Qed.

(** The error of line 218 is dead code: no fetch ever reports it. *)
Theorem general_failure_is_never_reported
    title utc_date exception_text ticker current_time yf s :
  general_failure ticker
    ∉ (fetch_stock_data_from_yfinance title utc_date exception_text
         ticker current_time yf s).1.2.
Proof.
  destruct (fetch_cases title utc_date exception_text ticker current_time yf s)
    as [(object & _ & E) | [(_ & info & sd & errs & _ & _ & Herrs & E) | (_ & message & Hm & E)]];
    rewrite E; simpl.
  - apply not_elem_of_nil.
  - destruct Herrs as [-> | ->]; [apply not_elem_of_nil|].
    apply not_elem_of_cons. split; [|apply not_elem_of_nil].
    by apply (head_differs "C").
  - apply not_elem_of_cons. split; [|apply not_elem_of_nil].
    apply (head_differs "C"); [apply head_is_general_failure | exact Hm].
Qed.

(** Once a ticker has been fetched afresh, every fetch of it within the
    expiration time returns the very same dict object, reports no error
    and leaves the state alone, whatever the provider would answer. *)
Theorem fresh_fetch_is_served_again
    title utc_date exception_text ticker current_time later yf yf' s object errors s' :
  served_from_cache ticker current_time s = None →
  fetch_stock_data_from_yfinance title utc_date exception_text ticker current_time yf s
    = ((Some object, errors), s') →
  within_expiration later current_time = true →
  fetch_stock_data_from_yfinance title utc_date exception_text ticker later yf' s'
    = ((Some object, []), s').
Proof.
  intros Hmiss H Hlater.
  destruct (fetch_cases title utc_date exception_text ticker current_time yf s)
    as [(o & Hs & _) | [(_ & info & sd & errs & _ & _ & _ & E) | (_ & message & _ & E)]];
    [congruence | | rewrite E in H; discriminate H].
  rewrite E in H. injection H as <- <- <-.
  apply fetch_served. unfold served_from_cache.
  cbn [STOCK_DATA_CACHE]. rewrite lookup_insert_eq. cbn [timestamp data].
  by rewrite Hlater.
Qed.

(** A fetch changes nothing that is cached for another ticker and alters
    no dict object: it can only put a new object after those there are. *)
Theorem fetch_leaves_the_rest_alone
    title utc_date exception_text ticker current_time yf s :
  let s' := (fetch_stock_data_from_yfinance title utc_date exception_text
               ticker current_time yf s).2 in
  (∀ other, other ≠ ticker → STOCK_DATA_CACHE s' !! other = STOCK_DATA_CACHE s !! other)
  ∧ objects s `prefix_of` objects s'.
Proof.
  destruct (fetch_cases title utc_date exception_text ticker current_time yf s)
    as [(object & _ & E) | [(_ & info & sd & errs & _ & _ & _ & E) | (_ & message & _ & E)]];
    rewrite E; cbn [snd]; try done.
  cbn [STOCK_DATA_CACHE objects]. split.
  - intros other Hother. by rewrite lookup_insert_ne.
  - by apply prefix_app_r.
Qed.

(** When the provider answers 429 to all five reads of the info, the fetch
    returns no snapshot, reports the rate limit and changes nothing. *)
Theorem rate_limited_fetch title utc_date exception_text ticker current_time yf s :
  served_from_cache ticker current_time s = None →
  (∀ k, (k < 5)%nat → info_read (yf ticker) k = Raises (HTTPError 429)) →
  fetch_stock_data_from_yfinance title utc_date exception_text ticker current_time yf s
    = ((None,
        ["Rate limit hit for " +:+ ticker
           +:+ " (429 Too Many Requests) after multiple retries. Please try again later."]),
       s).
Proof.
  intros Hmiss Hreads.
  rewrite (fetch_retry_error title utc_date exception_text _ _ _ _ (HTTPError 429) Hmiss).
  - reflexivity.
  - unfold _fetch_yfinance_info_with_retry.
    apply (proj2 (retry_loop_gives_up _ _ _ _)). simpl. split.
    + intros i Hi. exists (HTTPError 429). rewrite Hreads by lia. done.
    + by rewrite Hreads by lia.
Qed.

(** One field is enough to lose a snapshot: when the info has a
    [recommendationKey] that is no string (null, for one), the fetch
    returns no snapshot at all, with one error, and caches nothing. *)
Theorem non_string_recommendation_loses_snapshot
    title utc_date exception_text ticker current_time yf s info v :
  served_from_cache ticker current_time s = None →
  info_read (yf ticker) 0 = Returns info →
  info !! "recommendationKey" = Some v → is_str v = false →
  ∃ e,
    fetch_stock_data_from_yfinance title utc_date exception_text ticker current_time yf s
      = ((None, ["yfinance data fetch error: " +:+ exception_text e]), s).
Proof.
  intros Hmiss Hread Hkey Hstr.
  destruct (non_string_recommendation_raises title utc_date ticker info
              (history_1y (yf ticker)) v Hkey Hstr) as [e He].
  exists e. eapply fetch_build_raises; [done | | exact He].
  apply first_read_good; [done|]. by eapply lookup_not_empty.
Qed.

(** ** The stock data route *)

Lemma report_not_empty kernel str_of_other stock_data report :
  calculate_overall_score_and_reasons kernel str_of_other stock_data = Ok report →
  empty_dict report = false.
Proof.
  intros H. apply aggregator_returns in H
    as (rating & reason_ar & upside & reason_au & pct & financial & reason_fa
        & technical & reason_ta & overall & _ & _ & _ & _ & _ & _ & ->).
  apply insert_not_empty.
Qed.

Lemma content_last cache (l : list (gmap string pyval)) d :
  content {| STOCK_DATA_CACHE := cache; objects := l ++ [d] |} (Some (length l)) = d.
Proof. unfold content. cbn [objects]. by rewrite list_lookup_middle. Qed.

Lemma content_object s object d :
  objects s !! object = Some d → content s (Some object) = d.
Proof. unfold content. by intros ->. Qed.

Lemma insert_last (l : list (gmap string pyval)) d d' :
  <[length l := d']> (l ++ [d]) = l ++ [d'].
Proof. rewrite insert_app_r_alt by lia. by rewrite Nat.sub_diag. Qed.

Lemma served_entry ticker current_time s object :
  served_from_cache ticker current_time s = Some object →
  ∃ entry, STOCK_DATA_CACHE s !! ticker = Some entry ∧ data entry = object.
Proof.
  unfold served_from_cache. destruct (STOCK_DATA_CACHE s !! ticker) as [entry|]; [|done].
  case_match; [|done]. intros [= <-]. by exists entry.
Qed.

Section RouteFacts.

Variable pd : pandas.
Variable str_of_other : pyval → string.
Variable title : string → string.
Variable utc_date : num → exc string.
Variable exception_text : raised → string.

Lemma route_without_ticker ticker_symbol current_time yf s :
  ticker_symbol = None ∨ ticker_symbol = Some "" →
  get_stock_data_api pd str_of_other title utc_date exception_text
    ticker_symbol current_time yf s = (Returns TickerRequired, s).
Proof. by intros [-> | ->]. Qed.

Lemma route_failed ticker current_time yf s errors s' :
  ticker ≠ "" →
  fetch_stock_data_from_yfinance title utc_date exception_text ticker current_time yf s
    = ((None, errors), s') →
  get_stock_data_api pd str_of_other title utc_date exception_text
    (Some ticker) current_time yf s
  = (Returns (not_retrieved ticker errors), s').
Proof.
  intros Hne H. unfold get_stock_data_api.
  destruct (String.eqb_spec ticker ""); [done|]. by rewrite H.
Qed.

Lemma route_analyses ticker current_time yf s errors s' object d :
  ticker ≠ "" →
  fetch_stock_data_from_yfinance title utc_date exception_text ticker current_time yf s
    = ((Some object, errors), s') →
  objects s' !! object = Some d → empty_dict d = false →
  get_stock_data_api pd str_of_other title utc_date exception_text
    (Some ticker) current_time yf s
  = match calculate_overall_score_and_reasons pd str_of_other d with
    | Ok analysed =>
        (Returns (Analysed analysed (if bool_decide (errors = []) then None else Some errors)),
         {| STOCK_DATA_CACHE := STOCK_DATA_CACHE s';
            objects := <[object := analysed]> (objects s') |})
    | Raise e => (Raises (Builtin e), s')
    end.
Proof.
  intros Hne H Hd Hfull. unfold get_stock_data_api.
  destruct (String.eqb_spec ticker ""); [done|]. rewrite H. cbv beta iota.
  rewrite (content_object _ _ _ Hd), Hfull. cbn [negb].
  unfold analyse_in_place. rewrite (content_object _ _ _ Hd).
  by destruct (calculate_overall_score_and_reasons _ _ d).
Qed.

End RouteFacts.

(** A report is a fixed point of the aggregator. *)
Lemma report_is_fixed kernel str_of_other stock_data report :
  calculate_overall_score_and_reasons kernel str_of_other stock_data = Ok report →
  calculate_overall_score_and_reasons kernel str_of_other report = Ok report.
Proof.
  intros H.
  assert (∀ key, key ∉ report_keys → report !! key = stock_data !! key) as Hsame.
  { apply aggregator_returns in H
      as (rating & reason_ar & upside & reason_au & pct & financial & reason_fa
          & technical & reason_ta & overall & _ & _ & _ & _ & _ & _ & ->).
    intros key Hkey. unfold report_keys in Hkey.
    rewrite !not_elem_of_cons in Hkey. destruct Hkey as (? & ? & ? & ? & _).
    by rewrite !lookup_insert_ne. }
  assert (∀ key, key ∉ report_keys → get report key = get stock_data key) as Hget.
  { intros key Hkey. unfold get. by rewrite Hsame. }
  assert (∀ key, key ∉ report_keys → ∀ dflt,
            get_or report key dflt = get_or stock_data key dflt) as Hget_or.
  { intros key Hkey dflt. unfold get_or. by rewrite Hsame. }
  pose proof (financial_reads stock_data report Hsame) as Hfin.
  pose proof H as H'.
  apply aggregator_returns in H'
    as (rating & reason_ar & upside & reason_au & pct & financial & reason_fa
        & technical & reason_ta & overall & Hr & Hu & Hp & Hf & Ht & Ho & Hreport).
  unfold calculate_overall_score_and_reasons.
  rewrite Hfin.
  rewrite !Hget, !Hget_or by not_report_key.
  rewrite Hr, Hu, bind_unit, Hp, bind_unit, Hf, bind_unit, Ht, bind_unit, Ho, bind_unit.
  destruct (overall_recommendation overall) as [suggestion sentence] eqn:Esugg.
  simpl in Hreport.
  assert (report !! "overallScore" = Some (PyInt overall)) as L1.
  { rewrite Hreport, !lookup_insert_ne by done. apply lookup_insert_eq. }
  rewrite (insert_id report "overallScore") by exact L1.
  rewrite (insert_id report "scoreBreakdown").
  2: { rewrite Hreport at 1. rewrite !lookup_insert_ne by done. apply lookup_insert_eq. }
  rewrite (insert_id report "suggestion").
  2: { rewrite Hreport at 1. rewrite !lookup_insert_ne by done. apply lookup_insert_eq. }
  rewrite (insert_id report "reasons"); [done|].
  rewrite Hreport at 1. apply lookup_insert_eq.
Qed.

(** The stock data route cannot answer for a ticker without a target
    price.  When the provider's info has no [targetMeanPrice] (or a null
    or zero one), the snapshot is built and cached with a [None] upside,
    the analysis raises [TypeError] instead of a response, and every
    request for that ticker within the expiration time raises again from
    the cached snapshot, whatever the provider would answer by then. *)
Theorem missing_target_price_breaks_route
    kernel str_of_other title utc_date exception_text
    ticker current_time yf s info stock_data errors :
  ticker ≠ "" →
  served_from_cache ticker current_time s = None →
  _fetch_yfinance_info_with_retry (yf ticker) = Info info →
  build_stock_data title utc_date ticker info (history_1y (yf ticker))
    = Returns (stock_data, errors) →
  truthy (get info "targetMeanPrice") = false →
  ∃ s',
    get_stock_data_api kernel str_of_other title utc_date exception_text
      (Some ticker) current_time yf s = (Raises (Builtin TypeError), s')
    ∧ ∀ later yf',
        within_expiration later current_time = true →
        get_stock_data_api kernel str_of_other title utc_date exception_text
          (Some ticker) later yf' s' = (Raises (Builtin TypeError), s').
Proof.
  intros Hne Hmiss Hinfo Hbuild Htarget.
  pose proof (fetch_built title utc_date exception_text _ _ _ _ _ _ _ Hmiss Hinfo Hbuild)
    as Hfetch.
  assert (empty_dict stock_data = false ∧ get stock_data "analystUpside" = PyNone)
    as [Hfull Hup].
  { apply build_stock_data_returns in Hbuild
      as (change & percent & date & ipo_date & recommendation & upside & rows
          & _ & _ & _ & _ & Hupside & _ & _ & ->).
    split; [apply snapshot_of_not_empty|].
    rewrite snapshot_of_upside.
    unfold analyst_upside in Hupside. rewrite Htarget in Hupside.
    by injection Hupside as <-. }
  pose proof (missing_upside_raises kernel str_of_other stock_data Hup) as Hraise.
  set (s' := {| STOCK_DATA_CACHE :=
                  <[ticker := {| data := length (objects s); timestamp := current_time |}]>
                    (STOCK_DATA_CACHE s);
                objects := objects s ++ [stock_data] |}) in *.
  assert (objects s' !! length (objects s) = Some stock_data) as Hobject.
  { unfold s'. cbn [objects]. by rewrite list_lookup_middle. }
  exists s'. split.
  - rewrite (route_analyses kernel str_of_other title utc_date exception_text
               _ _ _ _ _ _ _ _ Hne Hfetch Hobject Hfull).
    by rewrite Hraise.
  - intros later yf' Hlater.
    assert (served_from_cache ticker later s' = Some (length (objects s))) as Hserved.
    { unfold served_from_cache, s'. cbn [STOCK_DATA_CACHE].
      rewrite lookup_insert_eq. cbn [timestamp data]. by rewrite Hlater. }
    rewrite (route_analyses kernel str_of_other title utc_date exception_text
               _ _ _ _ _ _ _ _ Hne
               (fetch_served title utc_date exception_text _ _ yf' _ _ Hserved)
               Hobject Hfull).
    by rewrite Hraise.
Qed.

(** A request that follows an analysed fresh fetch within the expiration
    time gets the same analysis, with no errors listed, and changes
    nothing: the cached dict already holds its report, and analysing it
    again writes the same report. *)
Theorem second_request_repeats_the_analysis
    kernel str_of_other title utc_date exception_text
    ticker current_time later yf yf' s s' analysis errors :
  served_from_cache ticker current_time s = None →
  get_stock_data_api kernel str_of_other title utc_date exception_text
    (Some ticker) current_time yf s = (Returns (Analysed analysis errors), s') →
  within_expiration later current_time = true →
  get_stock_data_api kernel str_of_other title utc_date exception_text
    (Some ticker) later yf' s' = (Returns (Analysed analysis None), s').
Proof.
  intros Hmiss Hfirst Hlater.
  destruct (String.eqb_spec ticker "") as [->|Hne]; [discriminate Hfirst|].
  destruct (fetch_cases title utc_date exception_text ticker current_time yf s)
    as [(o & Hs & _) | [(_ & info & sd & errs & Hinfo & Hbuild & _ & E) | (_ & message & _ & E)]];
    [congruence | | ].
  2: { rewrite (route_failed kernel str_of_other title utc_date exception_text
                  _ _ _ _ _ _ Hne E) in Hfirst. discriminate Hfirst. }
  assert (empty_dict sd = false) as Hfull.
  { apply build_stock_data_returns in Hbuild
      as (change & percent & date & ipo_date & recommendation & upside & rows
          & _ & _ & _ & _ & _ & _ & _ & ->).
    apply snapshot_of_not_empty. }
  rewrite (route_analyses kernel str_of_other title utc_date exception_text
             _ _ _ _ _ _ _ sd Hne E) in Hfirst;
    [| cbn [objects]; by rewrite list_lookup_middle | exact Hfull].
  destruct (calculate_overall_score_and_reasons kernel str_of_other sd)
    as [analysed|e] eqn:Ereport; [|discriminate Hfirst].
  cbn [objects STOCK_DATA_CACHE] in Hfirst. rewrite insert_last in Hfirst.
  injection Hfirst as <- _ <-.
  set (s' := {| STOCK_DATA_CACHE :=
                  <[ticker := {| data := length (objects s); timestamp := current_time |}]>
                    (STOCK_DATA_CACHE s);
                objects := objects s ++ [analysed] |}).
  assert (served_from_cache ticker later s' = Some (length (objects s))) as Hserved.
  { unfold served_from_cache, s'. cbn [STOCK_DATA_CACHE].
    rewrite lookup_insert_eq. cbn [timestamp data]. by rewrite Hlater. }
  rewrite (route_analyses kernel str_of_other title utc_date exception_text
             _ _ _ _ _ _ _ analysed Hne
             (fetch_served title utc_date exception_text _ _ yf' _ _ Hserved)).
  - rewrite (report_is_fixed _ _ _ _ Ereport).
    rewrite bool_decide_true by done.
    unfold s'. cbn [objects STOCK_DATA_CACHE]. by rewrite insert_last.
  - unfold s'. cbn [objects]. by rewrite list_lookup_middle.
  - by eapply report_not_empty.
Qed.

(** The route keeps the cache sound: after any request every cache entry
    still refers to a dict object that is there and is not empty, and no
    object has gone. *)
Theorem route_keeps_cache_sound
    kernel str_of_other title utc_date exception_text ticker_symbol current_time yf s :
  cache_sound s →
  let s' := (get_stock_data_api kernel str_of_other title utc_date exception_text
               ticker_symbol current_time yf s).2 in
  cache_sound s' ∧ (length (objects s) ≤ length (objects s'))%nat.
Proof.
  intros Hsound.
  destruct ticker_symbol as [ticker|]; [|by rewrite route_without_ticker by auto].
  destruct (String.eqb_spec ticker "") as [->|Hne];
    [by rewrite route_without_ticker by auto|].
  destruct (fetch_cases title utc_date exception_text ticker current_time yf s)
    as [(o & Hs & E) | [(_ & info & sd & errs & Hinfo & Hbuild & _ & E) | (_ & message & _ & E)]].
  - destruct (served_entry _ _ _ _ Hs) as (entry & Hentry & <-).
    destruct (Hsound _ _ Hentry) as (d & Hd & Hfull).
    rewrite (route_analyses kernel str_of_other title utc_date exception_text
               _ _ _ _ _ _ _ d Hne E Hd Hfull).
    destruct (calculate_overall_score_and_reasons kernel str_of_other d)
      as [analysed|e] eqn:Ereport; cbn [snd]; [|by split].
    split; [|cbn [objects]; by rewrite length_insert].
    intros t e He. cbn [STOCK_DATA_CACHE] in He. cbn [objects].
    destruct (Hsound _ _ He) as (d' & Hd' & Hfull').
    destruct (decide (data e = data entry)) as [Heq|Hneq].
    + exists analysed. split; [|by eapply report_not_empty].
      rewrite Heq. apply list_lookup_insert_eq. by eapply lookup_lt_Some.
    + exists d'. split; [|done]. by rewrite list_lookup_insert_ne.
  - assert (empty_dict sd = false) as Hfull.
    { apply build_stock_data_returns in Hbuild
        as (change & percent & date & ipo_date & recommendation & upside & rows
            & _ & _ & _ & _ & _ & _ & _ & ->).
      apply snapshot_of_not_empty. }
    rewrite (route_analyses kernel str_of_other title utc_date exception_text
               _ _ _ _ _ _ _ sd Hne E);
      [| cbn [objects]; by rewrite list_lookup_middle | exact Hfull].
    assert (∀ x, empty_dict x = false →
              cache_sound
                {| STOCK_DATA_CACHE :=
                     <[ticker := {| data := length (objects s); timestamp := current_time |}]>
                       (STOCK_DATA_CACHE s);
                   objects := objects s ++ [x] |}) as Hnew.
    { intros x Hx t e He. cbn [STOCK_DATA_CACHE] in He. cbn [objects].
      destruct (decide (t = ticker)) as [->|Ht].
      - rewrite lookup_insert_eq in He. injection He as <-. cbn [data].
        exists x. split; [by rewrite list_lookup_middle | done].
      - rewrite lookup_insert_ne in He by done.
        destruct (Hsound _ _ He) as (d' & Hd' & Hfull').
        exists d'. split; [|done]. by apply lookup_app_l_Some. }
    destruct (calculate_overall_score_and_reasons kernel str_of_other sd)
      as [analysed|e] eqn:Ereport; cbn [snd objects STOCK_DATA_CACHE].
    + rewrite insert_last. split; [|rewrite length_app; lia].
      apply Hnew. by eapply report_not_empty.
    + split; [by apply Hnew | rewrite length_app; lia].
  - rewrite (route_failed kernel str_of_other title utc_date exception_text
               _ _ _ _ _ _ Hne E). by split.
Qed.

(** A ticker the provider knows nothing of is answered 404: when all
    five reads of the info give an empty dict, the route reports that no
    info data was found, as the one detailed error, and nothing is cached
    or changed. *)
Theorem empty_info_is_not_found
    kernel str_of_other title utc_date exception_text ticker current_time yf s :
  ticker ≠ "" →
  served_from_cache ticker current_time s = None →
  (∀ k, (k < 5)%nat → info_read (yf ticker) k = Returns ∅) →
  ∃ r,
    get_stock_data_api kernel str_of_other title utc_date exception_text
      (Some ticker) current_time yf s = (Returns r, s)
    ∧ status_code r = 404
    ∧ r = not_retrieved ticker
            ["No info data found for " +:+ ticker +:+ " after multiple retries. Error: "
               +:+ exception_text (Builtin ValueError)].
Proof.
  intros Hne Hmiss Hreads.
  assert (_fetch_yfinance_info_with_retry (yf ticker) = RetryError (Builtin ValueError))
    as Hinfo.
  { unfold _fetch_yfinance_info_with_retry.
    apply (proj2 (retry_loop_gives_up _ _ _ _)). simpl. split.
    - intros i Hi. exists (Builtin ValueError). rewrite Hreads by lia. done.
    - by rewrite Hreads by lia. }
  eexists. split; [|split; [|reflexivity]].
  - apply route_failed; [done|].
    by apply (fetch_retry_error title utc_date exception_text _ _ _ _ (Builtin ValueError)).
  - reflexivity.
Qed.

(** ** Where the route answers *)

Lemma truediv_nonzero_returns x y :
  magnitude_below PyNum.float_limit x → magnitude_below PyNum.float_limit y →
  PyNum.eq y (NInt 0) = false →
  ∃ q, PyNum.truediv x y = Ok (NFloat q).
Proof.
  intros Hx Hy Hne.
  destruct x as [a|a], y as [c|c]; simpl in *.
  - unfold PyNum.eq in Hne. simpl in Hne.
    destruct (Z.eqb_spec c 0) as [->|Hc]; [done|].
    destruct (Z.leb_spec (PyNum.float_limit * Z.abs c) (Z.abs a)); [nia | eauto].
  - destruct (float_of_int_returns a) as [h ->]; [lia|]. simpl.
    rewrite Hne. eauto.
  - destruct (float_of_int_returns c) as [h ->]; [lia|]. simpl.
    rewrite Hne. eauto.
  - rewrite Hne. eauto.
Qed.

Lemma number_or_null_fitting v : number_or_null v → fitting v.
Proof.
  intros [-> | (x & Hx & Hb)]; [exact I|]. unfold fitting. by rewrite Hx.
Qed.

Lemma price_change_returns current_price previous_close :
  number_or_null current_price → number_or_null previous_close →
  ∃ change percent, price_change current_price previous_close = Ok (change, percent).
Proof.
  intros [-> | (p & Hp & Hpb)]; [simpl; eauto|].
  intros [-> | (c & Hc & Hcb)].
  { unfold price_change. rewrite andb_false_r. eauto. }
  pose proof int_bound_limit as [? ?].
  unfold price_change.
  destruct (is_not_none current_price && is_not_none previous_close); [|eauto].
  unfold operand, ne_zero. rewrite Hp, Hc, !bind_unit.
  destruct (sub_returns int_bound p c) as (change & -> & Hchange); [lia|done..|].
  rewrite bind_unit.
  destruct (PyNum.ne c (NInt 0)) eqn:Ene; [|eauto].
  destruct (truediv_nonzero_returns change c) as (q & ->);
    [eapply magnitude_below_mono; [|done]; lia..| |].
  { unfold PyNum.ne in Ene. by destruct (PyNum.eq c (NInt 0)). }
  rewrite bind_unit.
  unfold PyNum.mul, PyNum.to_float.
  destruct (float_of_int_returns 100) as [h ->]; [lia|].
  rewrite !bind_unit. eauto.
Qed.

Lemma analyst_upside_returns target_price current_price :
  number_or_null target_price → number_or_null current_price →
  truthy target_price = true → truthy current_price = true →
  ∃ f, analyst_upside target_price current_price = Ok (PyFloat f).
Proof.
  intros Ht Hp Etarget Eprice.
  pose proof int_bound_limit as [? ?].
  destruct (operand_returns _ Ht Etarget) as (t & Hot & Htb).
  destruct (operand_returns _ Hp Eprice) as (p & Hop & Hpb).
  unfold analyst_upside. rewrite Etarget, Eprice.
  pose proof (proj1 (operand_number _ _) Hop) as Hnum.
  pose proof (truthy_ne_zero _ _ Hnum) as Hne. rewrite Eprice in Hne.
  rewrite <- Hne. cbn [andb]. rewrite Hot, Hop, !bind_unit.
  destruct (sub_returns int_bound t p) as (above & -> & Habove); [lia|done..|].
  rewrite bind_unit.
  destruct (truediv_nonzero_returns above p) as (q & ->);
    [eapply magnitude_below_mono; [|done]; lia..| |].
  { unfold ne_zero in Hne. rewrite Hnum in Hne. unfold PyNum.ne in Hne.
    by destruct (PyNum.eq p (NInt 0)). }
  rewrite bind_unit. by exists q.
Qed.

Lemma financial_returns_on info :
  fitting (get info "trailingPE") → fitting (get info "forwardPE") →
  fitting (get info "dividendYield") → fitting (get info "beta") →
  ∃ score reasons, calculate_financial_analysis_score info = Ok (score, reasons).
Proof.
  intros H1 H2 H3 H5. unfold calculate_financial_analysis_score.
  destruct (score_trailing_pe_returns _ (0, []) H1) as [t1 ->]. simpl.
  destruct (score_forward_pe_returns _ t1 H2) as [t2 ->]. simpl.
  destruct (score_dividend_yield_returns _ t2 H3) as [t3 ->]. simpl.
  destruct (score_beta_returns _ (score_market_cap (get info "marketCap") t3) H5)
    as [t5 ->]. simpl.
  unfold finish. eauto.
Qed.

(** The aggregator returns when the fields it reads are of the data
    model and the upside is a number. *)
Lemma aggregator_returns_on kernel str_of_other stock_data :
  is_Some (as_number (get stock_data "analystUpside")) →
  fitting (get stock_data "analystUpside") →
  fitting (get stock_data "trailingPE") → fitting (get stock_data "forwardPE") →
  fitting (get stock_data "dividendYield") → fitting (get stock_data "beta") →
  history_or_null (get_or stock_data "historicalData" (PyRows [])) →
  fitting (get stock_data "currentPrice") →
  number_or_null (get stock_data "52WeekHigh") →
  number_or_null (get stock_data "52WeekLow") →
  ∃ report, calculate_overall_score_and_reasons kernel str_of_other stock_data = Ok report.
Proof.
  intros [u Hu] Hup H1 H2 H3 H5 Hhist Hprice Hhigh Hlow.
  unfold calculate_overall_score_and_reasons.
  pose proof (rating_in_range (get stock_data "analystRecommendation")) as Hr.
  destruct (calculate_analyst_rating_score _) as [rating reason_ar].
  destruct (upside_returns _ Hup) as (upside & reason_au & Eu).
  rewrite Eu, bind_unit.
  assert (∃ pct, upside_field_percent (get stock_data "analystUpside") = Ok pct) as [pct ->].
  { unfold upside_field_percent. rewrite Hu. apply percent_2f_returns.
    unfold fitting in Hup. by rewrite Hu in Hup. }
  rewrite bind_unit.
  destruct (financial_returns_on stock_data H1 H2 H3 H5) as (financial & reason_fa & Ef).
  rewrite Ef, bind_unit.
  destruct (technical_returns kernel _ _ _ _ Hhist Hprice Hhigh Hlow)
    as (technical & reason_ta & Et).
  rewrite Et, bind_unit.
  rewrite rounded_overall_mean, bind_unit.
  - destruct (overall_recommendation _). by eexists.
  - done.
  - by eapply upside_in_range.
  - by eapply financial_tally.
  - by eapply technical_in_range.
Qed.

Lemma build_stock_data_built title utc_date ticker info history
    change percent date ipo_date recommendation upside rows :
  price_change (get info "currentPrice") (get info "previousClose") = Ok (change, percent) →
  ex_dividend_date utc_date (get info "exDividendDate") = Ok date →
  ipo utc_date (get info "firstTradeDateEpochUtc") = Ok ipo_date →
  analyst_recommendation title info = Returns recommendation →
  analyst_upside (get info "targetMeanPrice") (get info "currentPrice") = Ok upside →
  history = Returns rows →
  build_stock_data title utc_date ticker info history
    = Returns (snapshot_of ticker info change percent date ipo_date recommendation upside rows,
               if bool_decide (rows = []) then [no_history ticker] else []).
Proof.
  intros Epc Edate Eipo Erec Eup ->.
  unfold build_stock_data. cbv zeta. get_insert.
  rewrite Epc, lift_bind. cbv beta iota. get_insert.
  rewrite Edate, lift_bind, Eipo, lift_bind, Erec, outcome_bind_unit. get_insert.
  rewrite Eup, lift_bind, outcome_bind_unit.
  unfold snapshot_of, no_history.
  case_bool_decide as Hrows; unfold negb.
  - subst rows. by rewrite insert_insert_eq.
  - by rewrite insert_insert_eq.
Qed.

(** The route answers with an analysis whenever the provider's info is
    of the provider model, carries a target price and a current price
    that are not zero, and the history call returns: the fetch builds the
    snapshot, the analysis returns, and the only error that can be listed
    is the one of an empty history. *)
Theorem route_answers_with_target_price
    kernel str_of_other title utc_date exception_text
    ticker current_time yf s info rows :
  ticker ≠ "" →
  served_from_cache ticker current_time s = None →
  _fetch_yfinance_info_with_retry (yf ticker) = Info info →
  history_1y (yf ticker) = Returns rows →
  provider_model utc_date info →
  truthy (get info "targetMeanPrice") = true →
  truthy (get info "currentPrice") = true →
  ∃ analysis s',
    get_stock_data_api kernel str_of_other title utc_date exception_text
      (Some ticker) current_time yf s
    = (Returns (Analysed analysis
                  (if bool_decide (rows = []) then Some [no_history ticker] else None)),
       s').
Proof.
  intros Hne Hmiss Hinfo Hhistory
    (Hprice & Hclose & Htarget & Hhigh & Hlow & Hfpe & Hdy & Hcap & Hbeta & Hrec & Hdate & Hipo)
    Etarget Eprice.
  destruct (price_change_returns _ _ Hprice Hclose) as (change & percent & Epc).
  destruct (analyst_upside_returns _ _ Htarget Hprice Etarget Eprice) as (f & Eup).
  destruct (ex_dividend_date utc_date (get info "exDividendDate")) as [date|] eqn:Edate;
    [|discriminate Hdate].
  destruct (ipo utc_date (get info "firstTradeDateEpochUtc")) as [ipo_date|] eqn:Eipo;
    [|discriminate Hipo].
  assert (∃ recommendation, analyst_recommendation title info = Returns recommendation)
    as [recommendation Erec].
  { unfold analyst_recommendation.
    destruct (get_or info "recommendationKey" (PyStr "Data Unavailable"));
      try discriminate Hrec. eauto. }
  pose proof (build_stock_data_built title utc_date ticker info _ _ _ _ _ _ _ _
                Epc Edate Eipo Erec Eup Hhistory) as Hbuild.
  pose proof (fetch_built title utc_date exception_text _ _ _ _ _ _ _ Hmiss Hinfo Hbuild)
    as Hfetch.
  set (stock_data := snapshot_of ticker info change percent date ipo_date recommendation
                       (PyFloat f) rows) in *.
  assert (∃ report,
            calculate_overall_score_and_reasons kernel str_of_other stock_data = Ok report)
    as [report Hreport].
  { apply aggregator_returns_on; unfold stock_data, snapshot_of, get_or.
    - get_insert. by eexists.
    - get_insert. exact I.
    - unfold get. rewrite !lookup_insert_ne by done. by rewrite lookup_empty.
    - get_insert. exact Hfpe.
    - get_insert. exact Hdy.
    - get_insert. exact Hbeta.
    - rewrite lookup_insert_eq. right. by eexists.
    - get_insert. by apply number_or_null_fitting.
    - get_insert. exact Hhigh.
    - get_insert. exact Hlow. }
  eexists report, _.
  rewrite (route_analyses kernel str_of_other title utc_date exception_text
             _ _ _ _ _ _ _ stock_data Hne Hfetch).
  - rewrite Hreport. do 3 f_equal. by repeat case_bool_decide.
  - cbn [objects]. by rewrite list_lookup_middle.
  - apply snapshot_of_not_empty.
Qed.

(** ** The properties on sample requests *)

Lemma NoDup_sample : NoDup (load_watchlist sample_watchlist).
Proof.
  simpl. apply NoDup_cons. split.
  - apply not_elem_of_cons. split; [discriminate | apply not_elem_of_nil].
  - apply NoDup_singleton.
Qed.

Lemma add_to_watchlist_outcome_witness :
  get sample_request "ticker" = PyStr "aapl" ∧ "aapl" ≠ ""
  ∧ ∃ r watchlist_file',
      add_to_watchlist_api ascii_upper sample_request sample_watchlist
        = (Returns r, watchlist_file')
      ∧ ascii_upper "aapl" ∈ load_watchlist watchlist_file'.
Proof.
  split; [reflexivity|]. split; [discriminate|].
  destruct (add_to_watchlist_outcome ascii_upper "aapl" sample_request sample_watchlist)
    as (r & f' & E & Hin & _); [reflexivity | discriminate |].
  by exists r, f'.
Defined.

Lemma add_keeps_watchlist_duplicate_free_witness :
  NoDup (load_watchlist sample_watchlist)
  ∧ NoDup (load_watchlist
             (add_to_watchlist_api ascii_upper sample_request sample_watchlist).2).
Proof.
  split; [exact NoDup_sample|].
  exact (add_keeps_watchlist_duplicate_free ascii_upper sample_request sample_watchlist
           NoDup_sample).
Defined.

Lemma remove_from_watchlist_outcome_witness :
  get sample_request "ticker" = PyStr "aapl" ∧ "aapl" ≠ ""
  ∧ ∃ r watchlist_file',
      remove_from_watchlist_api ascii_upper sample_request (Holds ["AAPL"; "MSFT"; "AAPL"])
        = (Returns r, watchlist_file')
      ∧ (status r = 200 ∨ status r = 404).
Proof.
  split; [reflexivity|]. split; [discriminate|].
  destruct (remove_from_watchlist_outcome ascii_upper "aapl" sample_request
              (Holds ["AAPL"; "MSFT"; "AAPL"]))
    as (r & f' & E & [[Hs _] | [Hs _]]); [reflexivity | discriminate | |];
    exists r, f'; auto.
Defined.

Lemma NoDup_listed : NoDup (load_watchlist watchlist_with_aapl).
Proof.
  simpl. apply NoDup_cons. split.
  { rewrite !not_elem_of_cons. split_and!; [discriminate..|apply not_elem_of_nil]. }
  apply NoDup_cons. split.
  { apply not_elem_of_cons. split; [discriminate | apply not_elem_of_nil]. }
  apply NoDup_singleton.
Qed.

Lemma removed_ticker_is_gone_witness :
  get sample_request "ticker" = PyStr "aapl" ∧ "aapl" ≠ ""
  ∧ NoDup (load_watchlist watchlist_with_aapl)
  ∧ (ascii_upper "aapl" ∈ load_watchlist watchlist_with_aapl)
  ∧ (remove_from_watchlist_api ascii_upper sample_request watchlist_with_aapl).2
    = Holds ["MSFT"; "GOOGL"]
  ∧ ascii_upper "aapl"
      ∉ load_watchlist
          (remove_from_watchlist_api ascii_upper sample_request watchlist_with_aapl).2.
Proof.
  split; [reflexivity|]. split; [discriminate|]. split; [exact NoDup_listed|].
  split.
  { simpl. apply elem_of_cons. right. apply elem_of_cons. by left. }
  split; [reflexivity|].
  apply (removed_ticker_is_gone ascii_upper "aapl");
    [reflexivity | discriminate | exact NoDup_listed].
Defined.

Lemma aapl_not_listed : ascii_upper "aapl" ∉ load_watchlist sample_watchlist.
Proof.
  simpl. apply not_elem_of_cons. split; [discriminate|].
  apply not_elem_of_cons. split; [discriminate | apply not_elem_of_nil].
Qed.

Lemma add_then_remove_restores_witness :
  get sample_request "ticker" = PyStr "aapl" ∧ "aapl" ≠ ""
  ∧ (ascii_upper "aapl" ∉ load_watchlist sample_watchlist)
  ∧ ∃ added removed watchlist_file' watchlist_file'',
      add_to_watchlist_api ascii_upper sample_request sample_watchlist
        = (Returns added, watchlist_file')
      ∧ remove_from_watchlist_api ascii_upper sample_request watchlist_file'
        = (Returns removed, watchlist_file'')
      ∧ load_watchlist watchlist_file'' = load_watchlist sample_watchlist.
Proof.
  split; [reflexivity|]. split; [discriminate|]. split; [exact aapl_not_listed|].
  destruct (add_then_remove_restores ascii_upper "aapl" sample_request sample_watchlist)
    as (added & removed & f' & f'' & Ea & Er & _ & _ & Hl);
    [reflexivity | discriminate | exact aapl_not_listed |].
  by exists added, removed, f', f''.
Defined.

Lemma add_twice_conflicts_witness :
  get sample_request "ticker" = PyStr "aapl" ∧ "aapl" ≠ ""
  ∧ get (<["ticker" := PyStr "AaPl"]> ∅) "ticker" = PyStr "AaPl" ∧ "AaPl" ≠ ""
  ∧ ascii_upper "AaPl" = ascii_upper "aapl"
  ∧ add_to_watchlist_api ascii_upper (<["ticker" := PyStr "AaPl"]> ∅)
      (add_to_watchlist_api ascii_upper sample_request sample_watchlist).2
    = (Returns {| payload := Error (ascii_upper "aapl" +:+ " is already in the watchlist.");
                  status := 409 |},
       (add_to_watchlist_api ascii_upper sample_request sample_watchlist).2).
Proof.
  split; [reflexivity|]. split; [discriminate|]. split; [reflexivity|].
  split; [discriminate|]. split; [reflexivity|].
  apply (add_twice_conflicts ascii_upper "aapl" "AaPl");
    [reflexivity | discriminate | reflexivity | discriminate | reflexivity].
Defined.

Lemma ticker_without_upper_witness :
  truthy (get (<["ticker" := PyInt 5]> ∅) "ticker") = true
  ∧ (∀ ticker, get (<["ticker" := PyInt 5]> ∅) "ticker" ≠ PyStr ticker)
  ∧ add_to_watchlist_api ascii_upper (<["ticker" := PyInt 5]> ∅) sample_watchlist
    = (Raises AttributeError, sample_watchlist).
Proof.
  assert (∀ ticker, get (<["ticker" := PyInt 5]> ∅) "ticker" ≠ PyStr ticker) as Hno.
  { intros ticker. discriminate. }
  split; [reflexivity|]. split; [exact Hno|].
  destruct (ticker_without_upper ascii_upper (<["ticker" := PyInt 5]> ∅) sample_watchlist)
    as [Hadd _]; [reflexivity | exact Hno | exact Hadd].
Defined.

Lemma built_from_returned info :
  succeeds (build_stock_data ascii_title no_dates "ACME" info (Returns (rising 200))) = true →
  build_stock_data ascii_title no_dates "ACME" info (Returns (rising 200))
    = Returns ((built_from info).1, (built_from info).2).
Proof.
  intros H. unfold built_from.
  by destruct (build_stock_data ascii_title no_dates "ACME" info (Returns (rising 200)))
    as [[]|].
Qed.

Lemma report_from_returned info :
  returns (calculate_overall_score_and_reasons plain_mean (λ _, "") (built_from info).1)
    = true →
  calculate_overall_score_and_reasons plain_mean (λ _, "") (built_from info).1
    = Ok (report_from info).
Proof.
  intros H. unfold report_from.
  by destruct (calculate_overall_score_and_reasons plain_mean (λ _, "") (built_from info).1).
Qed.

Lemma sample_built :
  build_stock_data ascii_title no_dates "ACME" sample_info (Returns (rising 200))
    = Returns ((built_from sample_info).1, (built_from sample_info).2).
Proof. apply built_from_returned. vm_compute. reflexivity. Qed.

Lemma sample_built_without_target :
  build_stock_data ascii_title no_dates "ACME" info_without_target (Returns (rising 200))
    = Returns ((built_from info_without_target).1, (built_from info_without_target).2).
Proof. apply built_from_returned. vm_compute. reflexivity. Qed.

Lemma sample_analysed :
  calculate_overall_score_and_reasons plain_mean (λ _, "") (built_from sample_info).1
    = Ok (report_from sample_info).
Proof. apply report_from_returned. vm_compute. reflexivity. Qed.

Lemma sample_info_read info :
  empty_dict info = false →
  _fetch_yfinance_info_with_retry (provider_of info "ACME") = Info info.
Proof. intros H. by apply first_read_good. Qed.

Lemma sample_fetched info :
  empty_dict info = false →
  succeeds (build_stock_data ascii_title no_dates "ACME" info (Returns (rising 200))) = true →
  fetch_stock_data_from_yfinance ascii_title no_dates (λ _, "") "ACME" 0
    (provider_of info) at_start
  = ((Some 0%nat, (built_from info).2), fetched_state info).
Proof.
  intros Hinfo Hbuilt.
  apply (fetch_built ascii_title no_dates (λ _, "") "ACME" 0 (provider_of info) at_start info);
    [reflexivity | by apply sample_info_read | by apply built_from_returned].
Qed.

Lemma info_read_at_most_five_times_witness :
  (∀ k, (k < 5)%nat → info_read (rate_limiting "ACME") k = info_read (recovering_late "ACME") k)
  ∧ _fetch_yfinance_info_with_retry (rate_limiting "ACME")
    = _fetch_yfinance_info_with_retry (recovering_late "ACME").
Proof.
  assert (∀ k, (k < 5)%nat →
            info_read (rate_limiting "ACME") k = info_read (recovering_late "ACME") k) as H.
  { intros k Hk. simpl. destruct (Nat.ltb_spec k 5); [reflexivity | lia]. }
  split; [exact H|].
  exact (info_read_at_most_five_times (rate_limiting "ACME") (recovering_late "ACME") H).
Defined.

Lemma fetched_upside_is_null_or_float_witness :
  analyst_upside (PyInt 330) (PyInt 300) = Ok (PyFloat 0.1)
  ∧ ((truthy (PyInt 330) && truthy (PyInt 300) = false ∧ PyFloat 0.1 = PyNone)
     ∨ (truthy (PyInt 330) && truthy (PyInt 300) = true ∧ ∃ f, PyFloat 0.1 = PyFloat f)).
Proof.
  assert (analyst_upside (PyInt 330) (PyInt 300) = Ok (PyFloat 0.1)) as H
    by (vm_compute; reflexivity).
  split; [exact H|].
  exact (fetched_upside_is_null_or_float (PyInt 330) (PyInt 300) (PyFloat 0.1) H).
Defined.

Lemma fetched_divisions_are_guarded_witness :
  (price_change (PyStr "n/a") (PyInt 0) = Raise TypeError
   ∨ analyst_upside (PyStr "n/a") (PyInt 0) = Raise TypeError)
  ∧ (TypeError = TypeError ∨ TypeError = OverflowError).
Proof.
  assert (price_change (PyStr "n/a") (PyInt 0) = Raise TypeError
          ∨ analyst_upside (PyStr "n/a") (PyInt 0) = Raise TypeError) as H
    by (left; reflexivity).
  split; [exact H|].
  exact (fetched_divisions_are_guarded (PyStr "n/a") (PyInt 0) TypeError H).
Defined.

Lemma zero_previous_close_gives_zero_percent_witness :
  equals_zero (PyInt 0) ∧ PyInt 5 ≠ PyNone
  ∧ price_change (PyInt 5) (PyInt 0) = Ok (PyInt 5, PyInt 0)
  ∧ PyInt 0 = PyInt 0.
Proof.
  assert (equals_zero (PyInt 0)) as Hz by (exists (NInt 0); split; reflexivity).
  assert (PyInt 5 ≠ PyNone) as Hp by discriminate.
  assert (price_change (PyInt 5) (PyInt 0) = Ok (PyInt 5, PyInt 0)) as H by reflexivity.
  split; [exact Hz|]. split; [exact Hp|]. split; [exact H|].
  exact (zero_previous_close_gives_zero_percent (PyInt 5) (PyInt 0) (PyInt 5) (PyInt 0)
           Hz Hp H).
Defined.

Lemma fetched_trailing_pe_is_never_scored_witness :
  build_stock_data ascii_title no_dates "ACME" sample_info (Returns (rising 200))
    = Returns ((built_from sample_info).1, (built_from sample_info).2)
  ∧ calculate_overall_score_and_reasons plain_mean (λ _, "") (built_from sample_info).1
    = Ok (report_from sample_info)
  ∧ (built_from sample_info).1 !! "trailingPE" = None
  ∧ ∃ financial, financial_score_of (report_from sample_info) = Some financial
                 ∧ financial ≤ 75.
Proof.
  split; [exact sample_built|]. split; [exact sample_analysed|].
  destruct (fetched_trailing_pe_is_never_scored plain_mean (λ _, "") ascii_title no_dates
              "ACME" sample_info (Returns (rising 200)) _ _ _ sample_built sample_analysed)
    as (Hpe & _ & financial & Hf & Hle).
  split; [exact Hpe|]. exists financial. split; [exact Hf | exact Hle].
Defined.

Lemma rate_limited_gives_up :
  _fetch_yfinance_info_with_retry (rate_limiting "ACME") = RetryError (HTTPError 429).
Proof. reflexivity. Qed.

Lemma sample_rate_limited :
  fetch_stock_data_from_yfinance ascii_title no_dates (λ _, "") "ACME" 0
    rate_limiting at_start
  = ((None, [retry_error_message (λ _, "") "ACME" (HTTPError 429)]), at_start).
Proof.
  apply fetch_retry_error; [reflexivity | exact rate_limited_gives_up].
Qed.

Lemma failed_fetch_changes_nothing_witness :
  fetch_stock_data_from_yfinance ascii_title no_dates (λ _, "") "ACME" 0
    rate_limiting at_start
  = ((None, [retry_error_message (λ _, "") "ACME" (HTTPError 429)]), at_start)
  ∧ at_start = at_start
  ∧ length [retry_error_message (λ _, "") "ACME" (HTTPError 429)] = 1%nat.
Proof.
  split; [exact sample_rate_limited|].
  exact (failed_fetch_changes_nothing ascii_title no_dates (λ _, "") "ACME" 0
           rate_limiting at_start _ _ sample_rate_limited).
Defined.

Lemma sample_info_not_empty : empty_dict sample_info = false.
Proof. vm_compute. reflexivity. Qed.

Lemma info_without_target_not_empty : empty_dict info_without_target = false.
Proof. vm_compute. reflexivity. Qed.

Lemma sample_builds :
  succeeds (build_stock_data ascii_title no_dates "ACME" sample_info (Returns (rising 200)))
  = true.
Proof. vm_compute. reflexivity. Qed.

Lemma one_hour_within : within_expiration one_hour 0 = true.
Proof. vm_compute. reflexivity. Qed.

Lemma fresh_fetch_is_served_again_witness :
  served_from_cache "ACME" 0 at_start = None
  ∧ fetch_stock_data_from_yfinance ascii_title no_dates (λ _, "") "ACME" 0
      (provider_of sample_info) at_start
    = ((Some 0%nat, (built_from sample_info).2), fetched_state sample_info)
  ∧ within_expiration one_hour 0 = true
  ∧ fetch_stock_data_from_yfinance ascii_title no_dates (λ _, "") "ACME" one_hour
      rate_limiting (fetched_state sample_info)
    = ((Some 0%nat, []), fetched_state sample_info).
Proof.
  assert (served_from_cache "ACME" 0 at_start = None) as Hmiss by reflexivity.
  pose proof (sample_fetched sample_info sample_info_not_empty sample_builds) as Hfetch.
  split; [exact Hmiss|]. split; [exact Hfetch|]. split; [exact one_hour_within|].
  exact (fresh_fetch_is_served_again ascii_title no_dates (λ _, "") "ACME" 0 one_hour
           (provider_of sample_info) rate_limiting at_start _ _ _
           Hmiss Hfetch one_hour_within).
Defined.

Lemma rate_limited_fetch_witness :
  served_from_cache "ACME" 0 at_start = None
  ∧ (∀ k, (k < 5)%nat → info_read (rate_limiting "ACME") k = Raises (HTTPError 429))
  ∧ fetch_stock_data_from_yfinance ascii_title no_dates (λ _, "") "ACME" 0
      rate_limiting at_start
    = ((None,
        ["Rate limit hit for " +:+ "ACME"
           +:+ " (429 Too Many Requests) after multiple retries. Please try again later."]),
       at_start).
Proof.
  assert (served_from_cache "ACME" 0 at_start = None) as Hmiss by reflexivity.
  assert (∀ k, (k < 5)%nat → info_read (rate_limiting "ACME") k = Raises (HTTPError 429))
    as Hreads by (intros k _; reflexivity).
  split; [exact Hmiss|]. split; [exact Hreads|].
  exact (rate_limited_fetch ascii_title no_dates (λ _, "") "ACME" 0 rate_limiting at_start
           Hmiss Hreads).
Defined.

Lemma non_string_recommendation_loses_snapshot_witness :
  served_from_cache "ACME" 0 at_start = None
  ∧ info_read (provider_of info_with_null_key "ACME") 0 = Returns info_with_null_key
  ∧ info_with_null_key !! "recommendationKey" = Some PyNone
  ∧ is_str PyNone = false
  ∧ ∃ e,
      fetch_stock_data_from_yfinance ascii_title no_dates (λ _, "") "ACME" 0
        (provider_of info_with_null_key) at_start
      = ((None, ["yfinance data fetch error: " +:+ (λ _ : raised, "") e]), at_start).
Proof.
  assert (served_from_cache "ACME" 0 at_start = None) as Hmiss by reflexivity.
  assert (info_with_null_key !! "recommendationKey" = Some PyNone) as Hkey
    by apply lookup_insert_eq.
  split; [exact Hmiss|]. split; [reflexivity|]. split; [exact Hkey|]. split; [reflexivity|].
  destruct (non_string_recommendation_loses_snapshot ascii_title no_dates (λ _, "")
              "ACME" 0 (provider_of info_with_null_key) at_start info_with_null_key PyNone
              Hmiss eq_refl Hkey eq_refl) as [e He].
  exists e. exact He.
Defined.

Lemma no_target_price : truthy (get info_without_target "targetMeanPrice") = false.
Proof. vm_compute. reflexivity. Qed.

Lemma missing_target_price_breaks_route_witness :
  "ACME" ≠ ""
  ∧ served_from_cache "ACME" 0 at_start = None
  ∧ _fetch_yfinance_info_with_retry (provider_of info_without_target "ACME")
    = Info info_without_target
  ∧ build_stock_data ascii_title no_dates "ACME" info_without_target
      (history_1y (provider_of info_without_target "ACME"))
    = Returns ((built_from info_without_target).1, (built_from info_without_target).2)
  ∧ truthy (get info_without_target "targetMeanPrice") = false
  ∧ ∃ s',
      get_stock_data_api plain_mean (λ _, "") ascii_title no_dates (λ _, "")
        (Some "ACME") 0 (provider_of info_without_target) at_start
      = (Raises (Builtin TypeError), s').
Proof.
  assert ("ACME" ≠ "") as Hne by discriminate.
  assert (served_from_cache "ACME" 0 at_start = None) as Hmiss by reflexivity.
  pose proof (sample_info_read info_without_target info_without_target_not_empty) as Hinfo.
  split; [exact Hne|]. split; [exact Hmiss|]. split; [exact Hinfo|].
  split; [exact sample_built_without_target|]. split; [exact no_target_price|].
  destruct (missing_target_price_breaks_route plain_mean (λ _, "") ascii_title no_dates
              (λ _, "") "ACME" 0 (provider_of info_without_target) at_start
              info_without_target _ _ Hne Hmiss Hinfo sample_built_without_target
              no_target_price) as (s' & Hraise & _).
  exists s'. exact Hraise.
Defined.

Lemma sample_errors : (built_from sample_info).2 = [].
Proof. vm_compute. reflexivity. Qed.

Lemma sample_built_not_empty : empty_dict (built_from sample_info).1 = false.
Proof. vm_compute. reflexivity. Qed.

Lemma sample_route :
  get_stock_data_api plain_mean (λ _, "") ascii_title no_dates (λ _, "")
    (Some "ACME") 0 (provider_of sample_info) at_start
  = (Returns (Analysed (report_from sample_info) None), analysed_state sample_info).
Proof.
  assert ("ACME" ≠ "") as Hne by discriminate.
  rewrite (route_analyses plain_mean (λ _, "") ascii_title no_dates (λ _, "")
             "ACME" 0 (provider_of sample_info) at_start _ _ 0%nat (built_from sample_info).1
             Hne (sample_fetched sample_info sample_info_not_empty sample_builds)
             eq_refl sample_built_not_empty).
  rewrite sample_analysed, sample_errors. reflexivity.
Qed.

Lemma second_request_repeats_the_analysis_witness :
  served_from_cache "ACME" 0 at_start = None
  ∧ get_stock_data_api plain_mean (λ _, "") ascii_title no_dates (λ _, "")
      (Some "ACME") 0 (provider_of sample_info) at_start
    = (Returns (Analysed (report_from sample_info) None), analysed_state sample_info)
  ∧ within_expiration one_hour 0 = true
  ∧ get_stock_data_api plain_mean (λ _, "") ascii_title no_dates (λ _, "")
      (Some "ACME") one_hour rate_limiting (analysed_state sample_info)
    = (Returns (Analysed (report_from sample_info) None), analysed_state sample_info).
Proof.
  assert (served_from_cache "ACME" 0 at_start = None) as Hmiss by reflexivity.
  split; [exact Hmiss|]. split; [exact sample_route|]. split; [exact one_hour_within|].
  exact (second_request_repeats_the_analysis plain_mean (λ _, "") ascii_title no_dates
           (λ _, "") "ACME" 0 one_hour (provider_of sample_info) rate_limiting
           at_start _ _ _ Hmiss sample_route one_hour_within).
Defined.

Lemma at_start_sound : cache_sound at_start.
Proof.
  intros ticker entry H. unfold at_start in H. cbn [STOCK_DATA_CACHE] in H.
  by rewrite lookup_empty in H.
Qed.

Lemma route_keeps_cache_sound_witness :
  cache_sound at_start
  ∧ cache_sound
      (get_stock_data_api plain_mean (λ _, "") ascii_title no_dates (λ _, "")
         (Some "ACME") 0 (provider_of sample_info) at_start).2.
Proof.
  split; [exact at_start_sound|].
  destruct (route_keeps_cache_sound plain_mean (λ _, "") ascii_title no_dates (λ _, "")
              (Some "ACME") 0 (provider_of sample_info) at_start at_start_sound)
    as [Hsound _].
  exact Hsound.
Defined.

Lemma sample_info_in_provider_model : provider_model no_dates sample_info.
Proof.
  unfold provider_model. split_and!.
  - right. exists (NFloat 299). split; [vm_compute; reflexivity | exact I].
  - right. exists (NFloat 298). split; [vm_compute; reflexivity | exact I].
  - right. exists (NFloat 330). split; [vm_compute; reflexivity | exact I].
  - right. exists (NFloat 299). split; [vm_compute; reflexivity | exact I].
  - right. exists (NFloat 100). split; [vm_compute; reflexivity | exact I].
  - apply fittingb_fitting. vm_compute. reflexivity.
  - apply fittingb_fitting. vm_compute. reflexivity.
  - apply fittingb_fitting. vm_compute. reflexivity.
  - apply fittingb_fitting. vm_compute. reflexivity.
  - vm_compute. reflexivity.
  - vm_compute. reflexivity.
  - vm_compute. reflexivity.
Qed.

Lemma route_answers_with_target_price_witness :
  "ACME" ≠ ""
  ∧ served_from_cache "ACME" 0 at_start = None
  ∧ _fetch_yfinance_info_with_retry (provider_of sample_info "ACME") = Info sample_info
  ∧ history_1y (provider_of sample_info "ACME") = Returns (rising 200)
  ∧ provider_model no_dates sample_info
  ∧ truthy (get sample_info "targetMeanPrice") = true
  ∧ truthy (get sample_info "currentPrice") = true
  ∧ ∃ analysis s',
      get_stock_data_api plain_mean (λ _, "") ascii_title no_dates (λ _, "")
        (Some "ACME") 0 (provider_of sample_info) at_start
      = (Returns (Analysed analysis
                    (if bool_decide (rising 200 = []) then Some [no_history "ACME"]
                     else None)),
         s').
Proof.
  assert ("ACME" ≠ "") as Hne by discriminate.
  assert (served_from_cache "ACME" 0 at_start = None) as Hmiss by reflexivity.
  pose proof (sample_info_read sample_info sample_info_not_empty) as Hinfo.
  assert (truthy (get sample_info "targetMeanPrice") = true) as Ht
    by (vm_compute; reflexivity).
  assert (truthy (get sample_info "currentPrice") = true) as Hp
    by (vm_compute; reflexivity).
  split; [exact Hne|]. split; [exact Hmiss|]. split; [exact Hinfo|].
  split; [reflexivity|]. split; [exact sample_info_in_provider_model|].
  split; [exact Ht|]. split; [exact Hp|].
  destruct (route_answers_with_target_price plain_mean (λ _, "") ascii_title no_dates
              (λ _, "") "ACME" 0 (provider_of sample_info) at_start sample_info
              (rising 200) Hne Hmiss Hinfo eq_refl sample_info_in_provider_model Ht Hp)
    as (analysis & s' & Hroute).
  exists analysis, s'. exact Hroute.
Defined.

Lemma empty_info_is_not_found_witness :
  "ACME" ≠ ""
  ∧ served_from_cache "ACME" 0 at_start = None
  ∧ (∀ k, (k < 5)%nat → info_read (knowing_nothing "ACME") k = Returns ∅)
  ∧ ∃ r,
      get_stock_data_api plain_mean (λ _, "") ascii_title no_dates (λ _, "")
        (Some "ACME") 0 knowing_nothing at_start = (Returns r, at_start)
      ∧ status_code r = 404.
Proof.
  assert ("ACME" ≠ "") as Hne by discriminate.
  assert (served_from_cache "ACME" 0 at_start = None) as Hmiss by reflexivity.
  assert (∀ k, (k < 5)%nat → info_read (knowing_nothing "ACME") k = Returns ∅) as Hreads
    by (intros k _; reflexivity).
  split; [exact Hne|]. split; [exact Hmiss|]. split; [exact Hreads|].
  destruct (empty_info_is_not_found plain_mean (λ _, "") ascii_title no_dates (λ _, "")
              "ACME" 0 knowing_nothing at_start Hne Hmiss Hreads) as (r & Hr & Hs & _).
  exists r. split; [exact Hr | exact Hs].
Defined.
